(** * Coupon / commission evaluator and verification-code lifecycle

    A shallow embedding of [apply_coupon] and [calculate_commission]
    (server.py) and of [store_verification_code] and [verify_code]
    (verification_service.py).

    Modelling conventions.
    - A Python [float] is an IEEE binary64 number: Rocq's primitive [float].
      A Python [int] is a [Z].  An instant is a [Z] counting microseconds;
      [timedelta(minutes=10)] is [ten_minutes].  A [datetime] is an instant
      that is aware of its time zone ([datetime.now(timezone.utc)]) or naive
      (a date read from a document: neither client is created with
      [tz_aware]); Python refuses to order one against the other.
    - The driver writes a datetime as a count of whole milliseconds
      ([bson_datetime]), in a document and in a filter alike.
    - A document of a collection is a record; a field read with [.get] that
      may be absent or null is an [option].
    - A collection handle either holds its documents or raises on every
      operation (the store cannot be reached): [collection A] is
      [outcome (list A)].
    - [try: ... except Exception] is an [outcome] computed by the body and a
      wrapper that maps [Raise] to the handler's value.
    - A call that reads the clock more than once takes a [clock]:
      [reading k] of it is what the k-th [datetime.now(timezone.utc)] of the
      call returns, counting from 0.  A call that reads it at most once takes
      the instant [now]. *)

From Stdlib Require Import Floats ZArith List String Bool Lia.
From Stdlib Require Import DecimalString.
Import ListNotations.

Open Scope string_scope.
Open Scope Z_scope.

(* Decimal literals such as 0.1 denote the nearest binary64 number. *)
Set Warnings "-inexact-float".

(** ** Python values and exceptions *)

Module Py.

Inductive exn : Type :=
| StoreError      (* a pymongo operation failed *)
| OverflowError   (* int too large to convert to float *)
| TypeError.      (* can't compare offset-naive and offset-aware datetimes *)

Inductive outcome (A : Type) : Type :=
| Return (a : A)
| Raise (e : exn).
Arguments Return {A} a.
Arguments Raise {A} e.

Definition bind {A B : Type} (m : outcome A) (k : A -> outcome B) : outcome B :=
  match m with
  | Return a => k a
  | Raise e => Raise e
  end.

(** A [datetime]: an instant in microseconds, with a time zone or without. *)
Inductive datetime : Type :=
| Aware (instant : Z)
| Naive (instant : Z).

(** [a < b] on datetimes ([b > a] is the same test): an aware and a naive
    datetime do not compare. *)
Definition datetime_lt (a b : datetime) : outcome bool :=
  match a, b with
  | Aware x, Aware y | Naive x, Naive y => Return (x <? y)
  | _, _ => Raise TypeError
  end.

(** The clock as one call reads it. *)
Definition clock : Type := nat -> Z.

(** What the k-th [datetime.now(timezone.utc)] of the call returns. *)
Definition reading (k : nat) (c : clock) : Z := c k.

(** [min(a, b)]: the first argument unless the second is smaller. *)
Definition min (a b : float) : float :=
  if PrimFloat.ltb b a then b else a.

(** Truth value of a float: every float but [0.0] and [-0.0]. *)
Definition truthy_float (x : float) : bool := negb (PrimFloat.eqb x 0%float).

(** Truth value of an int. *)
Definition truthy_int (n : Z) : bool := negb (n =? 0).

(** Truth value of a string. *)
Definition truthy_str (s : string) : bool :=
  match s with EmptyString => false | String _ _ => true end.

(** [float(n)] for an int [n]: the nearest binary64 number, ties to even;
    an int beyond the range of binary64 raises OverflowError. *)
Definition float_of_int (n : Z) : outcome float :=
  let f := SF2Prim (binary_normalize prec emax n 0 false) in
  if PrimFloat.is_infinity f then Raise OverflowError else Return f.

(** [n * x] for an int [n] and a float [x]. *)
Definition int_mul_float (n : Z) (x : float) : outcome float :=
  bind (float_of_int n) (fun f => Return (PrimFloat.mul f x)).

(** [a == b] on optional strings ([None == None] holds). *)
Definition opt_str_eqb (a b : option string) : bool :=
  match a, b with
  | None, None => true
  | Some x, Some y => String.eqb x y
  | _, _ => false
  end.

(** Decimal digits of a natural number. *)
Definition digits (n : Z) : string :=
  NilZero.string_of_uint (N.to_uint (Z.to_N n)).

(** Nearest integer to [m * 2^e], ties to even. *)
Definition round_half_even (m e : Z) : Z :=
  if 0 <=? e then m * 2 ^ e
  else
    let d := 2 ^ (- e) in
    let q := m / d in
    let r := m mod d in
    match 2 * r ?= d with
    | Lt => q
    | Gt => q + 1
    | Eq => if Z.even q then q else q + 1
    end.

(** [f"{x:.2f}"]: the float printed with two decimals, correctly rounded. *)
Definition format_2f (x : float) : string :=
  match Prim2SF x with
  | S754_nan => "nan"
  | S754_infinity s => if s then "-inf" else "inf"
  | S754_zero s => if s then "-0.00" else "0.00"
  | S754_finite s m e =>
      let n := round_half_even (100 * Z.pos m) e in
      let cents := n mod 100 in
      (if s then "-" else EmptyString) ++ digits (n / 100) ++ "."
        ++ (if cents <? 10 then "0" else EmptyString) ++ digits cents
  end.

End Py.

Import Py.

Notation "x <- m ;; k" := (bind m (fun x => k))
  (at level 61, m at next level, right associativity).

(** ** pymongo collections *)

Module Mongo.

(** A collection handle: its documents in natural order, or a store that
    raises on every operation. *)
Definition collection (A : Type) : Type := outcome (list A).

(** [find_one(filter)]: the first document that matches, else [None]. *)
Definition find_one {A : Type} (filter : A -> bool) (c : collection A)
  : outcome (option A) :=
  docs <- c ;; Return (List.find filter docs).

(** [count_documents(filter)]. *)
Definition count_documents {A : Type} (filter : A -> bool) (c : collection A)
  : outcome Z :=
  docs <- c ;; Return (Z.of_nat (List.length (List.filter filter docs))).

(** [delete_many(filter)]. *)
Definition delete_many {A : Type} (filter : A -> bool) (c : collection A)
  : collection A :=
  docs <- c ;; Return (List.filter (fun d => negb (filter d)) docs).

Fixpoint update_first {A : Type} (filter : A -> bool) (update : A -> A)
    (docs : list A) : list A :=
  match docs with
  | [] => []
  | d :: rest =>
      if filter d then update d :: rest
      else d :: update_first filter update rest
  end.

(** [update_one(filter, update)]: changes the first document that matches. *)
Definition update_one {A : Type} (filter : A -> bool) (update : A -> A)
    (c : collection A) : collection A :=
  docs <- c ;; Return (update_first filter update docs).

(** What the driver writes for a datetime, and what a client reads back:
    the instant cut to whole milliseconds. *)
Definition bson_datetime (t : Z) : Z := 1000 * (t / 1000).

(** An ObjectId no document of the collection carries. *)
Definition fresh_id (ids : list N) : N := N.succ (fold_right N.max 0%N ids).

(** [insert_one(doc)]: the driver gives the document a fresh [_id] and the
    document goes last in natural order. *)
Definition insert_one {A : Type} (oid : A -> N) (doc : N -> A)
    (c : collection A) : collection A :=
  docs <- c ;; Return (docs ++ [doc (fresh_id (map oid docs))])%list.

End Mongo.

Import Mongo.

(** ** server.py: the coupon and commission evaluator *)

Module Server.

(** *** Documents (models.py) *)

Inductive CouponType : Type := PERCENTAGE | FIXED | BUY_ONE_GET_ONE | FREE_SHIPPING.

Inductive CouponScope : Type := GLOBAL | CATEGORY | PRODUCT | SELLER.

Record Coupon : Type := {
  coupon_id : string;
  coupon_code : string;
  coupon_type : CouponType;
  coupon_value : float;
  coupon_scope : CouponScope;
  scope_value : option string;
  min_order_amount : option float;
  max_discount : option float;
  usage_limit : option Z;
  usage_per_user : option Z;
  used_count : Z;
  starts_at : option Z;     (* an instant, as the document holds it *)
  expires_at : option Z;
  coupon_is_active : bool
}.

Record CouponUsage : Type := {
  usage_coupon_id : string;
  usage_user_id : string
}.

Record Product : Type := {
  product_id : string;
  product_category : option string;
  product_seller_id : option string
}.

Record CartItem : Type := {
  item_product_id : string;
  item_quantity : Z;
  item_price : float
}.

Record CommissionRule : Type := {
  rule_category : option string;
  rule_commission_rate : float;
  min_order_value : option float;
  max_order_value : option float;
  rule_is_active : bool
}.

Record SellerProfile : Type := {
  seller_user_id : string;
  seller_commission_rate : option float
}.

(** The collections the two functions read. *)
Record database : Type := {
  coupons_collection : collection Coupon;
  coupon_usage_collection : collection CouponUsage;
  products_collection : collection Product;
  commission_rules_collection : collection CommissionRule;
  seller_profiles_collection : collection SellerProfile
}.

Definition scope_eqb (a b : CouponScope) : bool :=
  match a, b with
  | GLOBAL, GLOBAL | CATEGORY, CATEGORY | PRODUCT, PRODUCT | SELLER, SELLER => true
  | _, _ => false
  end.

(** *** apply_coupon *)

(** The filter [{"code": coupon_code, "is_active": True}]. *)
Definition coupon_filter (code : string) (c : Coupon) : bool :=
  String.eqb (coupon_code c) code && coupon_is_active c.

(** [coupon.get("starts_at") and datetime.now(timezone.utc) < coupon["starts_at"]]:
    a date that is set is truthy, and the document gives it naive. *)
Definition not_yet_active (now : Z) (c : Coupon) : outcome bool :=
  match starts_at c with
  | None => Return false
  | Some t => datetime_lt (Aware now) (Naive t)
  end.

(** [coupon.get("expires_at") and datetime.now(timezone.utc) > coupon["expires_at"]]. *)
Definition has_expired (now : Z) (c : Coupon) : outcome bool :=
  match expires_at c with
  | None => Return false
  | Some t => datetime_lt (Naive t) (Aware now)
  end.

(** [coupon.get("usage_limit") and coupon.get("used_count", 0) >= coupon["usage_limit"]]. *)
Definition usage_limit_exceeded (c : Coupon) : bool :=
  match usage_limit c with
  | None => false
  | Some n => truthy_int n && (n <=? used_count c)
  end.

(** The filter [{"coupon_id": coupon["id"], "user_id": user_id}]. *)
Definition usage_filter (c : Coupon) (user : string) (u : CouponUsage) : bool :=
  String.eqb (usage_coupon_id u) (coupon_id c) && String.eqb (usage_user_id u) user.

(** The per-user block: counts the usages only when [user_id] and
    [coupon.get("usage_per_user")] are both truthy. *)
Definition user_limit_reached (usages : collection CouponUsage)
    (c : Coupon) (user_id : option string) : outcome bool :=
  match user_id, usage_per_user c with
  | Some user, Some limit =>
      if truthy_str user && truthy_int limit then
        user_usage <- count_documents (usage_filter c user) usages ;;
        Return (limit <=? user_usage)
      else Return false
  | _, _ => Return false
  end.

(** [coupon.get("min_order_amount") and cart_total < coupon["min_order_amount"]]:
    the minimum the cart misses, if it misses one. *)
Definition below_minimum (cart_total : float) (c : Coupon) : option float :=
  match min_order_amount c with
  | None => None
  | Some m => if truthy_float m && PrimFloat.ltb cart_total m then Some m else None
  end.

(** The [if / elif / elif] that sets [item_eligible]. *)
Definition item_eligible (c : Coupon) (p : Product) : bool :=
  match coupon_scope c with
  | CATEGORY => opt_str_eqb (product_category p) (scope_value c)
  | PRODUCT => opt_str_eqb (Some (product_id p)) (scope_value c)
  | SELLER => opt_str_eqb (product_seller_id p) (scope_value c)
  | GLOBAL => false
  end.

(** The [for item in cart_items] loop, on the pair
    [(scope_valid, eligible_total)]. *)
Fixpoint scope_loop (products : collection Product) (c : Coupon)
    (items : list CartItem) (scope_valid : bool) (eligible_total : float)
  : outcome (bool * float) :=
  match items with
  | [] => Return (scope_valid, eligible_total)
  | item :: rest =>
      product <- find_one (fun p => String.eqb (product_id p) (item_product_id item))
                          products ;;
      match product with
      | None => scope_loop products c rest scope_valid eligible_total
      | Some p =>
          if item_eligible c p then
            line <- int_mul_float (item_quantity item) (item_price item) ;;
            scope_loop products c rest true (PrimFloat.add eligible_total line)
          else scope_loop products c rest scope_valid eligible_total
      end
  end.

(** Truth value of [cart_items]: neither [None] nor the empty list. *)
Definition truthy_items (cart_items : option (list CartItem)) : bool :=
  match cart_items with
  | None | Some [] => false
  | Some (_ :: _) => true
  end.

(** The scope block: [None] when it returns "not applicable", otherwise the
    value of [cart_total] after the block. *)
Definition check_scope (products : collection Product) (c : Coupon)
    (cart_total : float) (cart_items : option (list CartItem))
  : outcome (option float) :=
  match cart_items with
  | Some items =>
      if negb (scope_eqb (coupon_scope c) GLOBAL) && truthy_items cart_items then
        r <- scope_loop products c items false 0%float ;;
        let (scope_valid, eligible_total) := r in
        if negb scope_valid then Return None
        else if PrimFloat.ltb 0%float eligible_total then Return (Some eligible_total)
        else Return (Some cart_total)
      else Return (Some cart_total)
  | None => Return (Some cart_total)
  end.

(** The [if / elif] chain on [coupon["type"]], before the final cap. *)
Definition discount_by_type (c : Coupon) (cart_total : float) : float :=
  match coupon_type c with
  | PERCENTAGE =>
      let discount := PrimFloat.mul cart_total (PrimFloat.div (coupon_value c) 100%float) in
      match max_discount c with
      | Some m => if truthy_float m then Py.min discount m else discount
      | None => discount
      end
  | FIXED => coupon_value c
  | FREE_SHIPPING => 10%float
  | BUY_ONE_GET_ONE => PrimFloat.mul cart_total 0.5%float
  end.

(** The body of the [try]. *)
Definition apply_coupon_body (db : database) (now : Z) (cart_total : float)
    (code : string) (user_id : option string)
    (cart_items : option (list CartItem)) : outcome (float * string) :=
  coupon <- find_one (coupon_filter code) (coupons_collection db) ;;
  match coupon with
  | None => Return (0%float, "Invalid coupon code")
  | Some coupon =>
      early <- not_yet_active now coupon ;;
      if (early : bool) then Return (0%float, "Coupon is not yet active")
      else
        late <- has_expired now coupon ;;
        if (late : bool) then Return (0%float, "Coupon has expired")
        else if usage_limit_exceeded coupon then
          Return (0%float, "Coupon usage limit exceeded")
        else
          reached <- user_limit_reached (coupon_usage_collection db) coupon user_id ;;
          if (reached : bool) then
            Return (0%float, "You have reached the usage limit for this coupon")
          else
          match below_minimum cart_total coupon with
          | Some m =>
              Return (0%float, "Minimum order amount $" ++ format_2f m ++ " required")
          | None =>
              scoped <- check_scope (products_collection db) coupon cart_total
                                    cart_items ;;
              match scoped with
              | None =>
                  Return (0%float, "Coupon is not applicable to items in your cart")
              | Some cart_total =>
                  let discount := discount_by_type coupon cart_total in
                  Return (Py.min discount cart_total, "Coupon applied successfully")
              end
          end
  end.

Definition apply_coupon (db : database) (now : Z) (cart_total : float)
    (code : string) (user_id : option string)
    (cart_items : option (list CartItem)) : float * string :=
  match apply_coupon_body db now cart_total code user_id cart_items with
  | Return r => r
  | Raise _ => (0%float, "Error applying coupon")
  end.

(** *** calculate_commission *)

(** A field value of a document as a filter sees it. *)
Inductive value : Type :=
| Null                 (* null, or the field is missing *)
| Str (s : string)
| Boolean (b : bool)
| Num (x : float).

Definition value_eqb (v w : value) : bool :=
  match v, w with
  | Null, Null => true
  | Str a, Str b => String.eqb a b
  | Boolean a, Boolean b => Bool.eqb a b
  | Num a, Num b => PrimFloat.eqb a b
  | _, _ => false
  end.

(** What a filter asks of one field: equality, [$lte] or [$gte]. *)
Inductive condition : Type :=
| Equals (v : value)
| Lte (x : float)
| Gte (x : float).

(** The value stored under one key of a filter: a condition on the field
    the key names, or under ["$or"] a list of one-field filters. *)
Inductive entry : Type :=
| On (c : condition)
| Alternatives (alts : list (string * condition)).

(** [d[k] = v]: replaces the value of a key that is present, else appends. *)
Fixpoint dict_set {V : Type} (k : string) (v : V) (d : list (string * V))
  : list (string * V) :=
  match d with
  | [] => [(k, v)]
  | (k', v') :: rest =>
      if String.eqb k' k then (k', v) :: rest else (k', v') :: dict_set k v rest
  end.

(** A dict display [{k1: v1, k2: v2, ...}]: the pairs are stored from left
    to right, so a key written twice keeps the last value. *)
Definition dict_display {V : Type} (pairs : list (string * V)) : list (string * V) :=
  fold_left (fun d kv => dict_set (fst kv) (snd kv) d) pairs [].

Definition rule_get (r : CommissionRule) (key : string) : value :=
  if String.eqb key "category" then
    match rule_category r with Some s => Str s | None => Null end
  else if String.eqb key "is_active" then Boolean (rule_is_active r)
  else if String.eqb key "commission_rate" then Num (rule_commission_rate r)
  else if String.eqb key "min_order_value" then
    match min_order_value r with Some x => Num x | None => Null end
  else if String.eqb key "max_order_value" then
    match max_order_value r with Some x => Num x | None => Null end
  else Null.

Definition holds (v : value) (c : condition) : bool :=
  match c with
  | Equals w => value_eqb v w
  | Lte x => match v with Num y => PrimFloat.leb y x | _ => false end
  | Gte x => match v with Num y => PrimFloat.leb x y | _ => false end
  end.

(** A rule matches a filter when every key of the filter is satisfied. *)
Definition rule_matches (q : list (string * entry)) (r : CommissionRule) : bool :=
  forallb (fun kv =>
             match snd kv with
             | On c => holds (rule_get r (fst kv)) c
             | Alternatives alts =>
                 existsb (fun a => holds (rule_get r (fst a)) (snd a)) alts
             end) q.

(** The filter of the category lookup, as the source writes it. *)
Definition category_rule_query (category : string) (order_total : float)
  : list (string * entry) :=
  dict_display
    [ ("category", On (Equals (Str category)));
      ("is_active", On (Equals (Boolean true)));
      ("$or", Alternatives [ ("min_order_value", Lte order_total);
                             ("min_order_value", Equals Null) ]);
      ("$or", Alternatives [ ("max_order_value", Gte order_total);
                             ("max_order_value", Equals Null) ]) ].

(** The filter [{"category": None, "is_active": True}]. *)
Definition default_rule_query : list (string * entry) :=
  dict_display
    [ ("category", On (Equals Null));
      ("is_active", On (Equals (Boolean true))) ].

(** The body of the [try]. *)
Definition calculate_commission_body (db : database) (order_total : float)
    (seller_id : string) (category : option string) : outcome (float * float) :=
  commission_rule <-
    match category with
    | Some cat =>
        if truthy_str cat then
          find_one (rule_matches (category_rule_query cat order_total))
                   (commission_rules_collection db)
        else Return None
    | None => Return None
    end ;;
  commission_rule <-
    match commission_rule with
    | None => find_one (rule_matches default_rule_query) (commission_rules_collection db)
    | Some r => Return (Some r)
    end ;;
  commission_rate <-
    match commission_rule with
    | None =>
        seller <- find_one (fun s => String.eqb (seller_user_id s) seller_id)
                           (seller_profiles_collection db) ;;
        match seller with
        | Some s => match seller_commission_rate s with
                    | Some rate => Return rate
                    | None => Return 10%float
                    end
        | None => Return 10%float
        end
    | Some r => Return (rule_commission_rate r)
    end ;;
  Return (commission_rate,
          PrimFloat.mul order_total (PrimFloat.div commission_rate 100%float)).

Definition calculate_commission (db : database) (order_total : float)
    (seller_id : string) (category : option string) : float * float :=
  match calculate_commission_body db order_total seller_id category with
  | Return r => r
  | Raise _ => (10%float, PrimFloat.mul order_total 0.1%float)
  end.

(** *** Vocabulary of the statements about [apply_coupon] *)

(** Checks 1 to 6 let the call through with coupon [c]. *)
Definition passes_validation (db : database) (now : Z) (cart_total : float)
    (code : string) (user_id : option string) (c : Coupon) : Prop :=
  find_one (coupon_filter code) (coupons_collection db) = Return (Some c)
  /\ not_yet_active now c = Return false
  /\ has_expired now c = Return false
  /\ usage_limit_exceeded c = false
  /\ user_limit_reached (coupon_usage_collection db) c user_id = Return false
  /\ below_minimum cart_total c = None.

(** The scope predicate on a cart item: its product is in the catalogue
    and matches the coupon's scope. *)
Definition item_matches (products : list Product) (c : Coupon) (item : CartItem)
  : bool :=
  match List.find (fun p => String.eqb (product_id p) (item_product_id item)) products with
  | Some p => item_eligible c p
  | None => false
  end.

(** Sum of quantity x price over the items, added in order to [acc]. *)
Fixpoint subtotal (items : list CartItem) (acc : float) : outcome float :=
  match items with
  | [] => Return acc
  | item :: rest =>
      line <- int_mul_float (item_quantity item) (item_price item) ;;
      subtotal rest (PrimFloat.add acc line)
  end.

(** The eligible subtotal: the sum over the matching items only. *)
Definition eligible_subtotal (products : list Product) (c : Coupon)
    (items : list CartItem) : outcome float :=
  subtotal (List.filter (item_matches products c) items) 0%float.

Definition with_products (db : database) (p : collection Product) : database :=
  {| coupons_collection := coupons_collection db;
     coupon_usage_collection := coupon_usage_collection db;
     products_collection := p;
     commission_rules_collection := commission_rules_collection db;
     seller_profiles_collection := seller_profiles_collection db |}.

Definition with_usage (db : database) (u : collection CouponUsage) : database :=
  {| coupons_collection := coupons_collection db;
     coupon_usage_collection := u;
     products_collection := products_collection db;
     commission_rules_collection := commission_rules_collection db;
     seller_profiles_collection := seller_profiles_collection db |}.

End Server.

(** ** hashlib: SHA-256 (FIPS 180-4) on byte strings *)

Module Hashlib.

(** A 32-bit word is a [Z] below [2^32]; sums wrap around. *)
Definition word (x : Z) : Z := x mod 4294967296.

Definition rotr (n x : Z) : Z :=
  Z.lor (Z.shiftr x n) (word (Z.shiftl x (32 - n))).

(** Bitwise complement of a 32-bit word. *)
Definition complement (x : Z) : Z := Z.lxor x 4294967295.

Definition choose (x y z : Z) : Z :=
  Z.lxor (Z.land x y) (Z.land (complement x) z).

Definition majority (x y z : Z) : Z :=
  Z.lxor (Z.lxor (Z.land x y) (Z.land x z)) (Z.land y z).

Definition big_sigma0 (x : Z) : Z :=
  Z.lxor (Z.lxor (rotr 2 x) (rotr 13 x)) (rotr 22 x).

Definition big_sigma1 (x : Z) : Z :=
  Z.lxor (Z.lxor (rotr 6 x) (rotr 11 x)) (rotr 25 x).

Definition small_sigma0 (x : Z) : Z :=
  Z.lxor (Z.lxor (rotr 7 x) (rotr 18 x)) (Z.shiftr x 3).

Definition small_sigma1 (x : Z) : Z :=
  Z.lxor (Z.lxor (rotr 17 x) (rotr 19 x)) (Z.shiftr x 10).

(** The first 32 bits of the fractional parts of the cube roots of the
    first 64 primes. *)
Definition round_constants : list Z :=
  [ 1116352408; 1899447441; 3049323471; 3921009573;
    961987163; 1508970993; 2453635748; 2870763221;
    3624381080; 310598401; 607225278; 1426881987;
    1925078388; 2162078206; 2614888103; 3248222580;
    3835390401; 4022224774; 264347078; 604807628;
    770255983; 1249150122; 1555081692; 1996064986;
    2554220882; 2821834349; 2952996808; 3210313671;
    3336571891; 3584528711; 113926993; 338241895;
    666307205; 773529912; 1294757372; 1396182291;
    1695183700; 1986661051; 2177026350; 2456956037;
    2730485921; 2820302411; 3259730800; 3345764771;
    3516065817; 3600352804; 4094571909; 275423344;
    430227734; 506948616; 659060556; 883997877;
    958139571; 1322822218; 1537002063; 1747873779;
    1955562222; 2024104815; 2227730452; 2361852424;
    2428436474; 2756734187; 3204031479; 3329325298 ].

(** The eight working words. *)
Record state : Type := {
  wa : Z; wb : Z; wc : Z; wd : Z; we : Z; wf : Z; wg : Z; wh : Z
}.

(** The first 32 bits of the fractional parts of the square roots of the
    first 8 primes. *)
Definition initial_state : state :=
  {| wa := 1779033703; wb := 3144134277; wc := 1013904242; wd := 2773480762;
     we := 1359893119; wf := 2600822924; wg := 528734635; wh := 1541459225 |}.

(** The bytes of a string ([str.encode()] of a string given by its UTF-8
    bytes). *)
Definition encode (s : string) : list Z :=
  map (fun c => Z.of_N (Ascii.N_of_ascii c)) (list_ascii_of_string s).

(** The message followed by the byte 0x80, zeros, and its length in bits on
    eight bytes, a multiple of 64 bytes in all. *)
Definition pad (message : list Z) : list Z :=
  let len := Z.of_nat (List.length message) in
  let bits := 8 * len in
  (message ++ [128] ++ repeat 0 (Z.to_nat ((55 - len) mod 64))
     ++ map (fun i => (bits / 2 ^ (8 * Z.of_nat i)) mod 256) (rev (seq 0 8)))%list.

(** Big-endian words of a block. *)
Fixpoint words (bytes : list Z) : list Z :=
  match bytes with
  | a :: b :: c :: d :: rest =>
      (a * 16777216 + b * 65536 + c * 256 + d) :: words rest
  | _ => []
  end.

(** The message schedule, latest word first: 48 words are added to the 16
    of the block. *)
Definition schedule (block : list Z) : list Z :=
  rev (Nat.iter 48
         (fun w => word (small_sigma1 (nth 1 w 0) + nth 6 w 0
                         + small_sigma0 (nth 14 w 0) + nth 15 w 0) :: w)
         (rev (words block))).

Definition round (s : state) (kw : Z * Z) : state :=
  let t1 := wh s + big_sigma1 (we s) + choose (we s) (wf s) (wg s) + fst kw + snd kw in
  let t2 := big_sigma0 (wa s) + majority (wa s) (wb s) (wc s) in
  {| wa := word (t1 + t2); wb := wa s; wc := wb s; wd := wc s;
     we := word (wd s + t1); wf := we s; wg := wf s; wh := wg s |}.

Definition compress (h : state) (block : list Z) : state :=
  let s := fold_left round (combine round_constants (schedule block)) h in
  {| wa := word (wa h + wa s); wb := word (wb h + wb s);
     wc := word (wc h + wc s); wd := word (wd h + wd s);
     we := word (we h + we s); wf := word (wf h + wf s);
     wg := word (wg h + wg s); wh := word (wh h + wh s) |}.

(** Takes one byte in; a full buffer of 64 bytes is compressed. *)
Definition absorb (hb : state * list Z) (byte : Z) : state * list Z :=
  let buffer := (snd hb ++ [byte])%list in
  if Nat.eqb (List.length buffer) 64 then (compress (fst hb) buffer, [])
  else (fst hb, buffer).

Definition sha256 (message : list Z) : state :=
  fst (fold_left absorb (pad message) (initial_state, [])).

Definition hex_digit (n : Z) : Ascii.ascii :=
  Ascii.ascii_of_N (Z.to_N (if n <? 10 then 48 + n else 87 + n)).

(** The eight lower-case hexadecimal digits of a word. *)
Definition hex8 (w : Z) : string :=
  String (hex_digit (w / 268435456 mod 16))
    (String (hex_digit (w / 16777216 mod 16))
       (String (hex_digit (w / 1048576 mod 16))
          (String (hex_digit (w / 65536 mod 16))
             (String (hex_digit (w / 4096 mod 16))
                (String (hex_digit (w / 256 mod 16))
                   (String (hex_digit (w / 16 mod 16))
                      (String (hex_digit (w mod 16)) EmptyString))))))).

Definition hexdigest (h : state) : string :=
  hex8 (wa h) ++ hex8 (wb h) ++ hex8 (wc h) ++ hex8 (wd h)
    ++ hex8 (we h) ++ hex8 (wf h) ++ hex8 (wg h) ++ hex8 (wh h).

(** [hashlib.sha256(s.encode()).hexdigest()]. *)
Definition sha256_hexdigest (s : string) : string :=
  hexdigest (sha256 (encode s)).

End Hashlib.

Arguments Hashlib.sha256_hexdigest : simpl never.

(** ** verification_service.py: the verification-code lifecycle *)

Module VerificationService.

Record VerificationCode : Type := {
  _id : N;
  identifier : string;
  hashed_code : string;
  method : string;
  purpose : string;
  created_at : Z;
  expires_at : Z;
  verified : bool;
  verified_at : option Z;
  attempts : Z
}.

(** [timedelta(minutes=10)], in microseconds. *)
Definition ten_minutes : Z := 600000000.

(** The filter [{"identifier": identifier, "purpose": purpose}]. *)
Definition pair_filter (ident purp : string) (r : VerificationCode) : bool :=
  String.eqb (identifier r) ident && String.eqb (purpose r) purp.

(** The filter of the lookup in [verify_code]; the store compares
    [expires_at] with what the driver writes for [now]. *)
Definition live_filter (ident hashed purp : string) (now : Z)
    (r : VerificationCode) : bool :=
  String.eqb (identifier r) ident
  && String.eqb (hashed_code r) hashed
  && String.eqb (purpose r) purp
  && Bool.eqb (verified r) false
  && (bson_datetime now <? expires_at r).

(** [{"$inc": {"attempts": 1}}]. *)
Definition inc_attempts (r : VerificationCode) : VerificationCode :=
  {| _id := _id r; identifier := identifier r; hashed_code := hashed_code r;
     method := method r; purpose := purpose r; created_at := created_at r;
     expires_at := expires_at r; verified := verified r;
     verified_at := verified_at r; attempts := attempts r + 1 |}.

(** [{"$set": {"verified": True, "verified_at": now}}]. *)
Definition set_verified (now : Z) (r : VerificationCode) : VerificationCode :=
  {| _id := _id r; identifier := identifier r; hashed_code := hashed_code r;
     method := method r; purpose := purpose r; created_at := created_at r;
     expires_at := expires_at r; verified := true;
     verified_at := Some (bson_datetime now); attempts := attempts r |}.

(** The document [store_verification_code] inserts, as the store keeps
    it: the clock is read once for [created_at] and again for [expires_at]. *)
Definition new_record (ident hashed meth purp : string) (now : clock) (oid : N)
  : VerificationCode :=
  {| _id := oid; identifier := ident; hashed_code := hashed;
     method := meth; purpose := purp;
     created_at := bson_datetime (reading 0 now);
     expires_at := bson_datetime (reading 1 now + ten_minutes);
     verified := false; verified_at := None; attempts := 0 |}.

(** The body of the [try] of [store_verification_code]: the collection
    after the call. *)
Definition store_verification_code_body
    (verification_codes_collection : collection VerificationCode) (now : clock)
    (ident code meth purp : string) : collection VerificationCode :=
  let hashed_code := Hashlib.sha256_hexdigest code in
  let c := delete_many (pair_filter ident purp) verification_codes_collection in
  insert_one _id (new_record ident hashed_code meth purp now) c.

Definition store_verification_code
    (verification_codes_collection : collection VerificationCode) (now : clock)
    (ident code meth purp : string) : bool * collection VerificationCode :=
  match store_verification_code_body verification_codes_collection now
          ident code meth purp with
  | Return docs => (true, Return docs)
  | Raise _ => (false, verification_codes_collection)
  end.

(** The body of the [try] of [verify_code]: the returned flag and the
    collection after the call.  The clock is read for the filter, and again
    for [verified_at] when a record is found. *)
Definition verify_code_body
    (verification_codes_collection : collection VerificationCode) (now : clock)
    (ident code purp : string) : outcome (bool * list VerificationCode) :=
  let hashed_code := Hashlib.sha256_hexdigest code in
  record <- find_one (live_filter ident hashed_code purp (reading 0 now))
                     verification_codes_collection ;;
  match record with
  | None =>
      docs <- update_one (pair_filter ident purp) inc_attempts
                         verification_codes_collection ;;
      Return (false, docs)
  | Some record =>
      docs <- update_one (fun r => N.eqb (_id r) (_id record))
                         (set_verified (reading 1 now))
                         verification_codes_collection ;;
      Return (true, docs)
  end.

Definition verify_code
    (verification_codes_collection : collection VerificationCode) (now : clock)
    (ident code purp : string) : bool * collection VerificationCode :=
  match verify_code_body verification_codes_collection now ident code purp with
  | Return (ok, docs) => (ok, Return docs)
  | Raise _ => (false, verification_codes_collection)
  end.

(** A call of the service, and a run of calls from a collection. *)
Inductive call : Type :=
| Store (now : clock) (ident code meth purp : string)
| Verify (now : clock) (ident code purp : string).

Definition step (c : collection VerificationCode) (op : call)
  : collection VerificationCode :=
  match op with
  | Store now ident code meth purp =>
      snd (store_verification_code c now ident code meth purp)
  | Verify now ident code purp => snd (verify_code c now ident code purp)
  end.

Definition run (c : collection VerificationCode) (ops : list call)
  : collection VerificationCode :=
  fold_left step ops c.

(** The records of a collection kept for one (identifier, purpose) pair. *)
Definition records_for (ident purp : string) (docs : list VerificationCode)
  : list VerificationCode :=
  List.filter (pair_filter ident purp) docs.

(** The state a collection is in when the service alone writes to it: no
    two documents share an [_id], and a pair has at most one record. *)
Definition consistent (docs : list VerificationCode) : Prop :=
  NoDup (map _id docs)
  /\ forall ident purp, (List.length (records_for ident purp docs) <= 1)%nat.

(** Every record of the pair has been consumed. *)
Definition consumed (ident purp : string) (docs : list VerificationCode) : Prop :=
  forall r, In r docs -> pair_filter ident purp r = true -> verified r = true.

(** The call issues a new code for the pair. *)
Definition reissues (ident purp : string) (op : call) : bool :=
  match op with
  | Store _ ident' _ _ purp' => String.eqb ident' ident && String.eqb purp' purp
  | Verify _ _ _ _ => false
  end.

End VerificationService.

(** ** Concrete stores and carts used by the examples *)

Module Examples.

Import Server.

(** A clock that reads [t] every time. *)
Definition stopped (t : Z) : clock := fun _ => t.

(** A clock that starts at [t] and is one microsecond later at each
    reading. *)
Definition ticking (t : Z) : clock := fun k => t + Z.of_nat k.

Definition SAVE10 : Coupon :=
  {| coupon_id := "c-save10"; coupon_code := "SAVE10"; coupon_type := PERCENTAGE;
     coupon_value := 10%float; coupon_scope := GLOBAL; scope_value := None;
     min_order_amount := None; max_discount := Some 20%float;
     usage_limit := Some 100; usage_per_user := None; used_count := 5;
     starts_at := None; expires_at := None; coupon_is_active := true |}.

(** [SAVE10] with a cap of zero. *)
Definition SAVE10_zero_cap : Coupon :=
  {| coupon_id := "c-save10"; coupon_code := "SAVE10"; coupon_type := PERCENTAGE;
     coupon_value := 10%float; coupon_scope := GLOBAL; scope_value := None;
     min_order_amount := None; max_discount := Some 0%float;
     usage_limit := Some 100; usage_per_user := None; used_count := 5;
     starts_at := None; expires_at := None; coupon_is_active := true |}.

Definition FLAT30 : Coupon :=
  {| coupon_id := "c-flat30"; coupon_code := "FLAT30"; coupon_type := FIXED;
     coupon_value := 30%float; coupon_scope := GLOBAL; scope_value := None;
     min_order_amount := None; max_discount := None;
     usage_limit := None; usage_per_user := None; used_count := 0;
     starts_at := None; expires_at := None; coupon_is_active := true |}.

(** A store that holds the given coupons and nothing else. *)
Definition coupon_store (coupons : list Coupon) : database :=
  {| coupons_collection := Return coupons;
     coupon_usage_collection := Return [];
     products_collection := Return [];
     commission_rules_collection := Return [];
     seller_profiles_collection := Return [] |}.

(** Fifty off books. *)
Definition BOOKS50 : Coupon :=
  {| coupon_id := "c-books50"; coupon_code := "BOOKS50"; coupon_type := FIXED;
     coupon_value := 50%float; coupon_scope := CATEGORY; scope_value := Some "books";
     min_order_amount := None; max_discount := None;
     usage_limit := None; usage_per_user := None; used_count := 0;
     starts_at := None; expires_at := None; coupon_is_active := true |}.

(** Ten percent off books. *)
Definition BOOKS10 : Coupon :=
  {| coupon_id := "c-books10"; coupon_code := "BOOKS10"; coupon_type := PERCENTAGE;
     coupon_value := 10%float; coupon_scope := CATEGORY; scope_value := Some "books";
     min_order_amount := None; max_discount := None;
     usage_limit := None; usage_per_user := None; used_count := 0;
     starts_at := None; expires_at := None; coupon_is_active := true |}.

Definition catalogue : list Product :=
  [ {| product_id := "p-book"; product_category := Some "books";
       product_seller_id := Some "s-1" |};
    {| product_id := "p-toy"; product_category := Some "toys";
       product_seller_id := Some "s-2" |} ].

Definition book_store : database :=
  {| coupons_collection := Return [BOOKS10; BOOKS50];
     coupon_usage_collection := Return [];
     products_collection := Return catalogue;
     commission_rules_collection := Return [];
     seller_profiles_collection := Return [] |}.

Definition line (pid : string) (quantity : Z) (price : float) : CartItem :=
  {| item_product_id := pid; item_quantity := quantity; item_price := price |}.

(** A coupon capped at one use per user. *)
Definition ONCE : Coupon :=
  {| coupon_id := "c-once"; coupon_code := "ONCE"; coupon_type := PERCENTAGE;
     coupon_value := 10%float; coupon_scope := GLOBAL; scope_value := None;
     min_order_amount := None; max_discount := Some 20%float;
     usage_limit := None; usage_per_user := Some 1; used_count := 1;
     starts_at := None; expires_at := None; coupon_is_active := true |}.

(** The only user in the usage history has used [ONCE] once. *)
Definition once_store : database :=
  {| coupons_collection := Return [ONCE];
     coupon_usage_collection :=
       Return [ {| usage_coupon_id := "c-once"; usage_user_id := "alice" |} ];
     products_collection := Return [];
     commission_rules_collection := Return [];
     seller_profiles_collection := Return [] |}.

(** Expired at instant 100000; [active] and [starts] vary. *)
Definition OLD (active : bool) (starts : option Z) : Coupon :=
  {| coupon_id := "c-old"; coupon_code := "OLD"; coupon_type := FIXED;
     coupon_value := 5%float; coupon_scope := GLOBAL; scope_value := None;
     min_order_amount := None; max_discount := None;
     usage_limit := None; usage_per_user := None; used_count := 0;
     starts_at := starts; expires_at := Some 100000; coupon_is_active := active |}.

(** A store none of whose collections can be reached. *)
Definition unreachable_store : database :=
  {| coupons_collection := Raise StoreError;
     coupon_usage_collection := Raise StoreError;
     products_collection := Raise StoreError;
     commission_rules_collection := Raise StoreError;
     seller_profiles_collection := Raise StoreError |}.

(** The rule of the specification's example: 15% on electronics orders
    between 0 and 1000. *)
Definition electronics_rule : CommissionRule :=
  {| rule_category := Some "electronics"; rule_commission_rate := 15%float;
     min_order_value := Some 0%float; max_order_value := Some 1000%float;
     rule_is_active := true |}.

(** 15% on electronics orders of 1000 and more. *)
Definition large_order_rule : CommissionRule :=
  {| rule_category := Some "electronics"; rule_commission_rate := 15%float;
     min_order_value := Some 1000%float; max_order_value := None;
     rule_is_active := true |}.

(** A store that holds the given commission rules and nothing else. *)
Definition rule_store (rules : list CommissionRule) : database :=
  {| coupons_collection := Return [];
     coupon_usage_collection := Return [];
     products_collection := Return [];
     commission_rules_collection := Return rules;
     seller_profiles_collection := Return [] |}.

(** The collection after the code 123456 was issued at instant 0 to verify
    an e-mail address. *)
Definition inbox : list VerificationService.VerificationCode :=
  [ VerificationService.new_record "a@b.c" (Hashlib.sha256_hexdigest "123456")
      "email" "verification" (stopped 0) 1%N ].

End Examples.

From Stdlib Require Import Ascii.

(** ** Vocabulary of the statements about the lifecycle of a code *)

Module Lifecycle.

Import VerificationService.

(** The call neither issues a code for the pair nor presents the digest
    for it. *)
Definition leaves_alone (ident hashed purp : string) (op : call) : bool :=
  match op with
  | Store _ ident' _ _ purp' =>
      negb (String.eqb ident' ident && String.eqb purp' purp)
  | Verify _ ident' code' purp' =>
      negb (String.eqb ident' ident && String.eqb purp' purp
            && String.eqb (Hashlib.sha256_hexdigest code') hashed)
  end.

End Lifecycle.

(** ** verification_service.py: sending a code and checking it

    The code a call draws with [generate_verification_code] is an argument
    [code] of the model.  The Twilio client and the SMTP conversation are
    outside the repository: each is a function that answers or raises.
    What is printed is left out. *)

Module Delivery.

Import VerificationService.

(** What a call to an outside service gives: an answer, or an exception
    [e] with text [str(e)]. *)
Inductive external (A : Type) : Type :=
| Answer (a : A)
| Fails (text : string).
Arguments Answer {A} a.
Arguments Fails {A} text.

(** [twilio_client.verify.services(service)]: [.verifications.create(to,
    channel="sms")] and [.verification_checks.create(to, code)], each giving
    the [status] of what it creates. *)
Record TwilioClient : Type := {
  verifications_create : string -> string -> external string;
  verification_checks_create : string -> string -> string -> external string
}.

(** The attributes [__init__] sets. *)
Record Service : Type := {
  gmail_user : option string;
  gmail_password : option string;
  twilio_client : option TwilioClient;
  twilio_verify_service : option string
}.

(** The SMTP conversation of [send_email_verification], from
    [smtplib.SMTP(...)] to [server.quit()]: sender, password, recipient,
    subject and the code the HTML body shows. *)
Definition smtp : Type := string -> string -> string -> string -> string -> external unit.

(** The dict a call returns; a key that is not set is [None]. *)
Record reply : Type := {
  success : bool;
  message : string;
  dev_code : option string;
  status : option string
}.

(** Truth value of an attribute read with [os.getenv]. *)
Definition truthy_env (o : option string) : bool :=
  match o with Some s => truthy_str s | None => false end.

(** Generates nothing itself: stores [code] and answers with it. *)
Definition store_and_echo (c : collection VerificationCode) (now : clock)
    (ident code meth purp : string) (sent failed : string)
  : reply * collection VerificationCode :=
  let (ok, c') := store_verification_code c now ident code meth purp in
  if ok then
    ({| success := true; message := sent; dev_code := Some code; status := None |}, c')
  else
    ({| success := false; message := failed; dev_code := None; status := None |}, c').

Definition send_sms_verification (self : Service)
    (c : collection VerificationCode) (now : clock) (phone purpose code : string)
  : reply * collection VerificationCode :=
  match twilio_client self, twilio_verify_service self with
  | Some client, Some service =>
      if truthy_str service then
        match verifications_create client service phone with
        | Answer verification_status =>
            ({| success := true; message := "SMS sent to " ++ phone;
                dev_code := None; status := Some verification_status |}, c)
        | Fails text =>
            store_and_echo c now phone code "sms" purpose
              ("SMS sent to " ++ phone ++ " (fallback)") text
        end
      else
        store_and_echo c now phone code "sms" purpose
          ("SMS sent to " ++ phone) "Failed to generate verification code"
  | _, _ =>
      store_and_echo c now phone code "sms" purpose
        ("SMS sent to " ++ phone) "Failed to generate verification code"
  end.

(** The dict both branches of [verify_sms_code] build. *)
Definition phone_reply (is_valid : bool) : reply :=
  {| success := is_valid;
     message := if is_valid then "Phone verified successfully"
                else "Invalid verification code";
     dev_code := None; status := None |}.

Definition verify_sms_code (self : Service) (c : collection VerificationCode)
    (now : clock) (phone code : string) : reply * collection VerificationCode :=
  let local :=
    let (is_valid, c') := verify_code c now phone code "verification" in
    (phone_reply is_valid, c') in
  match twilio_client self, twilio_verify_service self with
  | Some client, Some service =>
      if truthy_str service then
        match verification_checks_create client service phone code with
        | Answer check_status => (phone_reply (String.eqb check_status "approved"), c)
        | Fails _ => local
        end
      else local
  | _, _ => local
  end.

Definition subject (purpose : string) : string :=
  if String.eqb purpose "password_reset"
  then "Password Reset Code - 7x Marketplace"
  else "Email Verification Code - 7x Marketplace".

Definition send_email_verification (self : Service) (send : smtp)
    (c : collection VerificationCode) (now : clock) (email purpose code : string)
  : reply * collection VerificationCode :=
  let (ok, c') := store_verification_code c now email code "email" purpose in
  if negb ok then
    ({| success := false; message := "Failed to generate verification code";
        dev_code := None; status := None |}, c')
  else
    let development :=
      {| success := true; message := "Email sent to " ++ email ++ " (development mode)";
         dev_code := Some code; status := None |} in
    match gmail_user self, gmail_password self with
    | Some user, Some password =>
        if truthy_str user && truthy_str password then
          match send user password email (subject purpose) code with
          | Answer _ =>
              ({| success := true; message := "Verification email sent to " ++ email;
                  dev_code := Some code; status := None |}, c')
          | Fails _ => (development, c')
          end
        else (development, c')
    | _, _ => (development, c')
    end.

Definition verify_email_code (c : collection VerificationCode) (now : clock)
    (email code purpose : string) : reply * collection VerificationCode :=
  let (is_valid, c') := verify_code c now email code purpose in
  ({| success := is_valid;
      message := if is_valid then "Email verified successfully"
                 else "Invalid verification code";
      dev_code := None; status := None |}, c').

End Delivery.

(** ** Route handlers: what they raise and what the client gets *)

Module Http.

(** What the body of a handler raises: a Python exception of the models
    above, an attribute read on [None], or an [HTTPException] (itself an
    [Exception]). *)
Inductive raised : Type :=
| Exception (e : exn)
| AttributeError
| HTTPException (status_code : Z) (detail : string).

(** The body of a [try]. *)
Inductive attempt (A : Type) : Type :=
| Value (a : A)
| Raised (r : raised).
Arguments Value {A} a.
Arguments Raised {A} r.

Definition and_then {A B : Type} (m : attempt A) (k : A -> attempt B) : attempt B :=
  match m with
  | Value a => k a
  | Raised r => Raised r
  end.

(** A pymongo call inside the body. *)
Definition lift {A : Type} (m : outcome A) : attempt A :=
  match m with
  | Return a => Value a
  | Raise e => Raised (Exception e)
  end.

(** The detail of an error response: a literal, or [str(e)] of what was
    caught. *)
Inductive detail : Type :=
| Text (s : string)
| StrOf (r : raised).

(** What the client gets: the returned body with status 200, or the status
    and detail of the [HTTPException] that leaves the handler. *)
Inductive response (A : Type) : Type :=
| Ok (body : A)
| Error (status_code : Z) (d : detail).
Arguments Ok {A} body.
Arguments Error {A} status_code d.

(** [except HTTPException: raise] followed by
    [except Exception as e: raise HTTPException(status_code=500, detail=str(e))]. *)
Definition reraise_or_500 {A : Type} (m : attempt A) : response A :=
  match m with
  | Value a => Ok a
  | Raised (HTTPException status_code d) => Error status_code (Text d)
  | Raised r => Error 500 (StrOf r)
  end.

(** [except Exception as e: raise HTTPException(status_code=500, detail=str(e))]
    alone: an [HTTPException] raised in the body is caught as well. *)
Definition all_to_500 {A : Type} (m : attempt A) : response A :=
  match m with
  | Value a => Ok a
  | Raised r => Error 500 (StrOf r)
  end.

Definition status_of {A : Type} (r : response A) : Z :=
  match r with
  | Ok _ => 200
  | Error status_code _ => status_code
  end.

End Http.

Import Http.

Notation "x <~ m ;; k" := (and_then m (fun x => k))
  (at level 61, m at next level, right associativity).

(** ** server.py: the verification and password-reset routes *)

Module AuthRoutes.

Import VerificationService Delivery.

(** The body of the two send routes. *)
Record sent_body : Type := {
  sent_message : string;
  sent_dev_code : option string
}.

(** The body of the two verify routes: [{"message": ..., "verified": True}]. *)
Record verified_body : Type := {
  verified_message : string;
  verified_flag : bool
}.

(** What both send routes do with the dict of the service. *)
Definition answer_sent (result : reply) : response sent_body :=
  all_to_500
    (if success result then
       Value {| sent_message := message result; sent_dev_code := dev_code result |}
     else Raised (HTTPException 400 (message result))).

(** What both verify routes do with the dict of the service. *)
Definition answer_verified (result : reply) : response verified_body :=
  all_to_500
    (if success result then
       Value {| verified_message := message result; verified_flag := true |}
     else Raised (HTTPException 400 (message result))).

(** POST /api/auth/send-phone-verification *)
Definition send_phone_verification (service : Service)
    (c : collection VerificationCode) (now : clock) (phone code : string)
  : response sent_body * collection VerificationCode :=
  let (result, c') := send_sms_verification service c now phone "verification" code in
  (answer_sent result, c').

(** POST /api/auth/verify-phone *)
Definition verify_phone (service : Service) (c : collection VerificationCode)
    (now : clock) (phone code : string)
  : response verified_body * collection VerificationCode :=
  let (result, c') := verify_sms_code service c now phone code in
  (answer_verified result, c').

(** POST /api/auth/send-email-verification *)
Definition send_email_verification (service : Service) (send : smtp)
    (c : collection VerificationCode) (now : clock) (email code : string)
  : response sent_body * collection VerificationCode :=
  let (result, c') :=
    Delivery.send_email_verification service send c now email "verification" code in
  (answer_sent result, c').

(** POST /api/auth/verify-email *)
Definition verify_email (c : collection VerificationCode) (now : clock)
    (email code : string) : response verified_body * collection VerificationCode :=
  let (result, c') := verify_email_code c now email code "verification" in
  (answer_verified result, c').

End AuthRoutes.

(** ** server.py: forgot-password and reset-password *)

Module ResetRoutes.

Import VerificationService Delivery.

Inductive UserRole : Type := CUSTOMER | SELLER_ROLE | ADMIN.

(** A document of [users]: the fields the two routes read or write. *)
Record User : Type := {
  user_oid : N;
  user_id : string;
  user_email : string;
  user_phone : option string;
  hashed_password : string;
  user_role : UserRole;
  user_updated_at : Z
}.

(** A document of [action_logs]. *)
Record LogEntry : Type := {
  log_id : string;
  admin_id : string;
  action_type : string;
  description : string;
  log_timestamp : Z
}.

(** ["@" in identifier]. *)
Fixpoint contains_at (s : string) : bool :=
  match s with
  | EmptyString => false
  | String c rest => Ascii.eqb c "@"%char || contains_at rest
  end.

(** The filter [user_query]: by e-mail when the identifier has an "@", by
    phone otherwise. *)
Definition user_query (identifier : string) (u : User) : bool :=
  if contains_at identifier then String.eqb (user_email u) identifier
  else opt_str_eqb (user_phone u) (Some identifier).

(** The body of forgot-password; [dev_code] is absent from the answer for
    an unknown account. *)
Record forgot_body : Type := {
  forgot_message : string;
  forgot_dev_code : option string
}.

(** POST /api/auth/forgot-password.  [code] is the code the service draws
    if it sends one. *)
Definition forgot_password (service : Service) (send : smtp)
    (users : collection User) (codes : collection VerificationCode) (now : clock)
    (identifier method code : string)
  : response forgot_body * collection VerificationCode :=
  match find_one (user_query identifier) users with
  | Raise e => (Error 500 (StrOf (Exception e)), codes)
  | Return None =>
      (Ok {| forgot_message :=
               "If the account exists, you will receive a password reset code.";
             forgot_dev_code := None |}, codes)
  | Return (Some user) =>
      let sent :=
        if String.eqb method "email" && truthy_str (user_email user) then
          Some (Delivery.send_email_verification service send codes now
                  (user_email user) "password_reset" code)
        else if String.eqb method "sms" && truthy_env (user_phone user) then
          match user_phone user with
          | Some number =>
              Some (send_sms_verification service codes now number
                      "password_reset" code)
          | None => None
          end
        else None in
      match sent with
      | None =>
          (Error 400 (Text "Invalid method or missing contact information"), codes)
      | Some (result, codes') =>
          if success result then
            (Ok {| forgot_message := "Password reset code sent via " ++ method;
                   forgot_dev_code := dev_code result |}, codes')
          else (Error 500 (Text "Failed to send reset code"), codes')
      end
  end.

Section Hashing.

(** [auth_manager.get_password_hash], of the module [auth]. *)
Variable get_password_hash : string -> string.

(** [{"$set": {"hashed_password": ..., "updated_at": now}}]. *)
Definition set_password (hashed : string) (now : Z) (u : User) : User :=
  {| user_oid := user_oid u; user_id := user_id u; user_email := user_email u;
     user_phone := user_phone u; hashed_password := hashed;
     user_role := user_role u; user_updated_at := bson_datetime now |}.

(** [log_admin_action]: appends the entry; a failure is printed and
    dropped. *)
Definition log_admin_action (logs : collection LogEntry) (now : Z)
    (uuid admin action desc : string) : collection LogEntry :=
  match logs with
  | Return entries =>
      Return (entries ++ [ {| log_id := uuid; admin_id := admin;
                              action_type := action; description := desc;
                              log_timestamp := bson_datetime now |} ])%list
  | Raise e => Raise e
  end.

(** The three collections reset-password touches. *)
Record stores : Type := {
  users : collection User;
  codes : collection VerificationCode;
  logs : collection LogEntry
}.

(** POST /api/auth/reset-password.  [uuid] is the id the log entry gets if
    one is written.  On the way to the update [verify_code] has read the
    clock twice; the update reads it a third time and the log a fourth. *)
Definition reset_password (s : stores) (now : clock)
    (identifier code new_password uuid : string) : response string * stores :=
  match find_one (user_query identifier) (users s) with
  | Raise e => (Error 500 (StrOf (Exception e)), s)
  | Return None => (Error 400 (Text "Invalid reset request"), s)
  | Return (Some user) =>
      let (result, codes') :=
        verify_email_code (codes s) now identifier code "password_reset" in
      if negb (success result) then
        (Error 400 (Text "Invalid or expired reset code"),
         {| users := users s; codes := codes'; logs := logs s |})
      else
        let hashed := get_password_hash new_password in
        let users' :=
          update_one (fun u => N.eqb (user_oid u) (user_oid user))
                     (set_password hashed (reading 2 now)) (users s) in
        let logs' :=
          match user_role user with
          | ADMIN =>
              log_admin_action (logs s) (reading 3 now) uuid (user_id user)
                "password_reset"
                ("Password reset for user " ++ user_email user)
          | _ => logs s
          end in
        (Ok "Password reset successful",
         {| users := users'; codes := codes'; logs := logs' |})
  end.

End Hashing.

End ResetRoutes.

(** ** server.py: cart, coupon and commission routes *)

Module ShopRoutes.

Import Server.

(** A document of [products] with the further fields the cart reads. *)
Record Listing : Type := {
  listing_product : Product;
  listing_price : float;
  listing_inventory : Z;
  listing_is_active : bool
}.

(** A document of [cart]. *)
Record Cart : Type := {
  cart_id : string;
  cart_user_id : option string;
  cart_items : list CartItem;
  cart_total : float;
  cart_updated_at : Z
}.

(** The filter [{"id": cart_id}]. *)
Definition cart_filter (id : string) (c : Cart) : bool := String.eqb (cart_id c) id.

(** The filter [{"id": product_id, "is_active": True}]. *)
Definition listing_filter (product_id : string) (l : Listing) : bool :=
  String.eqb (Server.product_id (listing_product l)) product_id && listing_is_active l.

(** [item["product_id"] == product_id]. *)
Definition is_line (product_id : string) (item : CartItem) : bool :=
  String.eqb (item_product_id item) product_id.

(** The caller may touch the cart: the negation of
    [current_user and cart.get("user_id") != current_user["user_id"]]. *)
Definition may_access (current_user : option string) (cart : Cart) : bool :=
  match current_user with
  | Some user_id => opt_str_eqb (cart_user_id cart) (Some user_id)
  | None => true
  end.

(** [existing_item["quantity"] += quantity]. *)
Definition bump (quantity : Z) (item : CartItem) : CartItem :=
  {| item_product_id := item_product_id item;
     item_quantity := item_quantity item + quantity;
     item_price := item_price item |}.

(** The search for [existing_item] and what follows it: the first line of
    the product grows, or a line is appended at the current price. *)
Definition add_line (items : list CartItem) (product_id : string) (quantity : Z)
    (price : float) : list CartItem :=
  match List.find (is_line product_id) items with
  | Some _ => update_first (is_line product_id) (bump quantity) items
  | None =>
      (items ++ [ {| item_product_id := product_id; item_quantity := quantity;
                     item_price := price |} ])%list
  end.

(** [{"$set": {"items": items, "total": total, "updated_at": now}}]. *)
Definition set_cart (items : list CartItem) (total : float) (now : Z) (c : Cart) : Cart :=
  {| cart_id := cart_id c; cart_user_id := cart_user_id c; cart_items := items;
     cart_total := total; cart_updated_at := bson_datetime now |}.

(** The end of both cart routes: the update, then the cart read back.
    [sum(...)] is [subtotal] from 0 (the int 0 of an empty sum is the float
    0.0). *)
Definition write_back (carts : collection Cart) (now : Z) (id : string)
    (prepared : attempt (list CartItem * float)) : response Cart * collection Cart :=
  match prepared with
  | Raised r => (reraise_or_500 (Raised r), carts)
  | Value (items, total) =>
      let carts' := update_one (cart_filter id) (set_cart items total now) carts in
      (reraise_or_500
         (updated_cart <~ lift (find_one (cart_filter id) carts') ;;
          match updated_cart with
          | Some c => Value c
          | None => Raised AttributeError
          end),
       carts')
  end.

(** POST /api/cart/{cart_id}/items *)
Definition add_to_cart (products : collection Listing) (carts : collection Cart)
    (now : Z) (id product_id : string) (quantity : Z) (current_user : option string)
  : response Cart * collection Cart :=
  write_back carts now id
    (product <~ lift (find_one (listing_filter product_id) products) ;;
     match product with
     | None => Raised (HTTPException 404 "Product not found")
     | Some product =>
         if listing_inventory product <? quantity then
           Raised (HTTPException 400 "Insufficient inventory")
         else
           cart <~ lift (find_one (cart_filter id) carts) ;;
           match cart with
           | None => Raised (HTTPException 404 "Cart not found")
           | Some cart =>
               if negb (may_access current_user cart) then
                 Raised (HTTPException 403 "Not authorized to access this cart")
               else
                 let items := add_line (cart_items cart) product_id quantity
                                       (listing_price product) in
                 total <~ lift (subtotal items 0%float) ;;
                 Value (items, total)
           end
     end).

(** DELETE /api/cart/{cart_id}/items/{product_id} *)
Definition remove_from_cart (carts : collection Cart) (now : Z)
    (id product_id : string) (current_user : option string)
  : response Cart * collection Cart :=
  write_back carts now id
    (cart <~ lift (find_one (cart_filter id) carts) ;;
     match cart with
     | None => Raised (HTTPException 404 "Cart not found")
     | Some cart =>
         if negb (may_access current_user cart) then
           Raised (HTTPException 403 "Not authorized to access this cart")
         else
           let items := List.filter (fun item => negb (is_line product_id item))
                                    (cart_items cart) in
           total <~ lift (subtotal items 0%float) ;;
           Value (items, total)
     end).

(** The body of coupon validation. *)
Record validation : Type := {
  valid : bool;
  discount_amount : float;
  validation_message : string
}.

(** POST /api/coupons/validate *)
Definition validate_coupon (db : database) (carts : collection Cart) (now : Z)
    (coupon_code : string) (cart_total : float) (current_user : option string)
  : validation :=
  let body :=
    cart_items <-
      match current_user with
      | Some user_id =>
          cart <- find_one (fun c => opt_str_eqb (cart_user_id c) (Some user_id)) carts ;;
          Return (match cart with Some c => cart_items c | None => [] end)
      | None => Return []
      end ;;
    let (discount, message) :=
      apply_coupon db now cart_total coupon_code current_user (Some cart_items) in
    Return {| valid := PrimFloat.ltb 0 discount; discount_amount := discount;
              validation_message := message |} in
  match body with
  | Return v => v
  | Raise _ => {| valid := false; discount_amount := 0;
                  validation_message := "Error validating coupon" |}
  end.

(** [{"$set": {"commission_rate": commission_rate, ...}}]. *)
Definition set_commission_rate (rate : float) (s : SellerProfile) : SellerProfile :=
  {| seller_user_id := seller_user_id s; seller_commission_rate := Some rate |}.

(** [result.matched_count] of an [update_one]. *)
Definition matched_count {A : Type} (filter : A -> bool) (docs : list A) : Z :=
  if existsb filter docs then 1 else 0.

(** PUT /api/admin/sellers/{seller_id}/commission.  The body is the message
    "Commission rate updated to {commission_rate}%", given by its rate. *)
Definition update_seller_commission (sellers : collection SellerProfile)
    (seller_id : string) (commission_rate : float)
  : response float * collection SellerProfile :=
  if PrimFloat.ltb commission_rate 0 || PrimFloat.ltb 100 commission_rate then
    (Error 400 (Text "Commission rate must be between 0 and 100"), sellers)
  else
    match sellers with
    | Raise e => (Error 500 (StrOf (Exception e)), sellers)
    | Return docs =>
        let filter := fun s => String.eqb (seller_user_id s) seller_id in
        let sellers' := Return (update_first filter (set_commission_rate commission_rate)
                                             docs) in
        if matched_count filter docs =? 0 then
          (Error 404 (Text "Seller not found"), sellers')
        else (Ok commission_rate, sellers')
    end.

(** The request body of coupon creation ([description] left out). *)
Record CouponCreate : Type := {
  new_code : string;
  new_type : CouponType;
  new_value : float;
  new_scope : CouponScope;
  new_scope_value : option string;
  new_min_order_amount : option float;
  new_max_discount : option float;
  new_usage_limit : option Z;
  new_usage_per_user : option Z;
  new_starts_at : option Z;
  new_expires_at : option Z;
  new_is_active : bool
}.

(** The [Coupon] built from the fields of the request: the id is a fresh
    uuid, nothing is used yet. *)
Definition new_coupon (uuid : string) (d : CouponCreate) : Coupon :=
  {| coupon_id := uuid; coupon_code := new_code d; coupon_type := new_type d;
     coupon_value := new_value d; coupon_scope := new_scope d;
     scope_value := new_scope_value d; min_order_amount := new_min_order_amount d;
     max_discount := new_max_discount d; usage_limit := new_usage_limit d;
     usage_per_user := new_usage_per_user d; used_count := 0;
     starts_at := new_starts_at d; expires_at := new_expires_at d;
     coupon_is_active := new_is_active d |}.

(** The document [insert_one] writes for a coupon: its dates as the driver
    writes them. *)
Definition coupon_document (c : Coupon) : Coupon :=
  {| coupon_id := coupon_id c; coupon_code := coupon_code c;
     coupon_type := coupon_type c; coupon_value := coupon_value c;
     coupon_scope := coupon_scope c; scope_value := scope_value c;
     min_order_amount := min_order_amount c; max_discount := max_discount c;
     usage_limit := usage_limit c; usage_per_user := usage_per_user c;
     used_count := used_count c;
     starts_at := option_map bson_datetime (starts_at c);
     expires_at := option_map bson_datetime (expires_at c);
     coupon_is_active := coupon_is_active c |}.

(** POST /api/admin/coupons.  The answer is built from the dict that was
    inserted, not read back. *)
Definition create_coupon (coupons : collection Coupon) (uuid : string)
    (coupon_data : CouponCreate) : response Coupon * collection Coupon :=
  match find_one (fun c => String.eqb (coupon_code c) (new_code coupon_data)) coupons with
  | Raise e => (Error 500 (StrOf (Exception e)), coupons)
  | Return (Some _) => (Error 400 (Text "Coupon code already exists"), coupons)
  | Return None =>
      let coupon := new_coupon uuid coupon_data in
      (Ok coupon, docs <- coupons ;; Return (docs ++ [coupon_document coupon])%list)
  end.

(** The request body of a coupon update: a field left out is [None]. *)
Record CouponUpdate : Type := {
  upd_code : option string;
  upd_type : option CouponType;
  upd_value : option float;
  upd_scope : option CouponScope;
  upd_scope_value : option string;
  upd_min_order_amount : option float;
  upd_max_discount : option float;
  upd_usage_limit : option Z;
  upd_usage_per_user : option Z;
  upd_starts_at : option Z;
  upd_expires_at : option Z;
  upd_is_active : option bool
}.

(** A key of [update_data] when the request gives it, else the stored
    value: for a required field and for an optional one. *)
Definition or_old {A : Type} (new : option A) (old : A) : A :=
  match new with Some v => v | None => old end.

Definition or_kept {A : Type} (new old : option A) : option A :=
  match new with Some v => Some v | None => old end.

(** [{"$set": update_data}], where [update_data] holds the fields of the
    request that are not [None]. *)
Definition apply_update (u : CouponUpdate) (c : Coupon) : Coupon :=
  {| coupon_id := coupon_id c;
     coupon_code := or_old (upd_code u) (coupon_code c);
     coupon_type := or_old (upd_type u) (coupon_type c);
     coupon_value := or_old (upd_value u) (coupon_value c);
     coupon_scope := or_old (upd_scope u) (coupon_scope c);
     scope_value := or_kept (upd_scope_value u) (scope_value c);
     min_order_amount := or_kept (upd_min_order_amount u) (min_order_amount c);
     max_discount := or_kept (upd_max_discount u) (max_discount c);
     usage_limit := or_kept (upd_usage_limit u) (usage_limit c);
     usage_per_user := or_kept (upd_usage_per_user u) (usage_per_user c);
     used_count := used_count c;
     starts_at := or_kept (option_map bson_datetime (upd_starts_at u)) (starts_at c);
     expires_at := or_kept (option_map bson_datetime (upd_expires_at u)) (expires_at c);
     coupon_is_active := or_old (upd_is_active u) (coupon_is_active c) |}.

(** The filter [{"id": coupon_id}]. *)
Definition id_filter (id : string) (c : Coupon) : bool := String.eqb (coupon_id c) id.

(** The filter [{"code": code}]. *)
Definition code_filter (code : string) (c : Coupon) : bool :=
  String.eqb (coupon_code c) code.

(** PUT /api/admin/coupons/{coupon_id} *)
Definition update_coupon (coupons : collection Coupon) (id : string)
    (coupon_update : CouponUpdate) : response Coupon * collection Coupon :=
  match find_one (id_filter id) coupons with
  | Raise e => (Error 500 (StrOf (Exception e)), coupons)
  | Return None => (Error 404 (Text "Coupon not found"), coupons)
  | Return (Some existing_coupon) =>
      let conflicting_coupon :=
        match upd_code coupon_update with
        | Some code =>
            if truthy_str code && negb (String.eqb code (coupon_code existing_coupon))
            then find_one (code_filter code) coupons
            else Return None
        | None => Return None
        end in
      match conflicting_coupon with
      | Raise e => (Error 500 (StrOf (Exception e)), coupons)
      | Return (Some _) => (Error 400 (Text "Coupon code already exists"), coupons)
      | Return None =>
          let coupons' := update_one (id_filter id) (apply_update coupon_update) coupons in
          (reraise_or_500
             (updated_coupon <~ lift (find_one (id_filter id) coupons') ;;
              match updated_coupon with
              | Some c => Value c
              | None => Raised AttributeError
              end),
           coupons')
      end
  end.

Definition with_coupons (db : database) (c : collection Coupon) : database :=
  {| coupons_collection := c;
     coupon_usage_collection := coupon_usage_collection db;
     products_collection := products_collection db;
     commission_rules_collection := commission_rules_collection db;
     seller_profiles_collection := seller_profiles_collection db |}.

Definition with_sellers (db : database) (s : collection SellerProfile) : database :=
  {| coupons_collection := coupons_collection db;
     coupon_usage_collection := coupon_usage_collection db;
     products_collection := products_collection db;
     commission_rules_collection := commission_rules_collection db;
     seller_profiles_collection := s |}.

End ShopRoutes.

(** ** Concrete services and accounts used by the examples *)

Module RouteExamples.

Import Delivery ResetRoutes.

(** No Twilio, no Gmail credentials. *)
Definition local_service : Service :=
  {| gmail_user := None; gmail_password := None;
     twilio_client := None; twilio_verify_service := None |}.

(** An SMTP server that cannot be reached. *)
Definition no_smtp : smtp := fun _ _ _ _ _ => Fails "connection refused".

Definition alice : User :=
  {| user_oid := 1; user_id := "u-1"; user_email := "a@b.c";
     user_phone := Some "+15550100"; hashed_password := "old";
     user_role := CUSTOMER; user_updated_at := 0 |}.

(** A Twilio account that raises when asked to send and answers
    "pending" when asked to check. *)
Definition shaky_twilio : TwilioClient :=
  {| verifications_create := fun _ _ => Fails "service unavailable";
     verification_checks_create := fun _ _ _ => Answer "pending" |}.

Definition twilio_service : Service :=
  {| gmail_user := None; gmail_password := None;
     twilio_client := Some shaky_twilio; twilio_verify_service := Some "VA1" |}.

(** A stand-in for the hash of [auth]. *)
Definition toy_hash (password : string) : string := "hash:" ++ password.

End RouteExamples.

(** ** Concrete sellers, carts and listings used by the examples *)

Module ShopExamples.

Import Server ShopRoutes.

Definition seller_one : SellerProfile :=
  {| seller_user_id := "s-1"; seller_commission_rate := Some 10%float |}.

(** A store with one seller and no commission rule. *)
Definition seller_store : database :=
  {| coupons_collection := Return [];
     coupon_usage_collection := Return [];
     products_collection := Return [];
     commission_rules_collection := Return [];
     seller_profiles_collection := Return [seller_one] |}.

(** The request that creates [Examples.SAVE10]. *)
Definition save10_request (active : bool) : CouponCreate :=
  {| new_code := "SAVE10"; new_type := PERCENTAGE; new_value := 10%float;
     new_scope := GLOBAL; new_scope_value := None; new_min_order_amount := None;
     new_max_discount := Some 20%float; new_usage_limit := Some 100;
     new_usage_per_user := None; new_starts_at := None; new_expires_at := None;
     new_is_active := active |}.

(** Five books in stock at 30.00. *)
Definition book_listing : Listing :=
  {| listing_product := {| product_id := "p-book"; product_category := Some "books";
                           product_seller_id := Some "s-1" |};
     listing_price := 30%float; listing_inventory := 5; listing_is_active := true |}.

(** Alice's cart with three books. *)
Definition cart_of_three : Cart :=
  {| cart_id := "cart-1"; cart_user_id := Some "alice";
     cart_items := [Examples.line "p-book" 3 30%float];
     cart_total := 90%float; cart_updated_at := 0 |}.

(** Alice's cart with a toy. *)
Definition cart_with_toy : Cart :=
  {| cart_id := "cart-1"; cart_user_id := Some "alice";
     cart_items := [Examples.line "p-toy" 1 100%float];
     cart_total := 100%float; cart_updated_at := 0 |}.

End ShopExamples.

(** ** Further coupons used by the examples *)

Module CouponExamples.

Import Server.

(** A coupon whose global limit of 100 uses is reached; [limit] varies. *)
Definition USED_UP (limit : option Z) : Coupon :=
  {| coupon_id := "c-used"; coupon_code := "USEDUP"; coupon_type := FIXED;
     coupon_value := 5%float; coupon_scope := GLOBAL; scope_value := None;
     min_order_amount := None; max_discount := None;
     usage_limit := limit; usage_per_user := None; used_count := 100;
     starts_at := None; expires_at := None; coupon_is_active := true |}.

(** Five off orders of 50.00 and more. *)
Definition MIN50 : Coupon :=
  {| coupon_id := "c-min50"; coupon_code := "MIN50"; coupon_type := FIXED;
     coupon_value := 5%float; coupon_scope := GLOBAL; scope_value := None;
     min_order_amount := Some 50%float; max_discount := None;
     usage_limit := None; usage_per_user := None; used_count := 0;
     starts_at := None; expires_at := None; coupon_is_active := true |}.

(** A coupon with the empty code, and one to rename. *)
Definition NAMELESS : Coupon :=
  {| coupon_id := "c-1"; coupon_code := EmptyString; coupon_type := FIXED;
     coupon_value := 5%float; coupon_scope := GLOBAL; scope_value := None;
     min_order_amount := None; max_discount := None;
     usage_limit := None; usage_per_user := None; used_count := 0;
     starts_at := None; expires_at := None; coupon_is_active := true |}.

Definition rename (code : string) : ShopRoutes.CouponUpdate :=
  {| ShopRoutes.upd_code := Some code; ShopRoutes.upd_type := None;
     ShopRoutes.upd_value := None; ShopRoutes.upd_scope := None;
     ShopRoutes.upd_scope_value := None; ShopRoutes.upd_min_order_amount := None;
     ShopRoutes.upd_max_discount := None; ShopRoutes.upd_usage_limit := None;
     ShopRoutes.upd_usage_per_user := None; ShopRoutes.upd_starts_at := None;
     ShopRoutes.upd_expires_at := None; ShopRoutes.upd_is_active := None |}.

End CouponExamples.

(** ** Facts about floats and [min] *)

Lemma SFltb_irrefl (x : spec_float) : SFltb x x = false.
Proof.
  unfold SFltb, SFcompare.
  destruct x as [s | s | | s m e].
  - destruct s; reflexivity.
  - destruct s; reflexivity.
  - reflexivity.
  - destruct s; rewrite Z.compare_refl, Pos.compare_refl; reflexivity.
Qed.

Lemma ltb_irrefl (x : float) : PrimFloat.ltb x x = false.
Proof. rewrite ltb_spec. apply SFltb_irrefl. Qed.

(** [min(d, t) > t] is false for all floats, NaN included. *)
Lemma min_not_above (d t : float) : PrimFloat.ltb t (Py.min d t) = false.
Proof.
  unfold Py.min. destruct (PrimFloat.ltb t d) eqn:E.
  - apply ltb_irrefl.
  - exact E.
Qed.

(** ** Facts about apply_coupon *)

Section ApplyCoupon.

Import Server.

Variable db : database.
Variable now : Z.
Variable code : string.
Variable user_id : option string.

(** Past validation, the result is decided by the scope block and the
    discount computation. *)
Lemma apply_coupon_validated (cart_total : float)
    (cart_items : option (list CartItem)) (c : Coupon) :
  passes_validation db now cart_total code user_id c ->
  apply_coupon db now cart_total code user_id cart_items =
  match check_scope (products_collection db) c cart_total cart_items with
  | Return None => (0%float, "Coupon is not applicable to items in your cart")
  | Return (Some total) =>
      (Py.min (discount_by_type c total) total, "Coupon applied successfully")
  | Raise _ => (0%float, "Error applying coupon")
  end.
Proof.
  intros (Hfind & Hstart & Hexp & Hlimit & Huser & Hmin).
  unfold apply_coupon, apply_coupon_body.
  rewrite Hfind. cbn [bind].
  rewrite Hstart. cbn [bind]. rewrite Hexp. cbn [bind].
  rewrite Hlimit, Huser. cbn [bind].
  rewrite Hmin.
  destruct (check_scope (products_collection db) c cart_total cart_items)
    as [[total | ] | e]; reflexivity.
Qed.

(** With no cart items there is nothing to narrow. *)
Lemma check_scope_no_items (products : collection Product) (c : Coupon)
    (cart_total : float) (cart_items : option (list CartItem)) :
  truthy_items cart_items = false ->
  check_scope products c cart_total cart_items = Return (Some cart_total).
Proof.
  intros H. unfold check_scope.
  destruct cart_items as [[ | item rest] | ]; try reflexivity.
  - rewrite andb_false_r. reflexivity.
  - discriminate H.
Qed.

(** A global coupon is never narrowed. *)
Lemma check_scope_global (products : collection Product) (c : Coupon)
    (cart_total : float) (cart_items : option (list CartItem)) :
  coupon_scope c = GLOBAL ->
  check_scope products c cart_total cart_items = Return (Some cart_total).
Proof.
  intros H. unfold check_scope. rewrite H.
  destruct cart_items; reflexivity.
Qed.

End ApplyCoupon.

(** ** The claims about the discount computation *)

Section ServerFacts.

Import Server.

(** C6 (amended).  A percentage coupon that passes validation yields
    [min(min(total * (value / 100), M), total)] when its [max_discount] M is
    set and not zero, and [min(total * (value / 100), total)] when M is unset
    or zero, where [total] is the cart total after the scope block; the
    message is "Coupon applied successfully". *)
Theorem percentage_discount (db : database) (now : Z) (cart_total : float)
    (code : string) (user_id : option string)
    (cart_items : option (list CartItem)) (c : Coupon) (total : float) :
  passes_validation db now cart_total code user_id c ->
  check_scope (products_collection db) c cart_total cart_items = Return (Some total) ->
  coupon_type c = PERCENTAGE ->
  apply_coupon db now cart_total code user_id cart_items =
  (let raw := PrimFloat.mul total (PrimFloat.div (coupon_value c) 100%float) in
   match max_discount c with
   | Some M => if truthy_float M then Py.min (Py.min raw M) total else Py.min raw total
   | None => Py.min raw total
   end,
   "Coupon applied successfully").
Proof.
  intros Hpass Hscope Htype.
  rewrite (apply_coupon_validated _ _ _ _ _ _ _ Hpass), Hscope.
  unfold discount_by_type. rewrite Htype.
  destruct (max_discount c) as [M | ]; [destruct (truthy_float M) | ]; reflexivity.
Qed.

(** The example of the specification: 10% of 250.00 capped at 20. *)
Lemma percentage_discount_witness :
  apply_coupon (Examples.coupon_store [Examples.SAVE10]) 0 250%float "SAVE10" None None
  = (20%float, "Coupon applied successfully").
Proof.
  etransitivity.
  - apply (percentage_discount _ _ _ _ _ _ Examples.SAVE10 250%float).
    + repeat split; reflexivity.
    + reflexivity.
    + reflexivity.
  - vm_compute. reflexivity.
Defined.

(** C6 as stated fails for a cap of zero: the coupon passes validation, the
    formula [min(total * v / 100, M, total)] gives 0, the code returns 25. *)
Lemma percentage_zero_cap_counterexample :
  passes_validation (Examples.coupon_store [Examples.SAVE10_zero_cap]) 0 250%float
                    "SAVE10" None Examples.SAVE10_zero_cap
  /\ max_discount Examples.SAVE10_zero_cap = Some 0%float
  /\ Py.min (Py.min (PrimFloat.mul 250 (PrimFloat.div 10 100)) 0) 250 = 0%float
  /\ apply_coupon (Examples.coupon_store [Examples.SAVE10_zero_cap]) 0 250%float
                  "SAVE10" None None
     = (25%float, "Coupon applied successfully")
  /\ fst (apply_coupon (Examples.coupon_store [Examples.SAVE10_zero_cap]) 0 250%float
                       "SAVE10" None None)
     <> Py.min (Py.min (PrimFloat.mul 250 (PrimFloat.div 10 100)) 0) 250.
Proof.
  split; [repeat split; reflexivity | ].
  split; [reflexivity | ].
  split; [vm_compute; reflexivity | ].
  split; [vm_compute; reflexivity | ].
  intros H. apply (f_equal (fun x => PrimFloat.eqb x 0)) in H.
  vm_compute in H. discriminate H.
Qed.

(** Walks the validation chain of [apply_coupon]: one goal per exit. *)
Ltac validation_cases c :=
  unfold apply_coupon, apply_coupon_body;
  cbn [coupons_collection coupon_usage_collection products_collection
       with_products with_usage];
  match goal with
  | |- context [find_one (coupon_filter ?code) ?coll] =>
      destruct (find_one (coupon_filter code) coll) as [[c | ] | ?]
  end;
  cbn [bind];
  [ match goal with
    | |- context [not_yet_active ?now c] =>
        destruct (not_yet_active now c) as [[ | ] | ?]
    end;
    cbn [bind];
    [ | match goal with
        | |- context [has_expired ?now c] =>
            destruct (has_expired now c) as [[ | ] | ?]
        end;
        cbn [bind];
        [ | destruct (usage_limit_exceeded c);
            [ | match goal with
                | |- context [user_limit_reached ?u c ?uid] =>
                    destruct (user_limit_reached u c uid) as [[ | ] | ?]
                end;
                cbn [bind];
                [ | match goal with
                    | |- context [below_minimum ?t c] => destruct (below_minimum t c)
                    end
                  | ] ]
          | ]
      | ]
  | | ].

(** C9.  Called with [cart_items] equal to [None] or to the empty list,
    [apply_coupon] never consults the product catalogue, never answers
    "Coupon is not applicable to items in your cart", and a coupon of any
    scope that passes validation has its discount computed on the full
    [cart_total]. *)
Theorem no_items_skips_scope (db : database) (now : Z) (cart_total : float)
    (code : string) (user_id : option string)
    (cart_items : option (list CartItem)) :
  cart_items = None \/ cart_items = Some [] ->
  (forall products' : collection Product,
     apply_coupon (with_products db products') now cart_total code user_id cart_items
     = apply_coupon db now cart_total code user_id cart_items)
  /\ snd (apply_coupon db now cart_total code user_id cart_items)
     <> "Coupon is not applicable to items in your cart"
  /\ (forall c : Coupon,
        passes_validation db now cart_total code user_id c ->
        apply_coupon db now cart_total code user_id cart_items
        = (Py.min (discount_by_type c cart_total) cart_total,
           "Coupon applied successfully")).
Proof.
  intros Hitems.
  assert (Hfalsy : truthy_items cart_items = false)
    by (destruct Hitems as [-> | ->]; reflexivity).
  split; [ | split].
  - intros products'.
    validation_cases c; try reflexivity.
    rewrite !(check_scope_no_items _ _ _ _ Hfalsy). reflexivity.
  - validation_cases c; cbn [snd]; try discriminate.
    rewrite (check_scope_no_items _ _ _ _ Hfalsy). cbn [bind snd]. discriminate.
  - intros c Hpass.
    rewrite (apply_coupon_validated _ _ _ _ _ _ _ Hpass).
    rewrite (check_scope_no_items _ _ _ _ Hfalsy). reflexivity.
Qed.

(** A category coupon applied with an empty cart list and a catalogue that
    cannot be reached: 10% of the full 250.00. *)
Lemma no_items_skips_scope_witness :
  apply_coupon (with_products Examples.book_store (Raise StoreError))
               0 250%float "BOOKS10" None (Some [])
  = (25%float, "Coupon applied successfully").
Proof.
  destruct (no_items_skips_scope Examples.book_store 0 250%float "BOOKS10" None
              (Some []) (or_intror eq_refl)) as [Hproducts _].
  rewrite Hproducts. vm_compute. reflexivity.
Defined.

(** Without a user the usage history is not read. *)
Lemma user_limit_anonymous (usages : collection CouponUsage) (c : Coupon) :
  user_limit_reached usages c None = Return false.
Proof. reflexivity. Qed.

(** C10.  Called with [user_id = None], [apply_coupon] does not depend on
    the usage history (not even on whether it can be read) and never answers
    "You have reached the usage limit for this coupon"; there is a store in
    which a coupon's per-user limit is exhausted for every user of the
    history and the anonymous call still returns a positive discount. *)
Theorem anonymous_skips_user_limit (db : database) (now : Z) (cart_total : float)
    (code : string) (cart_items : option (list CartItem)) :
  (forall usages' : collection CouponUsage,
     apply_coupon (with_usage db usages') now cart_total code None cart_items
     = apply_coupon db now cart_total code None cart_items)
  /\ snd (apply_coupon db now cart_total code None cart_items)
     <> "You have reached the usage limit for this coupon"
  /\ (exists (db' : database) (c : Coupon) (limit : Z) (history : list CouponUsage),
        find_one (coupon_filter "ONCE") (coupons_collection db') = Return (Some c)
        /\ usage_per_user c = Some limit
        /\ truthy_int limit = true
        /\ coupon_usage_collection db' = Return history
        /\ history <> []
        /\ (forall u, In u history ->
              user_limit_reached (coupon_usage_collection db') c
                                 (Some (usage_user_id u)) = Return true)
        /\ PrimFloat.ltb 0 (fst (apply_coupon db' 0 250%float "ONCE" None None)) = true).
Proof.
  split; [ | split].
  - intros usages'.
    unfold apply_coupon, apply_coupon_body.
    cbn [coupons_collection coupon_usage_collection products_collection with_usage].
    destruct (find_one (coupon_filter code) (coupons_collection db)) as [[c | ] | e];
      cbn [bind]; try reflexivity.
  - unfold apply_coupon, apply_coupon_body.
    destruct (find_one (coupon_filter code) (coupons_collection db)) as [[c | ] | e];
      cbn [bind snd]; try discriminate.
    destruct (not_yet_active now c) as [[ | ] | e]; cbn [bind snd];
      [discriminate | | discriminate].
    destruct (has_expired now c) as [[ | ] | e]; cbn [bind snd];
      [discriminate | | discriminate].
    destruct (usage_limit_exceeded c); [cbn [snd]; discriminate | ].
    rewrite user_limit_anonymous. cbn [bind].
    destruct (below_minimum cart_total c); [cbn [snd]; discriminate | ].
    destruct (check_scope (products_collection db) c cart_total cart_items)
      as [[total | ] | e]; cbn [bind snd]; discriminate.
  - exists Examples.once_store, Examples.ONCE, 1,
      [ {| usage_coupon_id := "c-once"; usage_user_id := "alice" |} ].
    repeat split; try reflexivity.
    + discriminate.
    + intros u [<- | []]. reflexivity.
Qed.

(** The lookup only returns active coupons that carry the code. *)
Lemma found_coupon_is_active (db : database) (code : string) (c : Coupon) :
  find_one (coupon_filter code) (coupons_collection db) = Return (Some c) ->
  coupon_code c = code /\ coupon_is_active c = true.
Proof.
  unfold find_one. destruct (coupons_collection db) as [docs | e]; [ | discriminate].
  cbn [bind]. intros H. injection H as H.
  apply find_some in H. destruct H as [_ H].
  unfold coupon_filter in H. apply andb_true_iff in H. destruct H as [Hcode Hactive].
  apply String.eqb_eq in Hcode. split; assumption.
Qed.

(** A coupon that carries a date makes the body raise: the clock gives an
    aware datetime, the document a naive one, and the first test that
    compares the two raises TypeError. *)
Lemma dated_coupon_raises (db : database) (now : Z) (cart_total : float)
    (code : string) (user_id : option string)
    (cart_items : option (list CartItem)) (c : Coupon) :
  find_one (coupon_filter code) (coupons_collection db) = Return (Some c) ->
  starts_at c <> None \/ expires_at c <> None ->
  apply_coupon_body db now cart_total code user_id cart_items = Raise TypeError.
Proof.
  intros Hfind Hdated. unfold apply_coupon_body. rewrite Hfind. cbn [bind].
  unfold not_yet_active. destruct (starts_at c) as [s | ]; [reflexivity | ].
  cbn [bind]. unfold has_expired. destruct (expires_at c) as [t | ]; [reflexivity | ].
  destruct Hdated as [H | H]; contradiction H; reflexivity.
Qed.

(** C3 at the failing input.  The coupon OLD expired at instant 100000 and
    is looked up at instant 200000: the test of [expires_at] raises
    TypeError and the call answers "Error applying coupon" where the claim
    says "Coupon has expired".  The same holds for every coupon the lookup
    returns with [expires_at] set: the discount is 0, the message is never
    the expiry message. *)
Theorem expired_coupon_answers_error :
  expires_at (Examples.OLD true None) = Some 100000
  /\ 100000 < 200000
  /\ has_expired 200000 (Examples.OLD true None) = Raise TypeError
  /\ apply_coupon (Examples.coupon_store [Examples.OLD true None]) 200000 50%float
                  "OLD" (Some "alice") None
     = (0%float, "Error applying coupon")
  /\ (forall (db : database) (now : Z) (cart_total : float) (code : string)
             (user_id : option string) (cart_items : option (list CartItem))
             (c : Coupon) (t : Z),
        find_one (coupon_filter code) (coupons_collection db) = Return (Some c) ->
        expires_at c = Some t ->
        apply_coupon db now cart_total code user_id cart_items
        = (0%float, "Error applying coupon")).
Proof.
  split; [reflexivity | ]. split; [lia | ]. split; [reflexivity | ].
  split; [reflexivity | ].
  intros db now cart_total code user_id cart_items c t Hfind Hexp.
  unfold apply_coupon.
  rewrite (dated_coupon_raises db now cart_total code user_id cart_items c Hfind).
  - reflexivity.
  - right. rewrite Hexp. discriminate.
Qed.

(** The same coupon made inactive is not found at all, and one that is
    also not yet started raises at the test of [starts_at]. *)
Example expired_coupon_other_answers :
  apply_coupon (Examples.coupon_store [Examples.OLD false None]) 200000 50%float "OLD"
               None None
  = (0%float, "Invalid coupon code")
  /\ not_yet_active 200000 (Examples.OLD true (Some 300000)) = Raise TypeError
  /\ apply_coupon (Examples.coupon_store [Examples.OLD true (Some 300000)]) 200000
                  50%float "OLD" None None
     = (0%float, "Error applying coupon").
Proof. split; [reflexivity | split; reflexivity]. Qed.

(** ** Faults *)

(** C8.  Whenever the body of [apply_coupon] raises, the call returns
    [(0.0, "Error applying coupon")]; whenever the body of
    [calculate_commission] raises, the call returns
    [(10.0, order_total * 0.1)]; otherwise each returns what its body
    returns.  Both bodies do raise when the store cannot be reached. *)
Theorem faults_are_swallowed (db : database) (now : Z) (cart_total : float)
    (code : string) (user_id : option string)
    (cart_items : option (list CartItem))
    (order_total : float) (seller_id : string) (category : option string) :
  (forall e, apply_coupon_body db now cart_total code user_id cart_items = Raise e ->
             apply_coupon db now cart_total code user_id cart_items
             = (0%float, "Error applying coupon"))
  /\ (forall r, apply_coupon_body db now cart_total code user_id cart_items = Return r ->
                apply_coupon db now cart_total code user_id cart_items = r)
  /\ (forall e, calculate_commission_body db order_total seller_id category = Raise e ->
                calculate_commission db order_total seller_id category
                = (10%float, PrimFloat.mul order_total 0.1%float))
  /\ (forall r, calculate_commission_body db order_total seller_id category = Return r ->
                calculate_commission db order_total seller_id category = r)
  /\ apply_coupon_body Examples.unreachable_store now cart_total code user_id cart_items
     = Raise StoreError
  /\ calculate_commission_body Examples.unreachable_store order_total seller_id category
     = Raise StoreError.
Proof.
  split; [ | split; [ | split; [ | split; [ | split]]]].
  - intros e H. unfold apply_coupon. rewrite H. reflexivity.
  - intros r H. unfold apply_coupon. rewrite H. reflexivity.
  - intros e H. unfold calculate_commission. rewrite H. reflexivity.
  - intros r H. unfold calculate_commission. rewrite H. reflexivity.
  - reflexivity.
  - unfold calculate_commission_body.
    destruct category as [[ | a cat] | ]; reflexivity.
Qed.

(** A fault that is not a store fault: a quantity no float can hold. *)
Example overflow_is_swallowed :
  apply_coupon_body Examples.book_store 0 250%float "BOOKS10" None
                    (Some [Examples.line "p-book" (2 ^ 1024) 1%float])
  = Raise OverflowError
  /\ apply_coupon Examples.book_store 0 250%float "BOOKS10" None
                  (Some [Examples.line "p-book" (2 ^ 1024) 1%float])
     = (0%float, "Error applying coupon").
Proof. split; vm_compute; reflexivity. Qed.

(** ** The scope block *)

(** The loop adds up, in order, the lines of the matching items, and sets
    [scope_valid] when there is one. *)
Lemma scope_loop_subtotal (products : list Product) (c : Coupon)
    (items : list CartItem) :
  forall (scope_valid : bool) (acc : float),
    scope_loop (Return products) c items scope_valid acc =
    (total <- subtotal (List.filter (item_matches products c) items) acc ;;
     Return (scope_valid || existsb (item_matches products c) items, total)).
Proof.
  induction items as [ | item rest IH]; intros scope_valid acc.
  - cbn. rewrite orb_false_r. reflexivity.
  - cbn [scope_loop List.filter existsb find_one bind].
    assert (Hm : item_matches products c item
                 = match List.find (fun p => String.eqb (product_id p)
                                                         (item_product_id item)) products with
                   | Some p => item_eligible c p
                   | None => false
                   end) by reflexivity.
    destruct (List.find (fun p => String.eqb (product_id p) (item_product_id item)) products)
      as [p | ]; [destruct (item_eligible c p) | ]; rewrite Hm.
    + cbn [subtotal].
        destruct (int_mul_float (item_quantity item) (item_price item)) as [line | e];
          cbn [bind]; [ | reflexivity].
        rewrite IH. destruct scope_valid; reflexivity.
    + rewrite IH. reflexivity.
    + rewrite IH. reflexivity.
Qed.

Lemma no_match_no_items (products : list Product) (c : Coupon) (items : list CartItem) :
  existsb (item_matches products c) items = false ->
  List.filter (item_matches products c) items = [].
Proof.
  induction items as [ | item rest IH]; [reflexivity | ].
  cbn. destruct (item_matches products c item); [discriminate | exact IH].
Qed.

(** C2 (amended).  For a coupon with scope other than global that passes
    validation and a non-empty cart list: if no item matches the scope
    predicate the answer is discount 0 with "Coupon is not applicable to
    items in your cart"; if an item matches and the eligible subtotal E (the
    sum of quantity x price over the matching items) is greater than 0, the
    discount is computed against E; if an item matches and E is not greater
    than 0, the discount is computed against the full [cart_total]. *)
Theorem scoped_coupon_eligible_subtotal (db : database) (now : Z)
    (cart_total : float) (code : string) (user_id : option string)
    (items : list CartItem) (c : Coupon) (products : list Product) :
  passes_validation db now cart_total code user_id c ->
  coupon_scope c <> GLOBAL ->
  items <> [] ->
  products_collection db = Return products ->
  (existsb (item_matches products c) items = false ->
   apply_coupon db now cart_total code user_id (Some items)
   = (0%float, "Coupon is not applicable to items in your cart"))
  /\ (forall E : float,
        existsb (item_matches products c) items = true ->
        eligible_subtotal products c items = Return E ->
        apply_coupon db now cart_total code user_id (Some items)
        = if PrimFloat.ltb 0 E
          then (Py.min (discount_by_type c E) E, "Coupon applied successfully")
          else (Py.min (discount_by_type c cart_total) cart_total,
                "Coupon applied successfully")).
Proof.
  intros Hpass Hscope Hitems Hproducts.
  assert (Hblock : check_scope (products_collection db) c cart_total (Some items)
                   = (r <- scope_loop (Return products) c items false 0%float ;;
                      let (scope_valid, eligible_total) := r in
                      if negb scope_valid then Return None
                      else if PrimFloat.ltb 0%float eligible_total
                           then Return (Some eligible_total)
                           else Return (Some cart_total))).
  { unfold check_scope. rewrite Hproducts.
    destruct (coupon_scope c); [contradiction | | | ];
      (destruct items; [contradiction | reflexivity]). }
  rewrite (apply_coupon_validated _ _ _ _ _ _ _ Hpass), Hblock, scope_loop_subtotal.
  split.
  - intros Hnone. rewrite (no_match_no_items _ _ _ Hnone), Hnone. reflexivity.
  - intros E Hsome HE. unfold eligible_subtotal in HE. rewrite HE, Hsome.
    cbn [bind orb negb]. destruct (PrimFloat.ltb 0 E); reflexivity.
Qed.

(** Two books at 30.00 and a toy at 100.00: 10% of the 60.00 of books. *)
Lemma scoped_coupon_eligible_subtotal_witness :
  apply_coupon Examples.book_store 0 160%float "BOOKS10" None
    (Some [Examples.line "p-book" 2 30%float; Examples.line "p-toy" 1 100%float])
  = (6%float, "Coupon applied successfully").
Proof.
  destruct (scoped_coupon_eligible_subtotal Examples.book_store 0 160%float "BOOKS10"
              None
              [Examples.line "p-book" 2 30%float; Examples.line "p-toy" 1 100%float]
              Examples.BOOKS10 Examples.catalogue) as [_ Hsome].
  - repeat split; reflexivity.
  - discriminate.
  - discriminate.
  - reflexivity.
  - rewrite (Hsome 60%float); [ | reflexivity | vm_compute; reflexivity].
    vm_compute. reflexivity.
Defined.

(** C2 as stated fails when the matching items add up to nothing: a free
    book and a toy at 100.00.  A book matches, the eligible subtotal is 0,
    a discount computed against it is 0, yet the code returns 10% of the
    full cart total. *)
Lemma free_item_counterexample :
  passes_validation Examples.book_store 0 100%float "BOOKS10" None Examples.BOOKS10
  /\ existsb (item_matches Examples.catalogue Examples.BOOKS10)
       [Examples.line "p-book" 1 0%float; Examples.line "p-toy" 1 100%float] = true
  /\ eligible_subtotal Examples.catalogue Examples.BOOKS10
       [Examples.line "p-book" 1 0%float; Examples.line "p-toy" 1 100%float]
     = Return 0%float
  /\ Py.min (discount_by_type Examples.BOOKS10 0) 0 = 0%float
  /\ apply_coupon Examples.book_store 0 100%float "BOOKS10" None
       (Some [Examples.line "p-book" 1 0%float; Examples.line "p-toy" 1 100%float])
     = (10%float, "Coupon applied successfully")
  /\ fst (apply_coupon Examples.book_store 0 100%float "BOOKS10" None
            (Some [Examples.line "p-book" 1 0%float; Examples.line "p-toy" 1 100%float]))
     <> Py.min (discount_by_type Examples.BOOKS10 0) 0.
Proof.
  split; [repeat split; reflexivity | ].
  split; [reflexivity | ].
  split; [vm_compute; reflexivity | ].
  split; [vm_compute; reflexivity | ].
  split; [vm_compute; reflexivity | ].
  intros H. apply (f_equal (fun x => PrimFloat.eqb x 0)) in H.
  vm_compute in H. discriminate H.
Qed.

(** The scope block for a scoped coupon and a cart list that is not empty. *)
Lemma check_scope_scoped (products : list Product) (c : Coupon) (cart_total : float)
    (items : list CartItem) :
  coupon_scope c <> GLOBAL ->
  items <> [] ->
  check_scope (Return products) c cart_total (Some items)
  = (E <- eligible_subtotal products c items ;;
     if negb (existsb (item_matches products c) items) then Return None
     else if PrimFloat.ltb 0 E then Return (Some E) else Return (Some cart_total)).
Proof.
  intros Hscope Hitems. unfold check_scope, eligible_subtotal.
  assert (Hguard : negb (scope_eqb (coupon_scope c) GLOBAL)
                   && truthy_items (Some items) = true).
  { destruct (coupon_scope c); [contradiction Hscope; reflexivity | | | ];
      (destruct items; [contradiction Hitems; reflexivity | reflexivity]). }
  rewrite Hguard, scope_loop_subtotal.
  destruct (subtotal (List.filter (item_matches products c) items) 0) as [E | e];
    reflexivity.
Qed.

(** C7 (amended).  A fixed coupon that passes validation yields the
    smaller of its value and [total], and for every coupon type the
    returned discount is not greater than [total].  Here [total] is the cart
    total after the scope block: the [cart_total] of the call for a global
    coupon or a call without cart items, and otherwise the eligible subtotal
    when that is greater than 0, whatever [cart_total] the caller states. *)
Theorem fixed_discount_and_cap (db : database) (now : Z) (cart_total : float)
    (code : string) (user_id : option string)
    (cart_items : option (list CartItem)) (c : Coupon) (total : float) :
  passes_validation db now cart_total code user_id c ->
  check_scope (products_collection db) c cart_total cart_items = Return (Some total) ->
  (coupon_type c = FIXED ->
   apply_coupon db now cart_total code user_id cart_items
   = (if PrimFloat.ltb total (coupon_value c) then total else coupon_value c,
      "Coupon applied successfully"))
  /\ PrimFloat.ltb total (fst (apply_coupon db now cart_total code user_id cart_items))
     = false
  /\ (coupon_scope c = GLOBAL \/ cart_items = None \/ cart_items = Some [] ->
      total = cart_total)
  /\ (forall (items : list CartItem) (products : list Product) (E : float),
        coupon_scope c <> GLOBAL ->
        cart_items = Some items ->
        items <> [] ->
        products_collection db = Return products ->
        eligible_subtotal products c items = Return E ->
        total = if PrimFloat.ltb 0 E then E else cart_total).
Proof.
  intros Hpass Hscope.
  rewrite (apply_coupon_validated _ _ _ _ _ _ _ Hpass), Hscope.
  split; [ | split; [ | split]].
  - intros Htype. unfold discount_by_type. rewrite Htype. reflexivity.
  - cbn [fst]. apply min_not_above.
  - intros Hfull.
    assert (Hsame : check_scope (products_collection db) c cart_total cart_items
                    = Return (Some cart_total)).
    { destruct Hfull as [Hglobal | [-> | ->]].
      - apply check_scope_global. exact Hglobal.
      - reflexivity.
      - apply check_scope_no_items. reflexivity. }
    rewrite Hsame in Hscope. injection Hscope as <-. reflexivity.
  - intros items products E Hscoped -> Hitems Hproducts HE.
    rewrite Hproducts, (check_scope_scoped _ _ _ _ Hscoped Hitems), HE in Hscope.
    cbn [bind] in Hscope.
    destruct (existsb (item_matches products c) items); cbn [negb] in Hscope;
      [ | discriminate Hscope].
    destruct (PrimFloat.ltb 0 E); injection Hscope as <-; reflexivity.
Qed.

(** Thirty off a cart of 20.00 gives 20.00 back; off a cart of 250.00 it
    gives 30.00. *)
Lemma fixed_discount_and_cap_witness :
  apply_coupon (Examples.coupon_store [Examples.FLAT30]) 0 20%float "FLAT30" None None
  = (20%float, "Coupon applied successfully")
  /\ apply_coupon (Examples.coupon_store [Examples.FLAT30]) 0 250%float "FLAT30" None
                  None
     = (30%float, "Coupon applied successfully").
Proof.
  split.
  - destruct (fixed_discount_and_cap (Examples.coupon_store [Examples.FLAT30]) 0
                20%float "FLAT30" None None Examples.FLAT30 20%float) as [Hfixed _].
    + repeat split; reflexivity.
    + reflexivity.
    + rewrite (Hfixed eq_refl). vm_compute. reflexivity.
  - destruct (fixed_discount_and_cap (Examples.coupon_store [Examples.FLAT30]) 0
                250%float "FLAT30" None None Examples.FLAT30 250%float) as [Hfixed _].
    + repeat split; reflexivity.
    + reflexivity.
    + rewrite (Hfixed eq_refl). vm_compute. reflexivity.
Defined.

(** C7 as stated fails for a scoped coupon when the matching lines add up
    to more than the [cart_total] the caller states: fifty off books, two
    books at 30.00 and a stated total of 10.00.  The claim gives
    [min(50, 10) = 10]; the code returns 50, which exceeds the cart total. *)
Lemma fixed_discount_exceeds_cart_total :
  passes_validation Examples.book_store 0 10%float "BOOKS50" None Examples.BOOKS50
  /\ coupon_type Examples.BOOKS50 = FIXED
  /\ coupon_value Examples.BOOKS50 = 50%float
  /\ PrimFloat.ltb 10 50 = true
  /\ apply_coupon Examples.book_store 0 10%float "BOOKS50" None
       (Some [Examples.line "p-book" 2 30%float])
     = (50%float, "Coupon applied successfully")
  /\ PrimFloat.ltb 10
       (fst (apply_coupon Examples.book_store 0 10%float "BOOKS50" None
               (Some [Examples.line "p-book" 2 30%float]))) = true.
Proof.
  split; [repeat split; reflexivity | ].
  split; [reflexivity | ]. split; [reflexivity | ].
  split; [vm_compute; reflexivity | ].
  split; vm_compute; reflexivity.
Qed.

(** ** calculate_commission *)

(** What the category filter asks of a rule once the dict display is
    evaluated: the second ["$or"] has replaced the first, so
    [min_order_value] is not looked at. *)
Lemma category_rule_query_matches (category : string) (order_total : float)
    (r : CommissionRule) :
  rule_matches (category_rule_query category order_total) r
  = opt_str_eqb (rule_category r) (Some category)
    && rule_is_active r
    && match max_order_value r with
       | Some M => PrimFloat.leb order_total M
       | None => true
       end.
Proof.
  unfold category_rule_query, rule_matches. cbn.
  destruct r as [cat rate lo hi active]; cbn.
  destruct cat as [cat | ]; cbn; [ | reflexivity].
  destruct (String.eqb cat category); cbn; [ | reflexivity].
  destruct active; cbn; [ | reflexivity].
  destruct hi as [M | ]; cbn; [ | reflexivity].
  rewrite !orb_false_r, andb_true_r. reflexivity.
Qed.

Lemma default_rule_query_matches (r : CommissionRule) :
  rule_matches default_rule_query r
  = opt_str_eqb (rule_category r) None && rule_is_active r.
Proof.
  unfold default_rule_query, rule_matches. cbn.
  destruct r as [cat rate lo hi active]; cbn.
  destruct cat as [cat | ]; cbn; [reflexivity | ].
  destruct active; reflexivity.
Qed.

(** The order in which the rate is resolved when the store answers:
    category rule, default rule, the seller's stored rate, 10.0. *)
Lemma calculate_commission_resolution (db : database) (order_total : float)
    (seller_id : string) (category : option string)
    (rules : list CommissionRule) (sellers : list SellerProfile) :
  commission_rules_collection db = Return rules ->
  seller_profiles_collection db = Return sellers ->
  let category_rule :=
    match category with
    | Some cat =>
        if truthy_str cat
        then List.find (rule_matches (category_rule_query cat order_total)) rules
        else None
    | None => None
    end in
  let rate :=
    match category_rule with
    | Some r => rule_commission_rate r
    | None =>
        match List.find (rule_matches default_rule_query) rules with
        | Some r => rule_commission_rate r
        | None =>
            match List.find (fun s => String.eqb (seller_user_id s) seller_id) sellers with
            | Some s => match seller_commission_rate s with
                        | Some x => x
                        | None => 10%float
                        end
            | None => 10%float
            end
        end
    end in
  calculate_commission db order_total seller_id category
  = (rate, PrimFloat.mul order_total (PrimFloat.div rate 100%float)).
Proof.
  intros Hrules Hsellers. cbv zeta.
  unfold calculate_commission, calculate_commission_body.
  rewrite Hrules, Hsellers. unfold find_one. cbn [bind].
  destruct category as [cat | ]; cbn [bind].
  - destruct (truthy_str cat); cbn [bind].
    + destruct (List.find (rule_matches (category_rule_query cat order_total)) rules)
        as [r | ]; cbn [bind]; [reflexivity | ].
      destruct (List.find (rule_matches default_rule_query) rules) as [r | ];
        cbn [bind]; [reflexivity | ].
      destruct (List.find (fun s => String.eqb (seller_user_id s) seller_id) sellers)
        as [s | ]; [destruct (seller_commission_rate s) | ]; reflexivity.
    + destruct (List.find (rule_matches default_rule_query) rules) as [r | ];
        cbn [bind]; [reflexivity | ].
      destruct (List.find (fun s => String.eqb (seller_user_id s) seller_id) sellers)
        as [s | ]; [destruct (seller_commission_rate s) | ]; reflexivity.
  - destruct (List.find (rule_matches default_rule_query) rules) as [r | ];
      cbn [bind]; [reflexivity | ].
    destruct (List.find (fun s => String.eqb (seller_user_id s) seller_id) sellers)
      as [s | ]; [destruct (seller_commission_rate s) | ]; reflexivity.
Qed.

(** The example of the specification: 500 within [0, 1000]. *)
Example electronics_commission :
  calculate_commission (Examples.rule_store [Examples.electronics_rule]) 500%float
                       "seller-1" (Some "electronics")
  = (15%float, 75%float).
Proof. vm_compute. reflexivity. Qed.

(** C1 at the failing input.  The only rule asks for orders of at least
    1000, the order is 500: the bounds do not contain it, and the rule is
    used all the same. *)
Theorem commission_ignores_min_order_value :
  min_order_value Examples.large_order_rule = Some 1000%float
  /\ PrimFloat.leb 1000 500 = false
  /\ rule_matches (category_rule_query "electronics" 500%float)
                  Examples.large_order_rule = true
  /\ calculate_commission (Examples.rule_store [Examples.large_order_rule]) 500%float
                          "seller-1" (Some "electronics")
     = (15%float, 75%float).
Proof. repeat split; vm_compute; reflexivity. Qed.

End ServerFacts.

(** ** Lists under find, filter and update *)

Section ListFacts.

Context {A : Type}.

Lemma find_split (p : A -> bool) (l : list A) (r : A) :
  List.find p l = Some r ->
  exists pre post,
    l = (pre ++ r :: post)%list /\ p r = true /\ forall x, In x pre -> p x = false.
Proof.
  induction l as [ | a l IH]; [discriminate | ].
  cbn. destruct (p a) eqn:Ha.
  - intros H. injection H as ->. exists [], l. repeat split; [exact Ha | intros x []].
  - intros H. destruct (IH H) as (pre & post & -> & Hr & Hpre).
    exists (a :: pre), post. repeat split; [exact Hr | ].
    intros x [<- | Hx]; [exact Ha | exact (Hpre x Hx)].
Qed.

Lemma update_first_split (q : A -> bool) (f : A -> A) (pre post : list A) (r : A) :
  (forall x, In x pre -> q x = false) ->
  q r = true ->
  update_first q f (pre ++ r :: post) = (pre ++ f r :: post)%list.
Proof.
  intros Hpre Hr. induction pre as [ | a pre IH]; cbn.
  - rewrite Hr. reflexivity.
  - rewrite (Hpre a (or_introl eq_refl)). f_equal.
    apply IH. intros x Hx. apply Hpre. right. exact Hx.
Qed.

Lemma update_first_none (q : A -> bool) (f : A -> A) (l : list A) :
  (forall x, In x l -> q x = false) -> update_first q f l = l.
Proof.
  intros H. induction l as [ | a l IH]; cbn; [reflexivity | ].
  rewrite (H a (or_introl eq_refl)). f_equal.
  apply IH. intros x Hx. apply H. right. exact Hx.
Qed.

Lemma In_update_first (q : A -> bool) (f : A -> A) (l : list A) (x : A) :
  In x (update_first q f l) -> In x l \/ exists y, In y l /\ x = f y.
Proof.
  induction l as [ | a l IH]; cbn; [intros [] | ].
  destruct (q a).
  - intros [<- | Hx].
    + right. exists a. split; [left; reflexivity | reflexivity].
    + left. right. exact Hx.
  - intros [<- | Hx].
    + left. left. reflexivity.
    + destruct (IH Hx) as [H | (y & Hy & ->)].
      * left. right. exact H.
      * right. exists y. split; [right; exact Hy | reflexivity].
Qed.

Lemma map_update_first {B : Type} (g : A -> B) (q : A -> bool) (f : A -> A)
    (l : list A) :
  (forall a, g (f a) = g a) ->
  map g (update_first q f l) = map g l.
Proof.
  intros Hg. induction l as [ | a l IH]; cbn; [reflexivity | ].
  destruct (q a); cbn; [rewrite Hg | rewrite IH]; reflexivity.
Qed.

Lemma filter_length_map (p : A -> bool) (l1 l2 : list A) :
  map p l1 = map p l2 ->
  List.length (List.filter p l1) = List.length (List.filter p l2).
Proof.
  revert l2. induction l1 as [ | a l1 IH]; intros [ | b l2]; cbn;
    try discriminate; [reflexivity | ].
  intros H. injection H as Hab Hrest. rewrite Hab.
  destruct (p b); cbn; rewrite (IH l2 Hrest); reflexivity.
Qed.

Lemma filter_filter_length (p q : A -> bool) (l : list A) :
  (List.length (List.filter q (List.filter p l)) <= List.length (List.filter q l))%nat.
Proof.
  induction l as [ | a l IH]; cbn; [lia | ].
  destruct (p a), (q a) eqn:Hq; cbn; rewrite ?Hq; cbn; lia.
Qed.

Lemma filter_complement (p : A -> bool) (l : list A) :
  List.filter p (List.filter (fun d => negb (p d)) l) = [].
Proof.
  induction l as [ | a l IH]; cbn; [reflexivity | ].
  destruct (p a) eqn:Ha; cbn; [ | rewrite Ha]; exact IH.
Qed.

Lemma NoDup_map_filter {B : Type} (g : A -> B) (p : A -> bool) (l : list A) :
  NoDup (map g l) -> NoDup (map g (List.filter p l)).
Proof.
  induction l as [ | a l IH]; cbn; [intros H; exact H | ].
  intros H. inversion H as [ | x xs Hnotin Hrest]; subst.
  destruct (p a); cbn; [ | exact (IH Hrest)].
  constructor; [ | exact (IH Hrest)].
  intros Hin. apply Hnotin.
  apply in_map_iff in Hin. destruct Hin as (y & Hy & Hyin).
  apply in_map_iff. exists y. split; [exact Hy | ].
  apply filter_In in Hyin. exact (proj1 Hyin).
Qed.

End ListFacts.

Lemma fresh_id_above (ids : list N) (x : N) : In x ids -> (x < fresh_id ids)%N.
Proof.
  unfold fresh_id. induction ids as [ | a ids IH]; cbn; [intros [] | ].
  intros [<- | Hx]; [lia | ]. specialize (IH Hx). lia.
Qed.

Lemma fresh_id_not_in (ids : list N) : ~ In (fresh_id ids) ids.
Proof. intros H. apply fresh_id_above in H. lia. Qed.

(** ** Whole milliseconds *)

(** Against an instant the store holds, cutting the other side to whole
    milliseconds changes nothing. *)
Lemma bson_datetime_lt (t e : Z) :
  e mod 1000 = 0 -> (bson_datetime t < e <-> t < e).
Proof. unfold bson_datetime. intros He. Z.to_euclidean_division_equations. lia. Qed.

(** Ten minutes are a whole number of milliseconds. *)
Lemma bson_datetime_ten_minutes (t : Z) :
  bson_datetime (t + VerificationService.ten_minutes)
  = 1000 * (t / 1000) + 10 * 60 * 1000000.
Proof.
  unfold bson_datetime, VerificationService.ten_minutes.
  Z.to_euclidean_division_equations. lia.
Qed.

Lemma bson_datetime_whole (t : Z) : bson_datetime t mod 1000 = 0.
Proof. unfold bson_datetime. Z.to_euclidean_division_equations. lia. Qed.

(** ** Facts about the verification-code lifecycle *)

Section VerificationFacts.

Import VerificationService.

#[local] Abbreviation store := store_verification_code.
#[local] Abbreviation verify := verify_code.
#[local] Abbreviation sha256_hexdigest := Hashlib.sha256_hexdigest.

(** [store_verification_code] on a store that answers. *)
Lemma store_reachable (docs : list VerificationCode) (now : clock)
    (ident code meth purp : string) :
  store (Return docs) now ident code meth purp
  = (true,
     Return (let kept := List.filter (fun d => negb (pair_filter ident purp d)) docs in
             kept ++ [new_record ident (sha256_hexdigest code) meth purp now
                                 (fresh_id (map _id kept))])%list).
Proof. reflexivity. Qed.

(** [verify_code] on a store that answers. *)
Lemma verify_reachable (docs : list VerificationCode) (now : clock)
    (ident code purp : string) :
  verify (Return docs) now ident code purp
  = match List.find (live_filter ident (sha256_hexdigest code) purp (reading 0 now))
                    docs with
    | Some r =>
        (true, Return (update_first (fun x => N.eqb (_id x) (_id r))
                                    (set_verified (reading 1 now)) docs))
    | None => (false, Return (update_first (pair_filter ident purp) inc_attempts docs))
    end.
Proof.
  unfold verify_code, verify_code_body, find_one, update_one. cbn [bind].
  destruct (List.find (live_filter ident (sha256_hexdigest code) purp (reading 0 now))
                      docs);
    reflexivity.
Qed.

(** A faulty store fails every verification and stays as it is. *)
Lemma verify_unreachable (e : exn) (now : clock) (ident code purp : string) :
  verify (Raise e) now ident code purp = (false, Raise e).
Proof. reflexivity. Qed.

Lemma live_filter_iff (ident hashed purp : string) (now : Z) (r : VerificationCode) :
  live_filter ident hashed purp now r = true
  <-> identifier r = ident /\ purpose r = purp /\ hashed_code r = hashed
      /\ verified r = false /\ bson_datetime now < expires_at r.
Proof.
  unfold live_filter. rewrite !andb_true_iff, !String.eqb_eq, Z.ltb_lt.
  destruct (verified r); cbn; intuition congruence.
Qed.

Lemma pair_filter_iff (ident purp : string) (r : VerificationCode) :
  pair_filter ident purp r = true <-> identifier r = ident /\ purpose r = purp.
Proof. unfold pair_filter. rewrite andb_true_iff, !String.eqb_eq. reflexivity. Qed.

Lemma live_is_pair (ident hashed purp : string) (now : Z) (r : VerificationCode) :
  live_filter ident hashed purp now r = true -> pair_filter ident purp r = true.
Proof.
  rewrite live_filter_iff, pair_filter_iff. intuition.
Qed.

(** The record a successful verification marks is the one it found. *)
Lemma verify_marks_found (docs : list VerificationCode) (now : Z)
    (filter : VerificationCode -> bool) (r : VerificationCode) :
  NoDup (map _id docs) ->
  List.find filter docs = Some r ->
  exists pre post,
    docs = (pre ++ r :: post)%list
    /\ filter r = true
    /\ update_first (fun x => N.eqb (_id x) (_id r)) (set_verified now) docs
       = (pre ++ set_verified now r :: post)%list.
Proof.
  intros Hnodup Hfind.
  destruct (find_split _ _ _ Hfind) as (pre & post & -> & Hr & _).
  exists pre, post. repeat split; [exact Hr | ].
  apply update_first_split; [ | apply N.eqb_refl].
  intros x Hx. apply N.eqb_neq. intros Heq.
  rewrite map_app in Hnodup. cbn in Hnodup.
  apply NoDup_remove_2 in Hnodup. apply Hnodup.
  apply in_or_app. left. rewrite <- Heq. apply in_map. exact Hx.
Qed.

(** In a consistent collection the record of a pair is alone. *)
Lemma consistent_alone (pre post : list VerificationCode) (r x : VerificationCode)
    (ident purp : string) :
  consistent (pre ++ r :: post) ->
  pair_filter ident purp r = true ->
  In x pre \/ In x post ->
  pair_filter ident purp x = false.
Proof.
  intros [_ Hone] Hr Hx. specialize (Hone ident purp).
  unfold records_for in Hone. rewrite filter_app in Hone. cbn in Hone.
  rewrite Hr in Hone. rewrite length_app in Hone. cbn in Hone.
  destruct (pair_filter ident purp x) eqn:Hpx; [ | reflexivity].
  exfalso. destruct Hx as [Hx | Hx].
  - assert (Hin : In x (List.filter (pair_filter ident purp) pre))
      by (apply filter_In; split; assumption).
    destruct (List.filter (pair_filter ident purp) pre); [destruct Hin | cbn in Hone; lia].
  - assert (Hin : In x (List.filter (pair_filter ident purp) post))
      by (apply filter_In; split; assumption).
    destruct (List.filter (pair_filter ident purp) post); [destruct Hin | cbn in Hone; lia].
Qed.

(** Once every record of a pair is consumed, no code verifies for it. *)
Lemma consumed_fails (docs : list VerificationCode) (now : clock)
    (ident code purp : string) :
  consumed ident purp docs ->
  fst (verify (Return docs) now ident code purp) = false.
Proof.
  intros Hdead. rewrite verify_reachable.
  destruct (List.find (live_filter ident (sha256_hexdigest code) purp (reading 0 now))
                      docs)
    as [r | ] eqn:Hfind; [ | reflexivity].
  exfalso. apply find_some in Hfind. destruct Hfind as [Hin Hlive].
  pose proof (Hdead r Hin (live_is_pair _ _ _ _ _ Hlive)) as Hv.
  apply live_filter_iff in Hlive. intuition congruence.
Qed.

(** A call that does not issue a code for the pair keeps it consumed. *)
Lemma step_consumed (docs : list VerificationCode) (op : call) (ident purp : string) :
  consumed ident purp docs ->
  reissues ident purp op = false ->
  exists docs', step (Return docs) op = Return docs'
                /\ consumed ident purp docs'.
Proof.
  intros Hdead Hop. destruct op as [now i code meth p | now i code p]; cbn [step].
  - rewrite store_reachable. cbn [snd]. eexists. split; [reflexivity | ].
    intros r Hin Hpair. cbv zeta in Hin. apply in_app_or in Hin.
    destruct Hin as [Hin | [<- | []]].
    + apply filter_In in Hin. exact (Hdead r (proj1 Hin) Hpair).
    + cbn in Hop. unfold pair_filter in Hpair. cbn in Hpair. congruence.
  - rewrite verify_reachable.
    destruct (List.find (live_filter i (sha256_hexdigest code) p (reading 0 now)) docs)
      as [found | ];
      cbn [snd]; (eexists; split; [reflexivity | ]);
      intros r Hin Hpair;
      (apply In_update_first in Hin; destruct Hin as [Hin | (y & Hy & ->)];
       [exact (Hdead r Hin Hpair) | ]).
    + reflexivity.
    + exact (Hdead y Hy Hpair).
Qed.

Lemma run_consumed (ops : list call) (ident purp : string) :
  forall docs,
    consumed ident purp docs ->
    forallb (fun op => negb (reissues ident purp op)) ops = true ->
    exists docs', run (Return docs) ops = Return docs'
                  /\ consumed ident purp docs'.
Proof.
  induction ops as [ | op ops IH]; intros docs Hdead Hops.
  - exists docs. split; [reflexivity | exact Hdead].
  - cbn in Hops. apply andb_true_iff in Hops. destruct Hops as [Hop Hops].
    apply negb_true_iff in Hop.
    destruct (step_consumed docs op ident purp Hdead Hop) as (docs1 & Hstep & Hdead1).
    destruct (IH docs1 Hdead1 Hops) as (docs' & Hrun & Hdead').
    exists docs'. split; [ | exact Hdead'].
    unfold run in *. cbn [fold_left]. rewrite Hstep. exact Hrun.
Qed.

(** *** The invariant of the collection *)

Lemma store_consistent (docs : list VerificationCode) (now : clock)
    (ident hashed meth purp : string) :
  consistent docs ->
  let kept := List.filter (fun d => negb (pair_filter ident purp d)) docs in
  consistent (kept ++ [new_record ident hashed meth purp now (fresh_id (map _id kept))]).
Proof.
  intros [Hnodup Hone] kept. split.
  - rewrite map_app. cbn [map _id new_record].
    apply NoDup_app.
    + apply NoDup_map_filter. exact Hnodup.
    + constructor; [intros [] | constructor].
    + intros a Ha [<- | []]. exact (fresh_id_not_in _ Ha).
  - intros i p. unfold records_for. rewrite filter_app, length_app.
    cbn [List.filter].
    destruct (pair_filter i p (new_record ident hashed meth purp now
                                          (fresh_id (map _id kept)))) eqn:Hnew.
    + apply pair_filter_iff in Hnew. cbn in Hnew. destruct Hnew as [<- <-].
      unfold kept. rewrite filter_complement. cbn. lia.
    + cbn [List.length]. rewrite Nat.add_0_r.
      pose proof (filter_filter_length
                    (fun d => negb (pair_filter ident purp d)) (pair_filter i p) docs).
      specialize (Hone i p). unfold records_for in Hone. unfold kept. lia.
Qed.

Lemma update_consistent (docs : list VerificationCode)
    (q : VerificationCode -> bool) (f : VerificationCode -> VerificationCode) :
  (forall r, _id (f r) = _id r) ->
  (forall r, identifier (f r) = identifier r) ->
  (forall r, purpose (f r) = purpose r) ->
  consistent docs ->
  consistent (update_first q f docs).
Proof.
  intros Hid Hident Hpurp [Hnodup Hone]. split.
  - rewrite (map_update_first _id q f docs Hid). exact Hnodup.
  - intros i p. unfold records_for.
    rewrite (filter_length_map (pair_filter i p) (update_first q f docs) docs).
    + exact (Hone i p).
    + apply map_update_first. intros r. unfold pair_filter.
      rewrite Hident, Hpurp. reflexivity.
Qed.

Lemma step_consistent (docs : list VerificationCode) (op : call) :
  consistent docs ->
  exists docs', step (Return docs) op = Return docs'
                /\ consistent docs'.
Proof.
  intros Hc. destruct op as [now i code meth p | now i code p]; cbn [step].
  - rewrite store_reachable. cbn [snd]. eexists. split; [reflexivity | ].
    apply store_consistent. exact Hc.
  - rewrite verify_reachable.
    destruct (List.find (live_filter i (sha256_hexdigest code) p (reading 0 now)) docs);
      cbn [snd]; (eexists; split; [reflexivity | ]);
      apply update_consistent; trivial.
Qed.

Lemma consistent_nil : consistent [].
Proof. split; [constructor | intros i p; cbn; lia]. Qed.

(** Whatever the service is asked from an empty collection, a pair never
    has two records. *)
Lemma run_consistent (ops : list call) :
  forall docs,
    consistent docs ->
    exists docs', run (Return docs) ops = Return docs'
                  /\ consistent docs'.
Proof.
  induction ops as [ | op ops IH]; intros docs Hc.
  - exists docs. split; [reflexivity | exact Hc].
  - destruct (step_consistent docs op Hc) as (docs1 & Hstep & Hc1).
    destruct (IH docs1 Hc1) as (docs' & Hrun & Hc').
    exists docs'. split; [ | exact Hc'].
    unfold run in *. cbn [fold_left]. rewrite Hstep. exact Hrun.
Qed.

(** After a successful verification the pair is consumed. *)
Lemma verified_consumed (pre post : list VerificationCode) (r : VerificationCode)
    (now : Z) (ident purp : string) :
  consistent (pre ++ r :: post) ->
  pair_filter ident purp r = true ->
  consumed ident purp (pre ++ set_verified now r :: post).
Proof.
  intros Hc Hr x Hin Hpair.
  apply in_app_or in Hin. destruct Hin as [Hin | [<- | Hin]].
  - rewrite (consistent_alone pre post r x ident purp Hc Hr (or_introl Hin)) in Hpair.
    discriminate.
  - reflexivity.
  - rewrite (consistent_alone pre post r x ident purp Hc Hr (or_intror Hin)) in Hpair.
    discriminate.
Qed.

(** The digests of "abc" (the test vector of FIPS 180-4), of the empty
    string and of a six-digit code. *)
Example sha256_abc :
  sha256_hexdigest "abc"
  = "ba7816bf8f01cfea414140de5dae2223b00361a396177a9cb410ff61f20015ad".
Proof. vm_compute. reflexivity. Qed.

Example sha256_empty :
  sha256_hexdigest EmptyString
  = "e3b0c44298fc1c149afbf4c8996fb92427ae41e4649b934ca495991b7852b855".
Proof. vm_compute. reflexivity. Qed.

Example sha256_123456 :
  sha256_hexdigest "123456"
  = "8d969eef6ecad3c29a3a629280e686cf0c3f5d5a86aff3ca12020c923adc6c92".
Proof. vm_compute. reflexivity. Qed.

(** A digest is 64 hexadecimal digits, whatever the message. *)
Lemma sha256_hexdigest_length (s : string) :
  String.length (sha256_hexdigest s) = 64%nat.
Proof.
  unfold Hashlib.sha256_hexdigest.
  generalize (Hashlib.sha256 (Hashlib.encode s)). intros h. reflexivity.
Qed.

(** *** The claims *)

(** C4.  [verify_code] succeeds exactly when the collection holds a record
    of the pair whose digest is that of the code, not yet verified, and
    whose [expires_at] is strictly later than the clock, which the store
    compares in whole milliseconds: for an [expires_at] the store holds that
    is the comparison of the instants themselves.  On failure the first
    record of the pair, if there is one, has its [attempts] raised by one
    and nothing else changes.  On success the record found becomes verified,
    with [verified_at] the clock read again, and nothing else changes.
    Hence, in a collection where a pair has at most one record, a code
    verified once fails every later verification until a code is issued
    again for the pair, and a code presented at or after its expiry fails. *)
Theorem verify_code_spec (docs : list VerificationCode) (now : clock)
    (ident code purp : string) :
  let result := verify (Return docs) now ident code purp in
  let asked := reading 0 now in
  (fst result = true <->
   exists r, In r docs /\ identifier r = ident /\ purpose r = purp
             /\ hashed_code r = sha256_hexdigest code
             /\ verified r = false /\ 1000 * (asked / 1000) < expires_at r)
  /\ (forall r, expires_at r mod 1000 = 0 ->
        (1000 * (asked / 1000) < expires_at r <-> asked < expires_at r))
  /\ (fst result = false ->
      ((forall x, In x docs -> ~ (identifier x = ident /\ purpose x = purp))
       /\ snd result = Return docs)
      \/ exists pre r post,
           docs = (pre ++ r :: post)%list
           /\ (forall x, In x pre -> ~ (identifier x = ident /\ purpose x = purp))
           /\ identifier r = ident /\ purpose r = purp
           /\ snd result
              = Return (pre ++ {| _id := _id r; identifier := identifier r;
                                  hashed_code := hashed_code r; method := method r;
                                  purpose := purpose r; created_at := created_at r;
                                  expires_at := expires_at r; verified := verified r;
                                  verified_at := verified_at r;
                                  attempts := attempts r + 1 |} :: post)%list)
  /\ (NoDup (map _id docs) -> fst result = true ->
      exists pre r post,
        docs = (pre ++ r :: post)%list
        /\ identifier r = ident /\ purpose r = purp
        /\ hashed_code r = sha256_hexdigest code
        /\ verified r = false /\ 1000 * (asked / 1000) < expires_at r
        /\ snd result
           = Return (pre ++ {| _id := _id r; identifier := identifier r;
                               hashed_code := hashed_code r; method := method r;
                               purpose := purpose r; created_at := created_at r;
                               expires_at := expires_at r; verified := true;
                               verified_at := Some (1000 * (reading 1 now / 1000));
                               attempts := attempts r |} :: post)%list)
  /\ (consistent docs -> fst result = true ->
      forall (ops : list call) (now' : clock),
        forallb (fun op => negb (reissues ident purp op)) ops = true ->
        fst (verify (run (snd result) ops) now' ident code purp)
        = false)
  /\ ((forall r, In r docs -> identifier r = ident -> purpose r = purp ->
                 hashed_code r = sha256_hexdigest code ->
                 expires_at r mod 1000 = 0 /\ expires_at r <= asked) ->
      fst result = false).
Proof.
  cbv zeta. rewrite verify_reachable.
  split; [ | split; [intros r Hr; exact (bson_datetime_lt _ _ Hr) | ]].
  { (* success is the existence of a live record *)
    destruct (List.find (live_filter ident (sha256_hexdigest code) purp (reading 0 now))
                        docs) as [found | ] eqn:Hfind; cbn [fst].
    - split; [intros _ | reflexivity].
      pose proof (find_some _ _ Hfind) as [Hin Hlive].
      exists found. split; [exact Hin | ]. apply live_filter_iff. exact Hlive.
    - split; [discriminate | ].
      intros (r & Hin & Hr). exfalso.
      apply live_filter_iff in Hr.
      pose proof (find_none _ _ Hfind r Hin) as Hnone. congruence. }
  destruct (List.find (live_filter ident (sha256_hexdigest code) purp (reading 0 now))
                      docs) as [found | ] eqn:Hfind; cbn [fst snd].
  - (* a live record was found *)
    pose proof (find_some _ _ Hfind) as [Hin Hlive].
    split; [discriminate | split; [ | split]].
    + intros Hnodup _.
      destruct (verify_marks_found docs (reading 1 now) _ found Hnodup Hfind)
        as (pre & post & Hdocs & Hr & Hupd).
      apply live_filter_iff in Hr. destruct Hr as (Hi & Hp & Hh & Hv & Ht).
      exists pre, found, post. rewrite Hupd.
      split; [exact Hdocs | ]. split; [exact Hi | ]. split; [exact Hp | ].
      split; [exact Hh | ]. split; [exact Hv | ]. split; [exact Ht | reflexivity].
    + intros Hc _ ops now' Hops.
      destruct (verify_marks_found docs (reading 1 now) _ found (proj1 Hc) Hfind)
        as (pre & post & Hdocs & Hr & Hupd).
      rewrite Hupd. rewrite Hdocs in Hc.
      pose proof (verified_consumed pre post found (reading 1 now) ident purp Hc
                    (live_is_pair _ _ _ _ _ Hr)) as Hdead.
      destruct (run_consumed ops ident purp _ Hdead Hops) as (docs' & Hrun & Hdead').
      rewrite Hrun. apply consumed_fails. exact Hdead'.
    + intros Hexpired. exfalso.
      apply live_filter_iff in Hlive. destruct Hlive as (Hi & Hp & Hh & _ & Hlater).
      destruct (Hexpired found Hin Hi Hp Hh) as [Hwhole Hpast].
      apply (proj1 (bson_datetime_lt _ _ Hwhole)) in Hlater. lia.
  - (* no live record *)
    split; [ | split; [discriminate | split; [discriminate | reflexivity]]].
    intros _.
    destruct (List.find (pair_filter ident purp) docs) as [r | ] eqn:Hpair.
    + right. destruct (find_split _ _ _ Hpair) as (pre & post & Hdocs & Hr & Hpre).
      exists pre, r, post. apply pair_filter_iff in Hr as Hr'. destruct Hr' as [Hi Hp].
      split; [exact Hdocs | ].
      split; [intros x Hx Hx'; apply pair_filter_iff in Hx';
              rewrite (Hpre x Hx) in Hx'; discriminate | ].
      split; [exact Hi | ]. split; [exact Hp | ].
      rewrite Hdocs, (update_first_split _ _ _ _ _ Hpre Hr). reflexivity.
    + left. pose proof (find_none _ _ Hpair) as Hnone.
      split; [intros x Hx Hx'; apply pair_filter_iff in Hx';
              rewrite (Hnone x Hx) in Hx'; discriminate | ].
      rewrite (update_first_none _ _ _ Hnone). reflexivity.
Qed.

(** C5 (amended).  On a store that answers, [store_verification_code]
    returns [True] and leaves the records of the other pairs followed by one
    new record for the pair: it carries the SHA-256 digest of the code,
    [created_at] the clock cut to whole milliseconds, [expires_at] the
    clock, read again, plus ten minutes and cut to whole milliseconds,
    [verified = False] and [attempts = 0]; [expires_at] is [created_at] plus
    ten minutes when the two readings fall in the same millisecond.  The
    call depends on the code through its digest only, and the digest, 64
    characters long, is not the code unless the code itself has 64
    characters.  The pair then has exactly one record, the invariant "at
    most one record per pair" is kept, it holds after any run of calls from
    the empty collection, and a code whose digest differs from the stored
    one does not verify for the pair. *)
Theorem store_verification_code_spec (docs : list VerificationCode) (now : clock)
    (ident code meth purp : string) :
  let kept := List.filter (fun d => negb (pair_filter ident purp d)) docs in
  let r := new_record ident (sha256_hexdigest code) meth purp now
                      (fresh_id (map _id kept)) in
  store (Return docs) now ident code meth purp = (true, Return (kept ++ [r])%list)
  /\ (forall x, In x kept
                <-> In x docs /\ ~ (identifier x = ident /\ purpose x = purp))
  /\ (identifier r = ident /\ purpose r = purp /\ method r = meth
      /\ hashed_code r = sha256_hexdigest code
      /\ created_at r = 1000 * (reading 0 now / 1000)
      /\ expires_at r = 1000 * (reading 1 now / 1000) + 10 * 60 * 1000000
      /\ verified r = false
      /\ verified_at r = None
      /\ attempts r = 0)
  /\ (reading 0 now / 1000 = reading 1 now / 1000 ->
      expires_at r = created_at r + 10 * 60 * 1000000)
  /\ (forall code', sha256_hexdigest code' = sha256_hexdigest code ->
        store (Return docs) now ident code' meth purp
        = store (Return docs) now ident code meth purp)
  /\ (String.length code <> 64%nat -> hashed_code r <> code)
  /\ records_for ident purp (kept ++ [r]) = [r]
  /\ (forall x, In x (kept ++ [r]) -> identifier x = ident -> purpose x = purp -> x = r)
  /\ (consistent docs -> consistent (kept ++ [r]))
  /\ (forall ops, exists docs',
        run (Return []) ops = Return docs' /\ consistent docs')
  /\ (forall (code' : string) (now' : clock),
        sha256_hexdigest code' <> sha256_hexdigest code ->
        fst (verify (Return (kept ++ [r])%list) now' ident code' purp) = false).
Proof.
  intros kept r.
  assert (Hpair : pair_filter ident purp r = true).
  { apply pair_filter_iff. split; reflexivity. }
  assert (Hrecords : records_for ident purp (kept ++ [r]) = [r]).
  { unfold records_for. rewrite filter_app. unfold kept at 1.
    rewrite filter_complement. cbn [List.filter app]. rewrite Hpair. reflexivity. }
  assert (Hexpires : expires_at r = 1000 * (reading 1 now / 1000) + 10 * 60 * 1000000).
  { apply bson_datetime_ten_minutes. }
  split; [apply store_reachable | ].
  split.
  { intros x. unfold kept. rewrite filter_In, negb_true_iff, <- pair_filter_iff.
    destruct (pair_filter ident purp x); split; intros [Hin H];
      (split; [exact Hin | ]); congruence. }
  split.
  { split; [reflexivity | ]. split; [reflexivity | ]. split; [reflexivity | ].
    split; [reflexivity | ]. split; [reflexivity | ]. split; [exact Hexpires | ].
    split; [reflexivity | ]. split; reflexivity. }
  split.
  { intros Hsame. rewrite Hexpires. cbn [r new_record created_at].
    unfold bson_datetime. rewrite Hsame. reflexivity. }
  split.
  { intros code' Hdigest. rewrite !store_reachable, Hdigest. reflexivity. }
  split.
  { intros Hlen Heq. apply Hlen. rewrite <- Heq. apply sha256_hexdigest_length. }
  split; [exact Hrecords | ].
  split.
  { intros x Hin Hi Hp.
    assert (Hx : In x (records_for ident purp (kept ++ [r]))).
    { apply filter_In. split; [exact Hin | ]. apply pair_filter_iff. split; assumption. }
    rewrite Hrecords in Hx. destruct Hx as [<- | []]. reflexivity. }
  split; [apply store_consistent | ].
  split; [intros ops; apply run_consistent; apply consistent_nil | ].
  intros code' now' Hdigest. rewrite verify_reachable.
  destruct (List.find (live_filter ident (sha256_hexdigest code') purp (reading 0 now'))
                      (kept ++ [r])) as [found | ] eqn:Hfind; [ | reflexivity].
  exfalso. apply find_some in Hfind. destruct Hfind as [Hin Hlive].
  assert (Hfound : In found (records_for ident purp (kept ++ [r]))).
  { apply filter_In. split; [exact Hin | exact (live_is_pair _ _ _ _ _ Hlive)]. }
  rewrite Hrecords in Hfound. destruct Hfound as [<- | []].
  apply live_filter_iff in Hlive. destruct Hlive as (_ & _ & Hh & _).
  apply Hdigest. symmetry. exact Hh.
Qed.

End VerificationFacts.

(** The code issued at 0 verifies at 5 and, once verified, fails at 6. *)
Lemma verify_code_spec_witness :
  fst (VerificationService.verify_code (Return Examples.inbox) (Examples.stopped 5)
         "a@b.c" "123456" "verification") = true
  /\ fst (VerificationService.verify_code
            (snd (VerificationService.verify_code (Return Examples.inbox)
                    (Examples.stopped 5) "a@b.c" "123456" "verification"))
            (Examples.stopped 6) "a@b.c" "123456" "verification") = false.
Proof.
  assert (Hfirst : fst (VerificationService.verify_code (Return Examples.inbox)
                          (Examples.stopped 5) "a@b.c" "123456" "verification")
                   = true)
    by (vm_compute; reflexivity).
  split; [exact Hfirst | ].
  destruct (verify_code_spec Examples.inbox (Examples.stopped 5) "a@b.c" "123456"
              "verification")
    as (_ & _ & _ & _ & Honce & _).
  apply (Honce (store_consistent [] (Examples.stopped 0) "a@b.c"
                  (Hashlib.sha256_hexdigest "123456")
                  "email" "verification" consistent_nil)
               Hfirst [] (Examples.stopped 6) eq_refl).
Defined.

(** A wrong guess at the code of the inbox raises its [attempts] from 0
    to 1 and changes nothing else. *)
Example wrong_guess_is_counted :
  VerificationService.verify_code (Return Examples.inbox) (Examples.stopped 5)
    "a@b.c" "000000" "verification"
  = (false,
     Return [ {| VerificationService._id := 1;
                 VerificationService.identifier := "a@b.c";
                 VerificationService.hashed_code :=
                   "8d969eef6ecad3c29a3a629280e686cf0c3f5d5a86aff3ca12020c923adc6c92";
                 VerificationService.method := "email";
                 VerificationService.purpose := "verification";
                 VerificationService.created_at := 0;
                 VerificationService.expires_at := 600000000;
                 VerificationService.verified := false;
                 VerificationService.verified_at := None;
                 VerificationService.attempts := 1 |} ]).
Proof. vm_compute. reflexivity. Qed.

(** After 654321 is issued at 10 for the same pair, 123456 fails at 11. *)
Lemma store_verification_code_spec_witness :
  fst (VerificationService.verify_code
         (snd (VerificationService.store_verification_code (Return Examples.inbox)
                 (Examples.stopped 10) "a@b.c" "654321" "email" "verification"))
         (Examples.stopped 11) "a@b.c" "123456" "verification") = false.
Proof.
  destruct (store_verification_code_spec Examples.inbox (Examples.stopped 10) "a@b.c"
              "654321" "email" "verification")
    as (_ & _ & _ & _ & _ & _ & _ & _ & _ & _ & Hsuperseded).
  apply Hsuperseded. intros H. vm_compute in H. discriminate H.
Defined.

(** C5 as stated fails when the clock passes a millisecond between its two
    readings: read at 999 and at 1000 microseconds, it gives
    [created_at = 0] and [expires_at] one millisecond more than ten minutes
    later. *)
Lemma clock_read_twice_counterexample :
  VerificationService.store_verification_code (Return []) (Examples.ticking 999)
    "a@b.c" "123456" "email" "verification"
  = (true,
     Return [ {| VerificationService._id := 1;
                 VerificationService.identifier := "a@b.c";
                 VerificationService.hashed_code :=
                   "8d969eef6ecad3c29a3a629280e686cf0c3f5d5a86aff3ca12020c923adc6c92";
                 VerificationService.method := "email";
                 VerificationService.purpose := "verification";
                 VerificationService.created_at := 0;
                 VerificationService.expires_at := 600001000;
                 VerificationService.verified := false;
                 VerificationService.verified_at := None;
                 VerificationService.attempts := 0 |} ])
  /\ 600001000 <> 0 + 10 * 60 * 1000000.
Proof. split; [vm_compute; reflexivity | lia]. Qed.

(** ** More about the lifecycle of a code *)

Section LifecycleFacts.

Import VerificationService.

#[local] Abbreviation store := store_verification_code.
#[local] Abbreviation verify := verify_code.
#[local] Abbreviation sha256_hexdigest := Hashlib.sha256_hexdigest.

Lemma find_app_last {A : Type} (p : A -> bool) (l : list A) (r : A) :
  (forall x, In x l -> p x = false) ->
  List.find p (l ++ [r]) = if p r then Some r else None.
Proof.
  intros H. induction l as [ | a l IH]; cbn.
  - destruct (p r); reflexivity.
  - rewrite (H a (or_introl eq_refl)). apply IH.
    intros x Hx. apply H. right. exact Hx.
Qed.

Lemma find_filter_implied {A : Type} (p q : A -> bool) (l : list A) :
  (forall x, p x = true -> q x = true) ->
  List.find p (List.filter q l) = List.find p l.
Proof.
  intros H. induction l as [ | a l IH]; cbn; [reflexivity | ].
  destruct (p a) eqn:Hp.
  - rewrite (H a Hp). cbn. rewrite Hp. reflexivity.
  - destruct (q a); cbn; [rewrite Hp | ]; exact IH.
Qed.

Lemma find_app_some {A : Type} (p : A -> bool) (l l' : list A) (y : A) :
  List.find p l = Some y -> List.find p (l ++ l') = Some y.
Proof.
  induction l as [ | a l IH]; cbn; [discriminate | ].
  destruct (p a); [intros H; exact H | exact IH].
Qed.

Lemma find_exists {A : Type} (p : A -> bool) (l : list A) (x : A) :
  In x l -> p x = true -> exists y, List.find p l = Some y.
Proof.
  intros Hin Hp. destruct (List.find p l) as [y | ] eqn:Hfind.
  - exists y. reflexivity.
  - rewrite (find_none p l Hfind x Hin) in Hp. discriminate.
Qed.

(** The records kept by a store are not of the pair. *)
Lemma kept_not_pair (docs : list VerificationCode) (ident purp : string)
    (x : VerificationCode) :
  In x (List.filter (fun d => negb (pair_filter ident purp d)) docs) ->
  pair_filter ident purp x = false.
Proof.
  intros H. apply filter_In in H. destruct H as [_ H].
  apply negb_true_iff in H. exact H.
Qed.

(** The test of the store against the [expires_at] of a record just
    written. *)
Lemma before_expiry (asked t : Z) :
  (bson_datetime asked <? bson_datetime (t + ten_minutes))
  = (asked <? 1000 * (t / 1000) + 10 * 60 * 1000000).
Proof.
  rewrite bson_datetime_ten_minutes.
  assert (Hwhole : (1000 * (t / 1000) + 10 * 60 * 1000000) mod 1000 = 0)
    by (Z.to_euclidean_division_equations; lia).
  pose proof (bson_datetime_lt asked _ Hwhole) as Hiff.
  destruct (Z.ltb_spec (bson_datetime asked) (1000 * (t / 1000) + 10 * 60 * 1000000)),
           (Z.ltb_spec asked (1000 * (t / 1000) + 10 * 60 * 1000000));
    try reflexivity; lia.
Qed.

(** What the lookup of [verify_code] finds for the pair just stored. *)
Lemma find_own_after_store (docs : list VerificationCode) (now : clock) (asked : Z)
    (ident code meth purp : string) :
  let kept := List.filter (fun d => negb (pair_filter ident purp d)) docs in
  let r := new_record ident (sha256_hexdigest code) meth purp now
                      (fresh_id (map _id kept)) in
  List.find (live_filter ident (sha256_hexdigest code) purp asked) (kept ++ [r])
  = if asked <? 1000 * (reading 1 now / 1000) + 10 * 60 * 1000000
    then Some r else None.
Proof.
  intros kept r. rewrite find_app_last.
  - assert (Hr : live_filter ident (sha256_hexdigest code) purp asked r
                 = (asked <? 1000 * (reading 1 now / 1000) + 10 * 60 * 1000000)).
    { rewrite <- before_expiry. unfold live_filter, r.
      cbn [new_record identifier hashed_code purpose verified expires_at].
      rewrite !String.eqb_refl. reflexivity. }
    rewrite Hr. reflexivity.
  - intros x Hx.
    destruct (live_filter ident (sha256_hexdigest code) purp asked x) eqn:Hlive;
      [ | reflexivity].
    apply live_is_pair in Hlive. rewrite (kept_not_pair _ _ _ _ Hx) in Hlive.
    discriminate.
Qed.

(** What it finds for another pair: what it found before the store. *)
Lemma find_other_after_store (docs : list VerificationCode) (now : clock) (now' : Z)
    (ident code meth purp ident' hashed' purp' : string) :
  String.eqb ident' ident && String.eqb purp' purp = false ->
  let kept := List.filter (fun d => negb (pair_filter ident purp d)) docs in
  let r := new_record ident (sha256_hexdigest code) meth purp now
                      (fresh_id (map _id kept)) in
  List.find (live_filter ident' hashed' purp' now') (kept ++ [r])
  = List.find (live_filter ident' hashed' purp' now') docs.
Proof.
  intros Hother kept r.
  set (live := live_filter ident' hashed' purp' now').
  assert (Hfilter : forall x, live x = true -> negb (pair_filter ident purp x) = true).
  { intros x Hx. apply live_filter_iff in Hx. destruct Hx as (Hi & Hp & _).
    apply negb_true_iff. unfold pair_filter. rewrite Hi, Hp. exact Hother. }
  rewrite <- (find_filter_implied live _ docs Hfilter). fold kept.
  destruct (List.find live kept) as [y | ] eqn:Hkept.
  - apply find_app_some. exact Hkept.
  - rewrite find_app_last; [ | exact (find_none _ _ Hkept)].
    destruct (live r) eqn:Hr; [ | reflexivity].
    apply Hfilter in Hr. apply negb_true_iff in Hr.
    assert (Hpair : pair_filter ident purp r = true)
      by (apply pair_filter_iff; split; reflexivity).
    rewrite Hpair in Hr. discriminate.
Qed.

(** X1.  A code just stored verifies for its pair, whatever the collection
    held before, exactly until ten minutes after the start of the
    millisecond in which the store read the clock for [expires_at]: the
    clock of the verification must read strictly less.  What is left of
    that millisecond is lost to the resolution of the store. *)
Theorem stored_code_verifies_until_expiry (docs : list VerificationCode)
    (now now' : clock) (ident code meth purp : string) :
  fst (verify (snd (store (Return docs) now ident code meth purp))
              now' ident code purp) = true
  <-> reading 0 now' < 1000 * (reading 1 now / 1000) + 10 * 60 * 1000000.
Proof.
  rewrite store_reachable. cbn [snd]. rewrite verify_reachable.
  cbv zeta.
  rewrite (find_own_after_store docs now (reading 0 now') ident code meth purp).
  destruct (reading 0 now' <? 1000 * (reading 1 now / 1000) + 10 * 60 * 1000000)
    eqn:Hnow; cbn [fst].
  - apply Z.ltb_lt in Hnow. split; [intros _; exact Hnow | reflexivity].
  - apply Z.ltb_ge in Hnow. split; [discriminate | lia].
Qed.

(** A code stored when the clock reads 500 microseconds is accepted one
    microsecond before the ten minutes of its millisecond are over, and
    refused at 600000400, less than ten minutes after the store. *)
Example last_millisecond_is_refused :
  fst (verify (snd (store (Return []) (Examples.stopped 500) "a@b.c" "123456" "email"
                          "verification"))
              (Examples.stopped 599999999) "a@b.c" "123456" "verification") = true
  /\ fst (verify (snd (store (Return []) (Examples.stopped 500) "a@b.c" "123456"
                             "email" "verification"))
                 (Examples.stopped 600000400) "a@b.c" "123456" "verification") = false
  /\ 600000400 < 500 + 10 * 60 * 1000000.
Proof. split; [vm_compute; reflexivity | split; [vm_compute; reflexivity | lia]]. Qed.

(** X2.  The last store wins: issuing a code for a pair and then another
    one leaves the collection that issuing the second alone leaves. *)
Theorem second_store_replaces_first (c : collection VerificationCode)
    (now1 now2 : clock) (ident code1 meth1 code2 meth2 purp : string) :
  snd (store (snd (store c now1 ident code1 meth1 purp)) now2 ident code2 meth2 purp)
  = snd (store c now2 ident code2 meth2 purp).
Proof.
  destruct c as [docs | e]; [ | reflexivity].
  rewrite !store_reachable. cbn [snd]. rewrite store_reachable. cbn [snd].
  cbv zeta. rewrite filter_app.
  set (kept := List.filter (fun d => negb (pair_filter ident purp d)) docs).
  assert (Hkept : List.filter (fun d => negb (pair_filter ident purp d)) kept = kept).
  { unfold kept. induction docs as [ | a docs IH]; cbn; [reflexivity | ].
    destruct (pair_filter ident purp a) eqn:Ha; cbn; [exact IH | ].
    rewrite Ha. cbn. f_equal. exact IH. }
  rewrite Hkept. cbn [List.filter].
  assert (Hnew : forall h m t o,
             pair_filter ident purp (new_record ident h m purp t o) = true).
  { intros h m t o. apply pair_filter_iff. split; reflexivity. }
  rewrite Hnew. cbn [negb]. rewrite app_nil_r. reflexivity.
Qed.

(** X3.  Pairs do not interfere: issuing a code for one pair does not
    change the outcome of a verification for another pair. *)
Theorem store_keeps_other_pairs (docs : list VerificationCode) (now now' : clock)
    (ident code meth purp ident' code' purp' : string) :
  String.eqb ident' ident && String.eqb purp' purp = false ->
  fst (verify (snd (store (Return docs) now ident code meth purp))
              now' ident' code' purp')
  = fst (verify (Return docs) now' ident' code' purp').
Proof.
  intros Hother.
  rewrite store_reachable. cbn [snd]. rewrite !verify_reachable. cbv zeta.
  rewrite (find_other_after_store docs now (reading 0 now') ident code meth purp ident'
             (sha256_hexdigest code') purp' Hother).
  destruct (List.find (live_filter ident' (sha256_hexdigest code') purp' (reading 0 now'))
                      docs);
    reflexivity.
Qed.

Lemma store_keeps_other_pairs_witness :
  fst (VerificationService.verify_code
         (snd (VerificationService.store_verification_code (Return Examples.inbox)
                 (Examples.stopped 10) "a@b.c" "654321" "email" "password_reset"))
         (Examples.stopped 11) "a@b.c" "123456" "verification")
  = fst (VerificationService.verify_code (Return Examples.inbox) (Examples.stopped 11)
           "a@b.c" "123456" "verification").
Proof.
  apply (store_keeps_other_pairs Examples.inbox (Examples.stopped 10)
           (Examples.stopped 11) "a@b.c" "654321" "email"
           "password_reset" "a@b.c" "123456" "verification").
  reflexivity.
Defined.

Lemma In_update_first_cases {A : Type} (q : A -> bool) (f : A -> A) (l : list A)
    (x : A) :
  In x l -> In x (update_first q f l) \/ In (f x) (update_first q f l).
Proof.
  induction l as [ | a l IH]; cbn; [intros [] | ].
  destruct (q a); intros [<- | Hx].
  - right. left. reflexivity.
  - left. right. exact Hx.
  - left. left. reflexivity.
  - destruct (IH Hx) as [H | H]; [left | right]; right; exact H.
Qed.

(** A call that leaves the digest of a pair alone keeps its live record. *)
Lemma step_keeps_live (docs : list VerificationCode) (op : call)
    (ident code purp : string) (now' : Z) :
  consistent docs ->
  (exists r, In r docs /\ live_filter ident (sha256_hexdigest code) purp now' r = true) ->
  Lifecycle.leaves_alone ident (sha256_hexdigest code) purp op = true ->
  exists docs',
    step (Return docs) op = Return docs'
    /\ consistent docs'
    /\ exists r, In r docs'
                 /\ live_filter ident (sha256_hexdigest code) purp now' r = true.
Proof.
  intros Hc (r & Hin & Hlive) Hop.
  pose proof (proj1 (live_filter_iff _ _ _ _ _) Hlive) as (Hi & Hp & Hh & Hv & Ht).
  destruct op as [now i c m p | now i c p]; cbn [step Lifecycle.leaves_alone] in *.
  - rewrite store_reachable. cbn [snd]. eexists. split; [reflexivity | ].
    split; [apply store_consistent; exact Hc | ].
    exists r. split; [ | exact Hlive].
    apply in_or_app. left. apply filter_In. split; [exact Hin | ].
    unfold pair_filter. rewrite Hi, Hp.
    rewrite (String.eqb_sym ident i), (String.eqb_sym purp p). exact Hop.
  - rewrite verify_reachable.
    destruct (List.find (live_filter i (sha256_hexdigest c) p (reading 0 now)) docs)
      as [found | ] eqn:Hfind; cbn [snd]; (eexists; split; [reflexivity | ]);
      (split; [apply update_consistent; trivial | ]).
    + destruct (verify_marks_found docs (reading 1 now) _ found (proj1 Hc) Hfind)
        as (pre & post & Hdocs & Hfound & Hupd).
      rewrite Hupd. exists r. split; [ | exact Hlive].
      rewrite Hdocs in Hin. apply in_app_or in Hin.
      apply in_or_app. destruct Hin as [Hin | [Heq | Hin]].
      * left. exact Hin.
      * exfalso. subst found.
        apply live_filter_iff in Hfound. destruct Hfound as (Hi' & Hp' & Hh' & _).
        apply negb_true_iff in Hop.
        rewrite <- Hi', <- Hp', <- Hh', Hi, Hp, Hh, !String.eqb_refl in Hop.
        discriminate.
      * right. right. exact Hin.
    + destruct (In_update_first_cases (pair_filter i p) inc_attempts docs r Hin)
        as [H | H].
      * exists r. split; assumption.
      * exists (inc_attempts r). split; [exact H | ].
        apply live_filter_iff. cbn. repeat split; assumption.
Qed.

(** X4.  There is no lockout: while the record of a code is live in a
    collection with at most one record per pair, any number of calls that
    neither issue a code for the pair nor present the digest of the code
    (wrong guesses raise [attempts], other pairs are served) leave the code
    verifiable. *)
Theorem wrong_guesses_never_lock (ops : list call) (ident code purp : string)
    (now' : clock) :
  forall docs : list VerificationCode,
    consistent docs ->
    (exists r, In r docs
               /\ live_filter ident (sha256_hexdigest code) purp (reading 0 now') r
                  = true) ->
    forallb (Lifecycle.leaves_alone ident (sha256_hexdigest code) purp) ops = true ->
    fst (verify (run (Return docs) ops) now' ident code purp) = true.
Proof.
  induction ops as [ | op ops IH]; intros docs Hc Hlive Hops.
  - cbn [run fold_left]. rewrite verify_reachable.
    destruct Hlive as (r & Hin & Hr).
    destruct (find_exists _ _ r Hin Hr) as (y & Hy). rewrite Hy. reflexivity.
  - cbn in Hops. apply andb_true_iff in Hops. destruct Hops as [Hop Hops].
    destruct (step_keeps_live docs op ident code purp (reading 0 now') Hc Hlive Hop)
      as (docs1 & Hstep & Hc1 & Hlive1).
    unfold run in *. cbn [fold_left]. rewrite Hstep.
    exact (IH docs1 Hc1 Hlive1 Hops).
Qed.

(** Three wrong guesses at instants 1, 2 and 3, then the code at 5. *)
Lemma wrong_guesses_never_lock_witness :
  fst (VerificationService.verify_code
         (VerificationService.run (Return Examples.inbox)
            [ VerificationService.Verify (Examples.stopped 1) "a@b.c" "000000"
                "verification";
              VerificationService.Verify (Examples.stopped 2) "a@b.c" "111111"
                "verification";
              VerificationService.Verify (Examples.stopped 3) "a@b.c" "222222"
                "verification" ])
         (Examples.stopped 5) "a@b.c" "123456" "verification") = true.
Proof.
  apply (wrong_guesses_never_lock
           [ VerificationService.Verify (Examples.stopped 1) "a@b.c" "000000"
               "verification";
             VerificationService.Verify (Examples.stopped 2) "a@b.c" "111111"
               "verification";
             VerificationService.Verify (Examples.stopped 3) "a@b.c" "222222"
               "verification" ]
           "a@b.c" "123456" "verification" (Examples.stopped 5) Examples.inbox).
  - exact (store_consistent [] (Examples.stopped 0) "a@b.c"
             (Hashlib.sha256_hexdigest "123456")
             "email" "verification" consistent_nil).
  - eexists. split; [left; reflexivity | vm_compute; reflexivity].
  - vm_compute. reflexivity.
Defined.

End LifecycleFacts.

(** ** Sending a code and checking it *)

Section DeliveryFacts.

Import VerificationService Delivery.

#[local] Abbreviation sha256_hexdigest := Hashlib.sha256_hexdigest.

(** X5.  [send_email_verification] answers by the store alone: it
    succeeds exactly when [store_verification_code] does, leaves the
    collection that call leaves, and every successful answer carries the
    code in [dev_code], whether the e-mail was delivered, the SMTP
    conversation raised, or no credentials are configured. *)
Theorem emailed_code_is_echoed (self : Service) (send : smtp)
    (c : collection VerificationCode) (now : clock) (email purpose code : string) :
  let sent := send_email_verification self send c now email purpose code in
  snd sent = snd (store_verification_code c now email code "email" purpose)
  /\ success (fst sent) = fst (store_verification_code c now email code "email" purpose)
  /\ (success (fst sent) = true -> dev_code (fst sent) = Some code)
  /\ (forall docs, c = Return docs -> success (fst sent) = true).
Proof.
  cbv zeta. unfold send_email_verification.
  destruct (store_verification_code c now email code "email" purpose) as [ok c'] eqn:Hs.
  destruct ok; cbn [negb fst snd].
  - assert (Hall :
      forall r : reply * collection VerificationCode,
        (r = ({| success := true;
                 message := "Email sent to " ++ email ++ " (development mode)";
                 dev_code := Some code; status := None |}, c')
         \/ r = ({| success := true; message := "Verification email sent to " ++ email;
                    dev_code := Some code; status := None |}, c')) ->
        snd r = c' /\ success (fst r) = true
        /\ (success (fst r) = true -> dev_code (fst r) = Some code)
        /\ (forall docs, c = Return docs -> success (fst r) = true)).
    { intros r [-> | ->]; cbn; repeat split; reflexivity. }
    apply Hall.
    destruct (gmail_user self) as [user | ]; [ | left; reflexivity].
    destruct (gmail_password self) as [password | ]; [ | left; reflexivity].
    destruct (truthy_str user && truthy_str password); [ | left; reflexivity].
    destruct (send user password email (subject purpose) code);
      [right | left]; reflexivity.
  - split; [reflexivity | ]. split; [reflexivity | ]. split; [discriminate | ].
    intros docs ->. rewrite store_reachable in Hs. discriminate Hs.
Qed.

(** On a store that answers, [send_email_verification] succeeds with the
    code in [dev_code]. *)
Lemma send_email_reachable (self : Service) (send : smtp)
    (docs : list VerificationCode) (now : clock) (email purpose code : string) :
  exists m,
    Delivery.send_email_verification self send (Return docs) now email purpose code
    = ({| success := true; message := m; dev_code := Some code; status := None |},
       snd (store_verification_code (Return docs) now email code "email" purpose)).
Proof.
  unfold Delivery.send_email_verification. rewrite store_reachable. cbn [negb snd].
  destruct (gmail_user self) as [user | ]; [ | eexists; reflexivity].
  destruct (gmail_password self) as [password | ]; [ | eexists; reflexivity].
  destruct (truthy_str user && truthy_str password); [ | eexists; reflexivity].
  destruct (send user password email (subject purpose) code); eexists; reflexivity.
Qed.

(** X6.  The code [send_email_verification] answers with is accepted by
    [verify_email_code] for the same address and purpose, whatever became
    of the e-mail, exactly until ten minutes after the start of the
    millisecond in which the clock was read for [expires_at]. *)
Theorem emailed_code_round_trip (self : Service) (send : smtp)
    (docs : list VerificationCode) (now now' : clock) (email purpose code : string) :
  let sent := send_email_verification self send (Return docs) now email purpose code in
  let checked := verify_email_code (snd sent) now' email code purpose in
  let expiry := 1000 * (reading 1 now / 1000) + 10 * 60 * 1000000 in
  dev_code (fst sent) = Some code
  /\ (success (fst checked) = true <-> reading 0 now' < expiry)
  /\ (reading 0 now' < expiry -> message (fst checked) = "Email verified successfully")
  /\ (expiry <= reading 0 now' -> message (fst checked) = "Invalid verification code").
Proof.
  cbv zeta.
  destruct (send_email_reachable self send docs now email purpose code) as (m & ->).
  cbn [fst snd dev_code].
  split; [reflexivity | ].
  unfold verify_email_code. rewrite store_reachable. cbn [snd].
  rewrite verify_reachable. cbv zeta.
  rewrite (find_own_after_store docs now (reading 0 now') email code "email" purpose).
  destruct (reading 0 now' <? 1000 * (reading 1 now / 1000) + 10 * 60 * 1000000)
    eqn:Hnow; cbn [fst success message].
  - apply Z.ltb_lt in Hnow.
    split; [split; [intros _; exact Hnow | reflexivity] | ].
    split; [reflexivity | lia].
  - apply Z.ltb_ge in Hnow.
    split; [split; [discriminate | lia] | ].
    split; [lia | reflexivity].
Qed.

(** X7.  Without Twilio, [verify_sms_code] looks for purpose
    "verification" only: a code sent by SMS for any other purpose changes
    nothing to what [verify_sms_code] answers for the phone. *)
Theorem sms_check_ignores_other_purposes (self : Service)
    (docs : list VerificationCode) (now now' : clock)
    (phone purpose code code' : string) :
  twilio_client self = None ->
  String.eqb purpose "verification" = false ->
  fst (verify_sms_code self
         (snd (send_sms_verification self (Return docs) now phone purpose code))
         now' phone code')
  = fst (verify_sms_code self (Return docs) now' phone code').
Proof.
  intros Hlocal Hpurpose.
  unfold verify_sms_code, send_sms_verification, store_and_echo. rewrite Hlocal.
  rewrite store_reachable. cbn [snd].
  rewrite !verify_reachable. cbv zeta.
  rewrite (find_other_after_store docs now (reading 0 now') phone code "sms" purpose
             phone (sha256_hexdigest code') "verification").
  - destruct (List.find (live_filter phone (sha256_hexdigest code') "verification"
                                     (reading 0 now'))
                        docs); reflexivity.
  - rewrite String.eqb_refl. cbn [andb]. rewrite String.eqb_sym. exact Hpurpose.
Qed.

Lemma sms_check_ignores_other_purposes_witness :
  fst (Delivery.verify_sms_code RouteExamples.local_service
         (snd (Delivery.send_sms_verification RouteExamples.local_service (Return [])
                 (Examples.stopped 0) "+15550100" "password_reset" "123456"))
         (Examples.stopped 5) "+15550100" "123456")
  = Delivery.phone_reply false.
Proof.
  rewrite (sms_check_ignores_other_purposes RouteExamples.local_service []
             (Examples.stopped 0) (Examples.stopped 5)
             "+15550100" "password_reset" "123456" "123456").
  - reflexivity.
  - reflexivity.
  - reflexivity.
Defined.

End DeliveryFacts.

(** ** The verification and password-reset routes *)

Section RouteFacts.

Import VerificationService Delivery AuthRoutes ResetRoutes.

#[local] Abbreviation sha256_hexdigest := Hashlib.sha256_hexdigest.

(** X8.  The four verification routes never answer 400: the
    [HTTPException(400)] they raise for a failed send or a rejected code is
    caught by their own [except Exception] and leaves as a 500 whose detail
    is the text of the caught exception. *)
Theorem verification_routes_never_answer_400 (service : Service) (send : smtp)
    (c : collection VerificationCode) (now : clock) (address code : string) :
  status_of (fst (send_phone_verification service c now address code)) <> 400
  /\ status_of (fst (verify_phone service c now address code)) <> 400
  /\ status_of (fst (AuthRoutes.send_email_verification service send c now address code))
     <> 400
  /\ status_of (fst (verify_email c now address code)) <> 400
  /\ (fst (verify_code c now address code "verification") = false ->
      fst (verify_email c now address code)
      = Error 500 (StrOf (HTTPException 400 "Invalid verification code"))).
Proof.
  assert (Hsent : forall r, status_of (answer_sent r) <> 400).
  { intros r. unfold answer_sent. destruct (success r); cbn; discriminate. }
  assert (Hverified : forall r, status_of (answer_verified r) <> 400).
  { intros r. unfold answer_verified. destruct (success r); cbn; discriminate. }
  split; [ | split; [ | split; [ | split]]].
  - unfold send_phone_verification.
    destruct (send_sms_verification service c now address "verification" code).
    apply Hsent.
  - unfold verify_phone. destruct (verify_sms_code service c now address code).
    apply Hverified.
  - unfold AuthRoutes.send_email_verification.
    destruct (Delivery.send_email_verification service send c now address
                "verification" code).
    apply Hsent.
  - unfold verify_email.
    destruct (verify_email_code c now address code "verification").
    apply Hverified.
  - intros Hfail. unfold verify_email, verify_email_code.
    destruct (verify_code c now address code "verification") as [ok c'].
    cbn [fst] in Hfail. subst ok. reflexivity.
Qed.

(** An identifier with an "@" is not empty. *)
Lemma contains_at_truthy (s : string) : contains_at s = true -> truthy_str s = true.
Proof. destruct s; [discriminate | reflexivity]. Qed.

(** The document an update by key changes is the one a lookup found. *)
Lemma update_found_by_key {A : Type} (key : A -> N) (p : A -> bool) (f : A -> A)
    (docs : list A) (r : A) :
  NoDup (map key docs) ->
  List.find p docs = Some r ->
  exists pre post,
    docs = (pre ++ r :: post)%list
    /\ (forall x, In x pre -> p x = false)
    /\ update_first (fun x => N.eqb (key x) (key r)) f docs
       = (pre ++ f r :: post)%list.
Proof.
  intros Hnodup Hfind.
  destruct (find_split _ _ _ Hfind) as (pre & post & -> & Hr & Hpre).
  exists pre, post. repeat split; [exact Hpre | ].
  apply update_first_split; [ | apply N.eqb_refl].
  intros x Hx. apply N.eqb_neq. intros Heq.
  rewrite map_app in Hnodup. cbn in Hnodup.
  apply NoDup_remove_2 in Hnodup. apply Hnodup.
  apply in_or_app. left. rewrite <- Heq. apply in_map. exact Hx.
Qed.

Section WithHash.

Variable get_password_hash : string -> string.

(** X9.  The reset code is handed to whoever asks for it, and it is all
    that a reset needs: for an account found by its e-mail address,
    forgot-password with method "email" answers 200 with the code in
    [dev_code], whatever the delivery; reset-password with that code, before
    the code expires (ten minutes after the start of the millisecond in
    which the clock was read for [expires_at]), answers 200, and the account
    the identifier then finds is the same account with [hashed_password] the
    hash of the new password and [updated_at] the clock as the store keeps
    it. *)
Theorem reset_code_disclosed_and_sufficient (service : Service) (send : smtp)
    (user_docs : list User) (code_docs : list VerificationCode)
    (log : collection LogEntry) (now now' : clock)
    (identifier code new_password uuid : string) (u : User) :
  contains_at identifier = true ->
  List.find (user_query identifier) user_docs = Some u ->
  NoDup (map user_oid user_docs) ->
  reading 0 now' < 1000 * (reading 1 now / 1000) + 10 * 60 * 1000000 ->
  let asked := forgot_password service send (Return user_docs) (Return code_docs)
                               now identifier "email" code in
  let done := reset_password get_password_hash
                {| users := Return user_docs; codes := snd asked; logs := log |}
                now' identifier code new_password uuid in
  fst asked = Ok {| forgot_message := "Password reset code sent via email";
                    forgot_dev_code := Some code |}
  /\ fst done = Ok "Password reset successful"
  /\ find_one (user_query identifier) (users (snd done))
     = Return (Some {| user_oid := user_oid u; user_id := user_id u;
                       user_email := user_email u; user_phone := user_phone u;
                       hashed_password := get_password_hash new_password;
                       user_role := user_role u;
                       user_updated_at := 1000 * (reading 2 now' / 1000) |}).
Proof.
  intros Hat Hfind Hnodup Hnow. cbv zeta.
  pose proof (find_some _ _ Hfind) as [_ Hq].
  unfold user_query in Hq. rewrite Hat in Hq. apply String.eqb_eq in Hq.
  assert (Hasked :
    forgot_password service send (Return user_docs) (Return code_docs) now identifier
                    "email" code
    = (Ok {| forgot_message := "Password reset code sent via email";
             forgot_dev_code := Some code |},
       snd (store_verification_code (Return code_docs) now identifier code "email"
                                    "password_reset"))).
  { unfold forgot_password, find_one. cbn [bind]. rewrite Hfind.
    rewrite Hq, (contains_at_truthy _ Hat), String.eqb_refl. cbn [andb].
    destruct (send_email_reachable service send code_docs now identifier
                "password_reset" code) as (m & ->).
    reflexivity. }
  rewrite Hasked. cbn [fst snd].
  split; [reflexivity | ].
  unfold reset_password, find_one. cbn [users codes logs bind]. rewrite Hfind.
  unfold verify_email_code. rewrite store_reachable. cbn [snd].
  rewrite verify_reachable. cbv zeta.
  rewrite (find_own_after_store code_docs now (reading 0 now') identifier code "email"
             "password_reset").
  apply Z.ltb_lt in Hnow. rewrite Hnow. cbn [success negb fst snd users].
  split; [reflexivity | ].
  destruct (update_found_by_key user_oid (user_query identifier)
              (set_password (get_password_hash new_password) (reading 2 now'))
              user_docs u Hnodup Hfind) as (pre & post & Hdocs & Hpre & Hupd).
  unfold update_one. cbn [bind]. rewrite Hupd.
  change {| user_oid := user_oid u; user_id := user_id u;
            user_email := user_email u; user_phone := user_phone u;
            hashed_password := get_password_hash new_password;
            user_role := user_role u;
            user_updated_at := 1000 * (reading 2 now' / 1000) |}
    with (set_password (get_password_hash new_password) (reading 2 now') u).
  f_equal. clear - Hpre Hat Hq.
  induction pre as [ | a pre IH]; cbn.
  - unfold user_query. cbn. rewrite Hat, Hq, String.eqb_refl. reflexivity.
  - rewrite (Hpre a (or_introl eq_refl)). apply IH.
    intros x Hx. apply Hpre. right. exact Hx.
Qed.

(** X10.  The answer of forgot-password tells whether the account exists:
    for an identifier no account matches it is the generic message, with no
    code and an untouched collection; for an account with an e-mail address
    and method "email" it is "Password reset code sent via email". *)
Theorem forgot_password_reveals_accounts (service : Service) (send : smtp)
    (user_docs : list User) (code_docs : list VerificationCode) (now : clock)
    (identifier method code : string) :
  (List.find (user_query identifier) user_docs = None ->
   forgot_password service send (Return user_docs) (Return code_docs) now
                   identifier method code
   = (Ok {| forgot_message :=
              "If the account exists, you will receive a password reset code.";
            forgot_dev_code := None |},
      Return code_docs))
  /\ (forall u,
        List.find (user_query identifier) user_docs = Some u ->
        truthy_str (user_email u) = true ->
        fst (forgot_password service send (Return user_docs) (Return code_docs) now
                             identifier "email" code)
        = Ok {| forgot_message := "Password reset code sent via email";
                forgot_dev_code := Some code |}).
Proof.
  split.
  - intros Hnone. unfold forgot_password, find_one. cbn [bind]. rewrite Hnone.
    reflexivity.
  - intros u Hfind Hemail. unfold forgot_password, find_one. cbn [bind].
    rewrite Hfind, Hemail, String.eqb_refl. cbn [andb].
    destruct (send_email_reachable service send code_docs now (user_email u)
                "password_reset" code) as (m & ->).
    reflexivity.
Qed.

(** X11.  A reset asked by phone and delivered by e-mail cannot be
    completed with the same identifier: forgot-password files the code under
    the e-mail address of the account, reset-password looks it up under the
    identifier of the request, and answers 400 without touching the
    password. *)
Theorem reset_by_phone_after_email_delivery (service : Service) (send : smtp)
    (user_docs : list User) (code_docs : list VerificationCode)
    (log : collection LogEntry) (now now' : clock)
    (identifier code new_password uuid : string) (u : User) :
  contains_at identifier = false ->
  List.find (user_query identifier) user_docs = Some u ->
  truthy_str (user_email u) = true ->
  user_email u <> identifier ->
  (forall r, In r code_docs -> pair_filter identifier "password_reset" r = false) ->
  let asked := forgot_password service send (Return user_docs) (Return code_docs)
                               now identifier "email" code in
  let done := reset_password get_password_hash
                {| users := Return user_docs; codes := snd asked; logs := log |}
                now' identifier code new_password uuid in
  fst asked = Ok {| forgot_message := "Password reset code sent via email";
                    forgot_dev_code := Some code |}
  /\ fst done = Error 400 (Text "Invalid or expired reset code")
  /\ users (snd done) = Return user_docs.
Proof.
  intros Hat Hfind Hemail Hdiff Hnone. cbv zeta.
  assert (Hasked :
    forgot_password service send (Return user_docs) (Return code_docs) now identifier
                    "email" code
    = (Ok {| forgot_message := "Password reset code sent via email";
             forgot_dev_code := Some code |},
       snd (store_verification_code (Return code_docs) now (user_email u) code
                                    "email" "password_reset"))).
  { unfold forgot_password, find_one. cbn [bind].
    rewrite Hfind, Hemail, String.eqb_refl. cbn [andb].
    destruct (send_email_reachable service send code_docs now (user_email u)
                "password_reset" code) as (m & ->).
    reflexivity. }
  rewrite Hasked. cbn [fst snd]. split; [reflexivity | ].
  unfold reset_password, find_one. cbn [users codes logs bind]. rewrite Hfind.
  unfold verify_email_code. rewrite store_reachable. cbn [snd].
  rewrite verify_reachable. cbv zeta.
  rewrite (find_other_after_store code_docs now (reading 0 now') (user_email u) code
             "email" "password_reset" identifier (sha256_hexdigest code)
             "password_reset").
  - assert (Hfind' : List.find (live_filter identifier (sha256_hexdigest code)
                                            "password_reset" (reading 0 now'))
                               code_docs = None).
    { destruct (List.find (live_filter identifier (sha256_hexdigest code)
                                       "password_reset" (reading 0 now')) code_docs)
        as [r | ] eqn:Hr; [ | reflexivity].
      apply find_some in Hr. destruct Hr as [Hin Hlive].
      apply live_is_pair in Hlive. rewrite (Hnone r Hin) in Hlive. discriminate. }
    rewrite Hfind'. cbn [success negb fst snd users]. split; reflexivity.
  - apply andb_false_iff. left. apply String.eqb_neq.
    intros Heq. apply Hdiff. symmetry. exact Heq.
Qed.

End WithHash.

(** Alice asks for a reset at 0 and completes it five seconds later: a
    reader of the response needs no mailbox, and her account then carries
    the hash of the new password. *)
Lemma reset_code_disclosed_and_sufficient_witness :
  find_one (user_query "a@b.c")
    (users (snd (reset_password RouteExamples.toy_hash
                   {| users := Return [RouteExamples.alice];
                      codes := snd (forgot_password RouteExamples.local_service
                                      RouteExamples.no_smtp
                                      (Return [RouteExamples.alice])
                                      (Return []) (Examples.stopped 0) "a@b.c" "email"
                                      "123456");
                      logs := Return [] |}
                   (Examples.ticking 5000000) "a@b.c" "123456" "new" "log-1")))
  = Return (Some {| user_oid := 1; user_id := "u-1"; user_email := "a@b.c";
                    user_phone := Some "+15550100"; hashed_password := "hash:new";
                    user_role := CUSTOMER; user_updated_at := 5000000 |}).
Proof.
  destruct (reset_code_disclosed_and_sufficient RouteExamples.toy_hash
              RouteExamples.local_service RouteExamples.no_smtp [RouteExamples.alice]
              [] (Return []) (Examples.stopped 0) (Examples.ticking 5000000) "a@b.c"
              "123456" "new" "log-1" RouteExamples.alice) as (_ & _ & Hfound).
  - reflexivity.
  - reflexivity.
  - repeat constructor. intros [].
  - vm_compute. reflexivity.
  - rewrite Hfound. reflexivity.
Defined.

(** Alice asks by phone, is served by e-mail, and cannot finish by phone. *)
Lemma reset_by_phone_after_email_delivery_witness :
  fst (reset_password RouteExamples.toy_hash
         {| users := Return [RouteExamples.alice];
            codes := snd (forgot_password RouteExamples.local_service
                            RouteExamples.no_smtp (Return [RouteExamples.alice])
                            (Return []) (Examples.stopped 0) "+15550100" "email"
                            "123456");
            logs := Return [] |}
         (Examples.stopped 5) "+15550100" "123456" "new" "log-1")
  = Error 400 (Text "Invalid or expired reset code").
Proof.
  apply (reset_by_phone_after_email_delivery RouteExamples.toy_hash
           RouteExamples.local_service RouteExamples.no_smtp [RouteExamples.alice] []
           (Return []) (Examples.stopped 0) (Examples.stopped 5) "+15550100" "123456"
           "new" "log-1" RouteExamples.alice).
  - reflexivity.
  - reflexivity.
  - reflexivity.
  - discriminate.
  - intros r [].
Defined.

End RouteFacts.

(** ** The commission and coupon routes *)

Section ShopFacts.

Import Server ShopRoutes.

(** A lookup after an update of the first match finds the updated
    document, when the update keeps it matching. *)
Lemma find_update_first {A : Type} (p : A -> bool) (f : A -> A) (l : list A) (r : A) :
  List.find p l = Some r ->
  p (f r) = true ->
  List.find p (update_first p f l) = Some (f r).
Proof.
  induction l as [ | a l IH]; cbn; [discriminate | ].
  destruct (p a) eqn:Ha.
  - intros H Hf. injection H as ->. cbn. rewrite Hf. reflexivity.
  - intros H Hf. cbn. rewrite Ha. exact (IH H Hf).
Qed.

Lemma existsb_find {A : Type} (p : A -> bool) (l : list A) :
  existsb p l = true -> exists r, List.find p l = Some r.
Proof.
  induction l as [ | a l IH]; cbn; [discriminate | ].
  destruct (p a); [intros _; exists a; reflexivity | exact IH].
Qed.

Lemma no_active_rule (q : list (string * entry)) (rules : list CommissionRule) :
  (forall r, rule_matches q r = true -> rule_is_active r = true) ->
  forallb (fun r => negb (rule_is_active r)) rules = true ->
  List.find (rule_matches q) rules = None.
Proof.
  intros Hq Hrules.
  destruct (List.find (rule_matches q) rules) as [r | ] eqn:Hfind; [ | reflexivity].
  apply find_some in Hfind. destruct Hfind as [Hin Hr].
  rewrite forallb_forall in Hrules. specialize (Hrules r Hin).
  rewrite (Hq r Hr) in Hrules. discriminate.
Qed.

(** X12.  The commission route refuses a rate exactly when it is below 0
    or above 100 (so it takes NaN), answers 404 for a seller it does not
    find, and otherwise stores the rate: while no commission rule is active,
    [calculate_commission] then charges that seller this rate. *)
Theorem seller_rate_round_trip (db : database) (docs : list SellerProfile)
    (rules : list CommissionRule) (seller_id : string) (rate order_total : float)
    (category : option string) :
  commission_rules_collection db = Return rules ->
  forallb (fun r => negb (rule_is_active r)) rules = true ->
  let answer := update_seller_commission (Return docs) seller_id rate in
  (status_of (fst answer) = 400
   <-> PrimFloat.ltb rate 0 || PrimFloat.ltb 100 rate = true)
  /\ (status_of (fst answer) = 404
      <-> PrimFloat.ltb rate 0 || PrimFloat.ltb 100 rate = false
          /\ existsb (fun s => String.eqb (seller_user_id s) seller_id) docs = false)
  /\ (status_of (fst answer) = 200 ->
      fst answer = Ok rate
      /\ calculate_commission (with_sellers db (snd answer)) order_total seller_id
                              category
         = (rate, PrimFloat.mul order_total (PrimFloat.div rate 100))).
Proof.
  intros Hrules Hinactive. cbv zeta. unfold update_seller_commission, matched_count.
  destruct (PrimFloat.ltb rate 0 || PrimFloat.ltb 100 rate) eqn:Hrange; cbn [fst snd status_of].
  - split; [split; reflexivity | ]. split; [ | discriminate].
    split; [discriminate | intros [H _]; discriminate H].
  - destruct (existsb (fun s => String.eqb (seller_user_id s) seller_id) docs) eqn:Hex;
      cbn [Z.eqb fst snd status_of].
    + split; [split; discriminate | ]. split.
      { split; [discriminate | intros [_ H]; discriminate H]. }
      intros _. split; [reflexivity | ].
      destruct (existsb_find _ _ Hex) as (s & Hs).
      rewrite (calculate_commission_resolution
                 (with_sellers db (Return (update_first
                    (fun s => String.eqb (seller_user_id s) seller_id)
                    (set_commission_rate rate) docs)))
                 order_total seller_id category rules _ Hrules eq_refl).
      cbv zeta.
      assert (Hcat : match category with
                     | Some cat =>
                         if truthy_str cat
                         then List.find (rule_matches (category_rule_query cat order_total))
                                        rules
                         else None
                     | None => None
                     end = None).
      { destruct category as [cat | ]; [ | reflexivity].
        destruct (truthy_str cat); [ | reflexivity].
        apply no_active_rule; [ | exact Hinactive].
        intros r Hr. rewrite category_rule_query_matches in Hr.
        apply andb_true_iff in Hr. destruct Hr as [Hr _].
        apply andb_true_iff in Hr. exact (proj2 Hr). }
      rewrite Hcat.
      rewrite (no_active_rule default_rule_query rules); [ | | exact Hinactive].
      * rewrite (find_update_first _ (set_commission_rate rate) docs s Hs).
        -- reflexivity.
        -- apply find_some in Hs. exact (proj2 Hs).
      * intros r Hr. rewrite default_rule_query_matches in Hr.
        apply andb_true_iff in Hr. exact (proj2 Hr).
    + split; [split; discriminate | ]. split; [ | discriminate].
      split; [intros _; split; reflexivity | reflexivity].
Qed.

(** Seller s-1 moves from 10% to 12.5%: 200.00 now pays 25.00. *)
Lemma seller_rate_round_trip_witness :
  calculate_commission
    (with_sellers ShopExamples.seller_store
       (snd (update_seller_commission (Return [ShopExamples.seller_one]) "s-1"
                                      12.5%float)))
    200%float "s-1" (Some "books")
  = (12.5%float, 25%float).
Proof.
  destruct (seller_rate_round_trip ShopExamples.seller_store [ShopExamples.seller_one]
              [] "s-1" 12.5%float 200%float (Some "books") eq_refl eq_refl)
    as (_ & _ & Hok).
  destruct (Hok eq_refl) as [_ ->]. vm_compute. reflexivity.
Defined.

(** The rate NaN is neither below 0 nor above 100: it is stored. *)
Example nan_commission_rate_is_stored :
  update_seller_commission (Return [ShopExamples.seller_one]) "s-1" PrimFloat.nan
  = (Ok PrimFloat.nan,
     Return [ {| seller_user_id := "s-1";
                 seller_commission_rate := Some PrimFloat.nan |} ]).
Proof. vm_compute. reflexivity. Qed.

Lemma find_code_none (docs : list Coupon) (code : string) :
  List.find (fun c => String.eqb (coupon_code c) code) docs = None
  <-> ~ In code (map coupon_code docs).
Proof.
  split.
  - intros Hnone Hin. apply in_map_iff in Hin. destruct Hin as (c & Hc & Hin).
    pose proof (find_none _ _ Hnone c Hin) as H. cbn in H.
    rewrite Hc, String.eqb_refl in H. discriminate.
  - intros Hnot.
    destruct (List.find (fun c => String.eqb (coupon_code c) code) docs) as [c | ] eqn:Hf;
      [ | reflexivity].
    exfalso. apply find_some in Hf. destruct Hf as [Hin Hc].
    apply String.eqb_eq in Hc. apply Hnot. rewrite <- Hc. apply in_map. exact Hin.
Qed.

(** X13.  Coupon creation keeps codes pairwise distinct and is seen by
    [apply_coupon]: a code already carried by a coupon, active or not, is
    refused with 400 and nothing is written; otherwise the answer is the
    coupon of the request with [used_count = 0], its document (the coupon
    with its dates as the driver writes them) is appended, and the lookup of
    [apply_coupon] for its code returns that document when it was created
    active and nothing when it was created inactive ("Invalid coupon
    code"). *)
Theorem created_coupon_is_unique_and_found (docs : list Coupon) (uuid : string)
    (d : CouponCreate) :
  NoDup (map coupon_code docs) ->
  let coupon := new_coupon uuid d in
  let document := coupon_document coupon in
  (In (new_code d) (map coupon_code docs) ->
   create_coupon (Return docs) uuid d
   = (Error 400 (Text "Coupon code already exists"), Return docs))
  /\ (~ In (new_code d) (map coupon_code docs) ->
      create_coupon (Return docs) uuid d = (Ok coupon, Return (docs ++ [document])%list)
      /\ used_count coupon = 0
      /\ used_count document = 0
      /\ coupon_code document = new_code d
      /\ starts_at document
         = option_map (fun t => 1000 * (t / 1000)) (new_starts_at d)
      /\ expires_at document
         = option_map (fun t => 1000 * (t / 1000)) (new_expires_at d)
      /\ NoDup (map coupon_code (docs ++ [document]))
      /\ find_one (coupon_filter (new_code d)) (Return (docs ++ [document])%list)
         = Return (if new_is_active d then Some document else None)
      /\ (new_is_active d = false ->
          forall db now cart_total user_id cart_items,
            apply_coupon (with_coupons db (Return (docs ++ [document])%list)) now
                         cart_total (new_code d) user_id cart_items
            = (0%float, "Invalid coupon code"))).
Proof.
  intros Hnodup coupon document. split.
  - intros Hin. unfold create_coupon, find_one. cbn [bind].
    destruct (List.find (fun c => String.eqb (coupon_code c) (new_code d)) docs) eqn:Hf;
      [reflexivity | ].
    apply find_code_none in Hf. contradiction.
  - intros Hnot.
    assert (Hfind : List.find (coupon_filter (new_code d)) (docs ++ [document])
                    = if new_is_active d then Some document else None).
    { rewrite find_app_last.
      - unfold coupon_filter. cbn. rewrite String.eqb_refl. reflexivity.
      - intros x Hx. unfold coupon_filter.
        destruct (String.eqb (coupon_code x) (new_code d)) eqn:Hc; [ | reflexivity].
        exfalso. apply String.eqb_eq in Hc. apply Hnot. rewrite <- Hc.
        apply in_map. exact Hx. }
    split; [ | split; [reflexivity | split; [reflexivity | split;
                [reflexivity | split; [reflexivity | split;
                  [reflexivity | split; [ | split]]]]]]].
    + unfold create_coupon, find_one. cbn [bind].
      rewrite (proj2 (find_code_none docs (new_code d)) Hnot). reflexivity.
    + rewrite map_app. cbn [map]. apply NoDup_app.
      * exact Hnodup.
      * constructor; [intros [] | constructor].
      * intros a Ha [<- | []]. exact (Hnot Ha).
    + unfold find_one. cbn [bind]. rewrite Hfind. reflexivity.
    + intros Hinactive db now cart_total user_id cart_items.
      unfold apply_coupon, apply_coupon_body, with_coupons, find_one.
      cbn [coupons_collection bind]. rewrite Hfind, Hinactive. reflexivity.
Qed.

(** SAVE10 created in an empty collection, then applied to 250.00. *)
Lemma created_coupon_is_unique_and_found_witness :
  apply_coupon
    (with_coupons (Examples.coupon_store [])
       (snd (create_coupon (Return []) "c-save10" (ShopExamples.save10_request true))))
    0 250%float "SAVE10" None None
  = (20%float, "Coupon applied successfully").
Proof.
  destruct (created_coupon_is_unique_and_found [] "c-save10"
              (ShopExamples.save10_request true) (NoDup_nil _)) as [_ Hnew].
  destruct (Hnew (fun H => H)) as (-> & _).
  vm_compute. reflexivity.
Defined.

(** ** Coupon validation *)

(** A total that is at most 0 leaves no positive discount: [min(d, t) > 0]
    is false when [t <= 0]. *)
Lemma SF_nonpositive_below_positive (t d : spec_float) :
  SFleb t (S754_zero false) = true ->
  SFltb (S754_zero false) d = true ->
  SFltb t d = true.
Proof.
  unfold SFleb, SFltb, SFcompare.
  destruct t as [st | st | | st mt et], d as [sd | sd | | sd md ed];
    try (destruct st); try (destruct sd); cbn; try discriminate; reflexivity.
Qed.

Lemma SF_nonpositive_not_positive (t : spec_float) :
  SFleb t (S754_zero false) = true ->
  SFltb (S754_zero false) t = false.
Proof.
  unfold SFleb, SFltb, SFcompare.
  destruct t as [st | st | | st mt et]; try (destruct st); cbn;
    try discriminate; reflexivity.
Qed.

Lemma min_not_positive (d t : float) :
  PrimFloat.leb t 0 = true -> PrimFloat.ltb 0 (Py.min d t) = false.
Proof.
  rewrite leb_spec. intros Ht.
  change (Prim2SF 0) with (S754_zero false) in Ht.
  unfold Py.min. destruct (PrimFloat.ltb t d) eqn:Htd.
  - rewrite ltb_spec. change (Prim2SF 0) with (S754_zero false).
    apply SF_nonpositive_not_positive. exact Ht.
  - destruct (PrimFloat.ltb 0 d) eqn:Hd; [ | reflexivity].
    rewrite ltb_spec in Hd, Htd. change (Prim2SF 0) with (S754_zero false) in Hd.
    rewrite (SF_nonpositive_below_positive _ _ Ht Hd) in Htd. discriminate.
Qed.

(** X14.  A caller who is not logged in is never asked about scope: for
    a coupon of any scope that passes validation, [validate_coupon] answers
    with the discount computed on the [cart_total] the request states,
    whatever the carts and the catalogue hold (or whether they can be read
    at all), and [valid] tells whether that discount is positive. *)
Theorem anonymous_validation_skips_scope (db : database) (carts : collection Cart)
    (now : Z) (code : string) (cart_total : float) (c : Coupon) :
  passes_validation db now cart_total code None c ->
  let discount := Py.min (discount_by_type c cart_total) cart_total in
  (forall (carts' : collection Cart) (products' : collection Product),
     validate_coupon (with_products db products') carts' now code cart_total None
     = {| valid := PrimFloat.ltb 0 discount; discount_amount := discount;
          validation_message := "Coupon applied successfully" |})
  /\ (PrimFloat.leb cart_total 0 = true ->
      valid (validate_coupon db carts now code cart_total None) = false
      /\ validation_message (validate_coupon db carts now code cart_total None)
         = "Coupon applied successfully").
Proof.
  intros Hpass discount.
  assert (Hall : forall carts' products',
             validate_coupon (with_products db products') carts' now code cart_total None
             = {| valid := PrimFloat.ltb 0 discount; discount_amount := discount;
                  validation_message := "Coupon applied successfully" |}).
  { intros carts' products'. unfold validate_coupon. cbn [bind].
    assert (Hpass' : passes_validation (with_products db products') now cart_total code
                                       None c) by exact Hpass.
    rewrite (apply_coupon_validated _ _ _ _ _ _ _ Hpass').
    rewrite check_scope_no_items by reflexivity. reflexivity. }
  split; [exact Hall | ].
  intros Hzero.
  assert (Hdb : db = with_products db (products_collection db)) by (destruct db; reflexivity).
  rewrite Hdb, Hall. cbn [valid validation_message].
  split; [apply min_not_positive; exact Hzero | reflexivity].
Qed.

(** An anonymous caller validates a books-only coupon against 250.00. *)
Lemma anonymous_validation_skips_scope_witness :
  validate_coupon Examples.book_store (Raise StoreError) 0 "BOOKS10" 250%float None
  = {| valid := true; discount_amount := 25%float;
       validation_message := "Coupon applied successfully" |}.
Proof.
  destruct (anonymous_validation_skips_scope Examples.book_store (Raise StoreError) 0
              "BOOKS10" 250%float Examples.BOOKS10) as [Hall _].
  - repeat split; reflexivity.
  - etransitivity.
    + exact (Hall (Raise StoreError) (Return Examples.catalogue)).
    + vm_compute. reflexivity.
Defined.

End ShopFacts.

(** ** The cart routes *)

Section CartFacts.

Import Server ShopRoutes.

(** The end of both routes when the lines and their total are ready. *)
Lemma write_back_found (cs : list Cart) (now : Z) (id : string) (c : Cart)
    (items : list CartItem) (total : float) :
  List.find (cart_filter id) cs = Some c ->
  write_back (Return cs) now id (Value (items, total))
  = (Ok (set_cart items total now c),
     Return (update_first (cart_filter id) (set_cart items total now) cs)).
Proof.
  intros Hfind. unfold write_back, update_one, find_one. cbn [bind lift and_then].
  rewrite (find_update_first (cart_filter id) (set_cart items total now) cs c Hfind).
  - reflexivity.
  - apply find_some in Hfind. exact (proj2 Hfind).
Qed.

(** The path of [add_to_cart] that answers 200. *)
Lemma add_to_cart_success (ps : list Listing) (cs : list Cart) (now : Z)
    (id pid : string) (quantity : Z) (user : option string)
    (p : Listing) (c : Cart) (total : float) :
  List.find (listing_filter pid) ps = Some p ->
  (listing_inventory p <? quantity) = false ->
  List.find (cart_filter id) cs = Some c ->
  may_access user c = true ->
  subtotal (add_line (cart_items c) pid quantity (listing_price p)) 0%float
  = Return total ->
  let items := add_line (cart_items c) pid quantity (listing_price p) in
  add_to_cart (Return ps) (Return cs) now id pid quantity user
  = (Ok (set_cart items total now c),
     Return (update_first (cart_filter id) (set_cart items total now) cs)).
Proof.
  intros Hp Hstock Hc Haccess Htotal items.
  unfold add_to_cart, find_one. cbn [bind lift and_then].
  rewrite Hp. cbn [and_then]. rewrite Hstock, Hc. cbn [and_then].
  rewrite Haccess. cbn [negb]. fold items. unfold items. rewrite Htotal.
  cbn [lift and_then]. apply write_back_found. exact Hc.
Qed.

(** The path of [remove_from_cart] that answers 200. *)
Lemma remove_from_cart_success (cs : list Cart) (now : Z) (id pid : string)
    (user : option string) (c : Cart) (total : float) :
  List.find (cart_filter id) cs = Some c ->
  may_access user c = true ->
  subtotal (List.filter (fun item => negb (is_line pid item)) (cart_items c)) 0%float
  = Return total ->
  let items := List.filter (fun item => negb (is_line pid item)) (cart_items c) in
  remove_from_cart (Return cs) now id pid user
  = (Ok (set_cart items total now c),
     Return (update_first (cart_filter id) (set_cart items total now) cs)).
Proof.
  intros Hc Haccess Htotal items.
  unfold remove_from_cart, find_one. cbn [bind lift and_then].
  rewrite Hc. cbn [and_then]. rewrite Haccess. cbn [negb].
  fold items. unfold items. rewrite Htotal. cbn [lift and_then].
  apply write_back_found. exact Hc.
Qed.

(** The lines after [add_line], around the line of the product. *)
Lemma add_line_shape (items : list CartItem) (pid : string) (quantity : Z)
    (price : float) :
  exists pre line post,
    add_line items pid quantity price = (pre ++ line :: post)%list
    /\ is_line pid line = true
    /\ (forall x, In x pre -> is_line pid x = false)
    /\ match List.find (is_line pid) items with
       | Some old => items = (pre ++ old :: post)%list /\ line = bump quantity old
       | None =>
           items = pre /\ post = []
           /\ line = {| item_product_id := pid; item_quantity := quantity;
                        item_price := price |}
       end.
Proof.
  unfold add_line.
  destruct (List.find (is_line pid) items) as [old | ] eqn:Hfind.
  - destruct (find_split _ _ _ Hfind) as (pre & post & -> & Hold & Hpre).
    exists pre, (bump quantity old), post.
    rewrite (update_first_split _ _ _ _ _ Hpre Hold).
    repeat split; [exact Hold | exact Hpre].
  - exists items, {| item_product_id := pid; item_quantity := quantity;
                     item_price := price |}, [].
    repeat split.
    + unfold is_line. cbn. apply String.eqb_refl.
    + exact (find_none _ _ Hfind).
Qed.

(** X15.  When [add_to_cart] answers 200 (the product is active and its
    inventory is at least the quantity asked, the cart is found and may be
    accessed, the total converts to float), a cart with one line per
    product still has one line per product, its total is the sum of its
    lines, lines of other products are untouched, and the line of the
    product carries the quantity it had (0 if it had none) plus the quantity
    asked, at the price it had (the listing price if it had none): the
    inventory bounds the quantity asked, not the quantity in the cart. *)
Theorem add_to_cart_one_line_per_product (ps : list Listing) (cs : list Cart)
    (now : Z) (id pid : string) (quantity : Z) (user : option string)
    (p : Listing) (c : Cart) (total : float) :
  List.find (listing_filter pid) ps = Some p ->
  (listing_inventory p <? quantity) = false ->
  List.find (cart_filter id) cs = Some c ->
  may_access user c = true ->
  subtotal (add_line (cart_items c) pid quantity (listing_price p)) 0%float
  = Return total ->
  NoDup (map item_product_id (cart_items c)) ->
  exists c',
    fst (add_to_cart (Return ps) (Return cs) now id pid quantity user) = Ok c'
    /\ NoDup (map item_product_id (cart_items c'))
    /\ subtotal (cart_items c') 0%float = Return (cart_total c')
    /\ List.find (is_line pid) (cart_items c')
       = Some match List.find (is_line pid) (cart_items c) with
              | Some old =>
                  {| item_product_id := item_product_id old;
                     item_quantity := item_quantity old + quantity;
                     item_price := item_price old |}
              | None =>
                  {| item_product_id := pid; item_quantity := quantity;
                     item_price := listing_price p |}
              end
    /\ (forall x, is_line pid x = false ->
                  (In x (cart_items c') <-> In x (cart_items c))).
Proof.
  intros Hp Hstock Hc Haccess Htotal Hnodup.
  rewrite (add_to_cart_success ps cs now id pid quantity user p c total
             Hp Hstock Hc Haccess Htotal).
  cbn [fst]. eexists. split; [reflexivity | ]. cbn [set_cart cart_items cart_total].
  split; [ | split; [exact Htotal | ]].
  - unfold add_line.
    destruct (List.find (is_line pid) (cart_items c)) as [old | ] eqn:Hfind.
    + rewrite map_update_first; [exact Hnodup | reflexivity].
    + rewrite map_app. cbn [map item_product_id]. apply NoDup_app.
      * exact Hnodup.
      * constructor; [intros [] | constructor].
      * intros a Ha [<- | []]. apply in_map_iff in Ha.
        destruct Ha as (x & Hx & Hin).
        pose proof (find_none _ _ Hfind x Hin) as Hline.
        unfold is_line in Hline. rewrite Hx, String.eqb_refl in Hline. discriminate.
  - destruct (add_line_shape (cart_items c) pid quantity (listing_price p))
      as (pre & line & post & -> & Hline & Hpre & Hshape).
    assert (Hfound : List.find (is_line pid) (pre ++ line :: post) = Some line).
    { clear - Hline Hpre. induction pre as [ | a pre IH]; cbn.
      - rewrite Hline. reflexivity.
      - rewrite (Hpre a (or_introl eq_refl)). apply IH.
        intros x Hx. apply Hpre. right. exact Hx. }
    rewrite Hfound.
    destruct (List.find (is_line pid) (cart_items c)) as [old | ] eqn:Hfind.
    + destruct Hshape as [Hitems ->]. split; [reflexivity | ].
      intros x Hx. rewrite Hitems, !in_app_iff. cbn [In].
      assert (Hold : is_line pid old = true).
      { apply find_some in Hfind. exact (proj2 Hfind). }
      split; intros [H | [H | H]]; auto; subst x; congruence.
    + destruct Hshape as (Hitems & -> & ->). split; [reflexivity | ].
      intros x Hx. rewrite Hitems, in_app_iff. cbn [In].
      split; [intros [H | [H | []]]; [exact H | ] | intros H; left; exact H].
      subst x. unfold is_line in Hx. cbn in Hx. rewrite String.eqb_refl in Hx.
      discriminate.
Qed.

(** Three books are in the cart and five in stock: three more are
    accepted, and the line holds six. *)
Lemma add_to_cart_one_line_per_product_witness :
  fst (add_to_cart (Return [ShopExamples.book_listing])
         (Return [ShopExamples.cart_of_three]) 7500 "cart-1" "p-book" 3 (Some "alice"))
  = Ok {| cart_id := "cart-1"; cart_user_id := Some "alice";
          cart_items := [Examples.line "p-book" 6 30%float];
          cart_total := 180%float; cart_updated_at := 7000 |}.
Proof.
  destruct (add_to_cart_one_line_per_product [ShopExamples.book_listing]
              [ShopExamples.cart_of_three] 7500 "cart-1" "p-book" 3 (Some "alice")
              ShopExamples.book_listing ShopExamples.cart_of_three 180%float)
    as (c' & Hc' & _).
  - reflexivity.
  - reflexivity.
  - reflexivity.
  - reflexivity.
  - vm_compute. reflexivity.
  - repeat constructor. intros [].
  - vm_compute. reflexivity.
Defined.

Lemma filter_all {A : Type} (p : A -> bool) (l : list A) :
  (forall x, In x l -> p x = true) -> List.filter p l = l.
Proof.
  induction l as [ | a l IH]; intros H; cbn; [reflexivity | ].
  rewrite (H a (or_introl eq_refl)). f_equal.
  apply IH. intros x Hx. apply H. right. exact Hx.
Qed.

(** X16.  When [remove_from_cart] answers 200, every line of the product
    is gone, the other lines are kept in their order, the total is the sum
    of what is left, and removing a product the cart does not hold leaves
    its lines as they were. *)
Theorem removed_product_is_gone (cs : list Cart) (now : Z) (id pid : string)
    (user : option string) (c : Cart) (total : float) :
  List.find (cart_filter id) cs = Some c ->
  may_access user c = true ->
  subtotal (List.filter (fun item => negb (is_line pid item)) (cart_items c)) 0%float
  = Return total ->
  exists c',
    fst (remove_from_cart (Return cs) now id pid user) = Ok c'
    /\ cart_items c' = List.filter (fun item => negb (is_line pid item)) (cart_items c)
    /\ List.find (is_line pid) (cart_items c') = None
    /\ subtotal (cart_items c') 0%float = Return (cart_total c')
    /\ (List.find (is_line pid) (cart_items c) = None -> cart_items c' = cart_items c).
Proof.
  intros Hc Haccess Htotal.
  rewrite (remove_from_cart_success cs now id pid user c total Hc Haccess Htotal).
  cbn [fst]. eexists. split; [reflexivity | ]. cbn [set_cart cart_items cart_total].
  split; [reflexivity | ]. split; [ | split; [exact Htotal | ]].
  - destruct (List.find (is_line pid)
                (List.filter (fun item => negb (is_line pid item)) (cart_items c)))
      as [x | ] eqn:Hx; [ | reflexivity].
    apply find_some in Hx. destruct Hx as [Hin Hline].
    apply filter_In in Hin. destruct Hin as [_ Hnot].
    rewrite Hline in Hnot. discriminate.
  - intros Hnone. apply filter_all. intros x Hx.
    rewrite (find_none _ _ Hnone x Hx). reflexivity.
Qed.

Lemma removed_product_is_gone_witness :
  fst (remove_from_cart (Return [ShopExamples.cart_of_three]) 9500 "cart-1" "p-book"
                        (Some "alice"))
  = Ok {| cart_id := "cart-1"; cart_user_id := Some "alice"; cart_items := [];
          cart_total := 0%float; cart_updated_at := 9000 |}.
Proof.
  destruct (removed_product_is_gone [ShopExamples.cart_of_three] 9500 "cart-1" "p-book"
              (Some "alice") ShopExamples.cart_of_three 0%float)
    as (c' & Hc' & _).
  - reflexivity.
  - reflexivity.
  - reflexivity.
  - vm_compute. reflexivity.
Defined.

(** X17.  Adding a product the cart does not hold and removing it again
    gives the lines back: after the two calls the cart holds the lines it
    held before, and its total is their sum. *)
Theorem add_then_remove_restores_lines (ps : list Listing) (cs : list Cart)
    (now now' : Z) (id pid : string) (quantity : Z) (user : option string)
    (p : Listing) (c : Cart) (total total' : float) :
  List.find (listing_filter pid) ps = Some p ->
  (listing_inventory p <? quantity) = false ->
  List.find (cart_filter id) cs = Some c ->
  may_access user c = true ->
  List.find (is_line pid) (cart_items c) = None ->
  subtotal (add_line (cart_items c) pid quantity (listing_price p)) 0%float
  = Return total ->
  subtotal (cart_items c) 0%float = Return total' ->
  let added := add_to_cart (Return ps) (Return cs) now id pid quantity user in
  exists c'',
    fst (remove_from_cart (snd added) now' id pid user) = Ok c''
    /\ cart_items c'' = cart_items c
    /\ cart_total c'' = total'
    /\ cart_user_id c'' = cart_user_id c.
Proof.
  intros Hp Hstock Hc Haccess Hnone Htotal Htotal'. cbv zeta.
  rewrite (add_to_cart_success ps cs now id pid quantity user p c total
             Hp Hstock Hc Haccess Htotal).
  cbn [snd].
  set (items := add_line (cart_items c) pid quantity (listing_price p)).
  assert (Hc' : List.find (cart_filter id)
                  (update_first (cart_filter id) (set_cart items total now) cs)
                = Some (set_cart items total now c)).
  { apply find_update_first; [exact Hc | ].
    apply find_some in Hc. exact (proj2 Hc). }
  assert (Hback : List.filter (fun item => negb (is_line pid item)) items
                  = cart_items c).
  { unfold items, add_line. rewrite Hnone, filter_app. cbn [List.filter].
    unfold is_line at 2. cbn [item_product_id]. rewrite String.eqb_refl.
    cbn [negb]. rewrite app_nil_r. apply filter_all.
    intros x Hx. rewrite (find_none _ _ Hnone x Hx). reflexivity. }
  rewrite (remove_from_cart_success _ now' id pid user (set_cart items total now c)
             total' Hc').
  - cbn [fst]. eexists. split; [reflexivity | ].
    cbn [set_cart cart_items cart_total cart_user_id].
    repeat split. exact Hback.
  - exact Haccess.
  - cbn [set_cart cart_items]. rewrite Hback. exact Htotal'.
Qed.

Lemma add_then_remove_restores_lines_witness :
  fst (remove_from_cart
         (snd (add_to_cart (Return [ShopExamples.book_listing])
                 (Return [ShopExamples.cart_with_toy]) 7500 "cart-1" "p-book" 2
                 (Some "alice")))
         9500 "cart-1" "p-book" (Some "alice"))
  = Ok {| cart_id := "cart-1"; cart_user_id := Some "alice";
          cart_items := [Examples.line "p-toy" 1 100%float];
          cart_total := 100%float; cart_updated_at := 9000 |}.
Proof.
  destruct (add_then_remove_restores_lines [ShopExamples.book_listing]
              [ShopExamples.cart_with_toy] 7500 9500 "cart-1" "p-book" 2 (Some "alice")
              ShopExamples.book_listing ShopExamples.cart_with_toy 160%float 100%float)
    as (c'' & Hc'' & _).
  - reflexivity.
  - reflexivity.
  - reflexivity.
  - reflexivity.
  - reflexivity.
  - vm_compute. reflexivity.
  - vm_compute. reflexivity.
  - vm_compute. reflexivity.
Defined.

End CartFacts.

(** ** The limits checked by apply_coupon *)

Section LimitFacts.

Import Server.

(** Closes a goal that equates two results with different messages. *)
Ltac other_message :=
  let H := fresh in
  intros H; exfalso; cbn in H; inversion H.

(** X18.  For a coupon the lookup returns, started and not expired,
    [apply_coupon] answers "Coupon usage limit exceeded" exactly when
    [usage_limit] is set, is not 0, and [used_count] has reached it: a limit
    of 0 never declines. *)
Theorem usage_limit_declines (db : database) (now : Z) (cart_total : float)
    (code : string) (user_id : option string)
    (cart_items : option (list CartItem)) (c : Coupon) :
  find_one (coupon_filter code) (coupons_collection db) = Return (Some c) ->
  not_yet_active now c = Return false ->
  has_expired now c = Return false ->
  (apply_coupon db now cart_total code user_id cart_items
   = (0%float, "Coupon usage limit exceeded")
   <-> exists n, usage_limit c = Some n /\ n <> 0 /\ n <= used_count c).
Proof.
  intros Hfind Hstart Hexp.
  unfold apply_coupon, apply_coupon_body.
  rewrite Hfind. cbn [bind]. rewrite Hstart. cbn [bind]. rewrite Hexp. cbn [bind].
  destruct (usage_limit_exceeded c) eqn:Hlimit.
  - split; [intros _ | reflexivity].
    unfold usage_limit_exceeded in Hlimit.
    destruct (usage_limit c) as [n | ]; [ | discriminate].
    apply andb_true_iff in Hlimit. destruct Hlimit as [Hn Hused].
    exists n. split; [reflexivity | ].
    unfold truthy_int in Hn. apply negb_true_iff, Z.eqb_neq in Hn.
    apply Z.leb_le in Hused. split; assumption.
  - split.
    + destruct (user_limit_reached (coupon_usage_collection db) c user_id)
        as [[ | ] | e]; cbn [bind]; [other_message | | other_message].
      destruct (below_minimum cart_total c); [other_message | ].
      destruct (check_scope (products_collection db) c cart_total cart_items)
        as [[total | ] | e]; cbn [bind]; other_message.
    + intros (n & Hn & Hnz & Hused). exfalso.
      unfold usage_limit_exceeded in Hlimit. rewrite Hn in Hlimit.
      apply andb_false_iff in Hlimit. destruct Hlimit as [H | H].
      * unfold truthy_int in H. apply negb_false_iff, Z.eqb_eq in H. contradiction.
      * apply Z.leb_gt in H. lia.
Qed.

(** A limit of 100 reached declines; a limit of 0 does not. *)
Lemma usage_limit_declines_witness :
  apply_coupon (Examples.coupon_store [CouponExamples.USED_UP (Some 100)]) 0 50%float
               "USEDUP" None None
  = (0%float, "Coupon usage limit exceeded")
  /\ apply_coupon (Examples.coupon_store [CouponExamples.USED_UP (Some 0)]) 0 50%float
                  "USEDUP" None None
     = (5%float, "Coupon applied successfully").
Proof.
  split.
  - apply (usage_limit_declines
             (Examples.coupon_store [CouponExamples.USED_UP (Some 100)]) 0 50%float
             "USEDUP" None None (CouponExamples.USED_UP (Some 100))).
    + reflexivity.
    + reflexivity.
    + reflexivity.
    + exists 100. repeat split; [discriminate | cbn; lia].
  - vm_compute. reflexivity.
Defined.

(** X19.  For a coupon that reaches the per-user check and a usage
    history that can be read, [apply_coupon] answers "You have reached the
    usage limit for this coupon" exactly when the caller is identified by a
    non-empty [user_id], [usage_per_user] is set and not 0, and the history
    holds at least that many usages of this coupon by this user. *)
Theorem user_limit_declines (db : database) (now : Z) (cart_total : float)
    (code : string) (user_id : option string)
    (cart_items : option (list CartItem)) (c : Coupon) (history : list CouponUsage) :
  find_one (coupon_filter code) (coupons_collection db) = Return (Some c) ->
  not_yet_active now c = Return false ->
  has_expired now c = Return false ->
  usage_limit_exceeded c = false ->
  coupon_usage_collection db = Return history ->
  (apply_coupon db now cart_total code user_id cart_items
   = (0%float, "You have reached the usage limit for this coupon")
   <-> exists user limit,
         user_id = Some user /\ user <> EmptyString
         /\ usage_per_user c = Some limit /\ limit <> 0
         /\ limit <= Z.of_nat (List.length (List.filter (usage_filter c user) history))).
Proof.
  intros Hfind Hstart Hexp Hlimit Hhistory.
  unfold apply_coupon, apply_coupon_body.
  rewrite Hfind. cbn [bind]. rewrite Hstart. cbn [bind]. rewrite Hexp. cbn [bind].
  rewrite Hlimit, Hhistory.
  assert (Hrest : forall r : outcome (float * string),
             r = match below_minimum cart_total c with
                 | Some m =>
                     Return (0%float, "Minimum order amount $" ++ format_2f m ++ " required")
                 | None =>
                     scoped <- check_scope (products_collection db) c cart_total
                                           cart_items ;;
                     match scoped with
                     | None =>
                         Return (0%float, "Coupon is not applicable to items in your cart")
                     | Some total =>
                         Return (Py.min (discount_by_type c total) total,
                                 "Coupon applied successfully")
                     end
                 end ->
             match r with
             | Return x => x
             | Raise _ => (0%float, "Error applying coupon")
             end <> (0%float, "You have reached the usage limit for this coupon")).
  { intros r ->. destruct (below_minimum cart_total c); [other_message | ].
    destruct (check_scope (products_collection db) c cart_total cart_items)
      as [[total | ] | e]; cbn [bind]; other_message. }
  unfold user_limit_reached.
  destruct user_id as [user | ].
  - destruct (usage_per_user c) as [limit | ] eqn:Hper.
    + destruct (truthy_str user && truthy_int limit) eqn:Htruthy.
      * unfold count_documents. cbn [bind].
        destruct (limit <=? Z.of_nat (List.length (List.filter (usage_filter c user)
                                                               history))) eqn:Hcount.
        -- split; [intros _ | reflexivity].
           apply andb_true_iff in Htruthy. destruct Htruthy as [Hu Hl].
           exists user, limit. split; [reflexivity | ].
           split; [destruct user; [discriminate | discriminate] | ].
           split; [reflexivity | ].
           unfold truthy_int in Hl. apply negb_true_iff, Z.eqb_neq in Hl.
           apply Z.leb_le in Hcount. split; assumption.
        -- split; [intros H; exfalso; exact (Hrest _ eq_refl H) | ].
           intros (user' & limit' & Hu & _ & Hl & _ & Hc).
           injection Hu as <-. injection Hl as <-.
           apply Z.leb_gt in Hcount. lia.
      * cbn [bind]. split; [intros H; exfalso; exact (Hrest _ eq_refl H) | ].
        intros (user' & limit' & Hu & Hne & Hl & Hnz & _).
        injection Hu as <-. injection Hl as <-.
        apply andb_false_iff in Htruthy. destruct Htruthy as [H | H].
        -- destruct user; [contradiction | discriminate].
        -- unfold truthy_int in H. apply negb_false_iff, Z.eqb_eq in H. contradiction.
    + cbn [bind]. split; [intros H; exfalso; exact (Hrest _ eq_refl H) | ].
      intros (user' & limit' & _ & _ & Hl & _). discriminate.
  - cbn [bind]. split; [intros H; exfalso; exact (Hrest _ eq_refl H) | ].
    intros (user' & limit' & Hu & _). discriminate.
Qed.

(** Alice has used ONCE once: she is declined. *)
Lemma user_limit_declines_witness :
  apply_coupon Examples.once_store 0 250%float "ONCE" (Some "alice") None
  = (0%float, "You have reached the usage limit for this coupon").
Proof.
  apply (user_limit_declines Examples.once_store 0 250%float "ONCE" (Some "alice") None
           Examples.ONCE
           [ {| usage_coupon_id := "c-once"; usage_user_id := "alice" |} ]).
  - reflexivity.
  - reflexivity.
  - reflexivity.
  - reflexivity.
  - reflexivity.
  - exists "alice", 1. repeat split; [discriminate | discriminate | cbn; lia].
Defined.

(** X20.  For a coupon that reaches the minimum-order check with
    [min_order_amount = m], [apply_coupon] answers "Minimum order amount
    $m required", with m printed with two decimals, exactly when m is not 0
    and [cart_total < m]; a cart total equal to the minimum passes. *)
Theorem minimum_order_declines (db : database) (now : Z) (cart_total : float)
    (code : string) (user_id : option string)
    (cart_items : option (list CartItem)) (c : Coupon) (m : float) :
  find_one (coupon_filter code) (coupons_collection db) = Return (Some c) ->
  not_yet_active now c = Return false ->
  has_expired now c = Return false ->
  usage_limit_exceeded c = false ->
  user_limit_reached (coupon_usage_collection db) c user_id = Return false ->
  min_order_amount c = Some m ->
  (apply_coupon db now cart_total code user_id cart_items
   = (0%float, "Minimum order amount $" ++ format_2f m ++ " required")
   <-> truthy_float m && PrimFloat.ltb cart_total m = true).
Proof.
  intros Hfind Hstart Hexp Hlimit Huser Hmin.
  unfold apply_coupon, apply_coupon_body.
  rewrite Hfind. cbn [bind]. rewrite Hstart. cbn [bind]. rewrite Hexp. cbn [bind].
  rewrite Hlimit, Huser. cbn [bind].
  unfold below_minimum. rewrite Hmin.
  destruct (truthy_float m && PrimFloat.ltb cart_total m).
  - split; reflexivity.
  - split; [ | discriminate].
    destruct (check_scope (products_collection db) c cart_total cart_items)
      as [[total | ] | e]; cbn [bind]; other_message.
Qed.

(** 49.99 misses the minimum of 50.00; 50.00 does not. *)
Lemma minimum_order_declines_witness :
  apply_coupon (Examples.coupon_store [CouponExamples.MIN50]) 0 49.99%float "MIN50"
               None None
  = (0%float, "Minimum order amount $50.00 required")
  /\ apply_coupon (Examples.coupon_store [CouponExamples.MIN50]) 0 50%float "MIN50"
                  None None
     = (5%float, "Coupon applied successfully").
Proof.
  split.
  - etransitivity.
    + apply (minimum_order_declines (Examples.coupon_store [CouponExamples.MIN50]) 0
               49.99%float "MIN50" None None CouponExamples.MIN50 50%float).
      * reflexivity.
      * reflexivity.
      * reflexivity.
      * reflexivity.
      * reflexivity.
      * reflexivity.
      * vm_compute. reflexivity.
    + vm_compute. reflexivity.
  - vm_compute. reflexivity.
Defined.

End LimitFacts.

(** ** Twilio and the local fallback *)

Section TwilioFacts.

Import VerificationService Delivery.

(** X21.  A code handed out by the fallback of [send_sms_verification]
    (Twilio is configured but raised at send time) is stored locally and
    returned in [dev_code], yet [verify_sms_code] does not consult the local
    collection while Twilio answers: the outcome is Twilio's status alone and
    the collection is left as it is.  Only if Twilio raises again at check
    time does the stored code verify, for purpose "verification" and until
    ten minutes after the start of the millisecond in which the clock was
    read for [expires_at]. *)
Theorem fallback_code_is_checked_by_twilio (self : Service) (client : TwilioClient)
    (service : string) (docs : list VerificationCode) (now now' : clock)
    (phone purpose code text : string) :
  twilio_client self = Some client ->
  twilio_verify_service self = Some service ->
  truthy_str service = true ->
  verifications_create client service phone = Fails text ->
  let sent := send_sms_verification self (Return docs) now phone purpose code in
  fst sent = {| success := true; message := "SMS sent to " ++ phone ++ " (fallback)";
                dev_code := Some code; status := None |}
  /\ snd sent = snd (store_verification_code (Return docs) now phone code "sms" purpose)
  /\ (forall code' check_status,
        verification_checks_create client service phone code' = Answer check_status ->
        verify_sms_code self (snd sent) now' phone code'
        = (phone_reply (String.eqb check_status "approved"), snd sent))
  /\ (forall text',
        verification_checks_create client service phone code = Fails text' ->
        purpose = "verification" ->
        (success (fst (verify_sms_code self (snd sent) now' phone code)) = true
         <-> reading 0 now' < 1000 * (reading 1 now / 1000) + 10 * 60 * 1000000)).
Proof.
  intros Hclient Hservice Htruthy Hsend. cbv zeta.
  assert (Hsent : send_sms_verification self (Return docs) now phone purpose code
                  = ({| success := true;
                        message := "SMS sent to " ++ phone ++ " (fallback)";
                        dev_code := Some code; status := None |},
                     snd (store_verification_code (Return docs) now phone code "sms"
                                                  purpose))).
  { unfold send_sms_verification, store_and_echo.
    rewrite Hclient, Hservice, Htruthy, Hsend, store_reachable. reflexivity. }
  rewrite Hsent. cbn [fst snd].
  split; [reflexivity | ]. split; [reflexivity | ]. split.
  - intros code' check_status Hcheck. unfold verify_sms_code.
    rewrite Hclient, Hservice, Htruthy, Hcheck. reflexivity.
  - intros text' Hcheck ->. unfold verify_sms_code.
    rewrite Hclient, Hservice, Htruthy, Hcheck.
    rewrite store_reachable. cbn [snd]. rewrite verify_reachable. cbv zeta.
    rewrite (find_own_after_store docs now (reading 0 now') phone code "sms"
               "verification").
    destruct (reading 0 now' <? 1000 * (reading 1 now / 1000) + 10 * 60 * 1000000)
      eqn:Hnow; cbn [fst success phone_reply].
    + apply Z.ltb_lt in Hnow. split; [intros _; exact Hnow | reflexivity].
    + apply Z.ltb_ge in Hnow. split; [discriminate | lia].
Qed.

(** Twilio raises at send time and answers "pending" at check time: the
    code the caller was given is rejected one instant later. *)
Lemma fallback_code_is_checked_by_twilio_witness :
  fst (verify_sms_code RouteExamples.twilio_service
         (snd (send_sms_verification RouteExamples.twilio_service (Return [])
                 (Examples.stopped 0) "+15550100" "verification" "123456"))
         (Examples.stopped 1) "+15550100" "123456")
  = phone_reply false.
Proof.
  destruct (fallback_code_is_checked_by_twilio RouteExamples.twilio_service
              RouteExamples.shaky_twilio "VA1" [] (Examples.stopped 0)
              (Examples.stopped 1) "+15550100" "verification"
              "123456" "service unavailable" eq_refl eq_refl eq_refl eq_refl)
    as (_ & _ & Hcheck & _).
  rewrite (Hcheck "123456" "pending" eq_refl). reflexivity.
Defined.

End TwilioFacts.

(** ** Coupon updates *)

Section UpdateFacts.

Import Server ShopRoutes.

(** [update_coupon] either refuses and writes nothing, or answers with the
    document it wrote in place of the one it found. *)
Lemma update_coupon_cases (docs : list Coupon) (id : string) (u : CouponUpdate) :
  (exists status_code d,
     update_coupon (Return docs) id u = (Error status_code d, Return docs))
  \/ exists pre existing post,
       docs = (pre ++ existing :: post)%list
       /\ List.find (id_filter id) docs = Some existing
       /\ update_coupon (Return docs) id u
          = (Ok (apply_update u existing),
             Return (pre ++ apply_update u existing :: post)%list)
       /\ match upd_code u with
          | Some code =>
              truthy_str code = false \/ code = coupon_code existing
              \/ ~ In code (map coupon_code docs)
          | None => True
          end.
Proof.
  destruct (List.find (id_filter id) docs) as [existing | ] eqn:Hfind.
  - destruct (find_split _ _ _ Hfind) as (pre & post & Hdocs & Hid & Hpre).
    assert (Hupd : update_first (id_filter id) (apply_update u) docs
                   = (pre ++ apply_update u existing :: post)%list).
    { rewrite Hdocs. apply update_first_split; assumption. }
    assert (Hback : List.find (id_filter id)
                      (update_first (id_filter id) (apply_update u) docs)
                    = Some (apply_update u existing)).
    { apply find_update_first; [exact Hfind | exact Hid]. }
    assert (Hwrite :
      (reraise_or_500
         (updated_coupon <~ lift (find_one (id_filter id)
                                    (update_one (id_filter id) (apply_update u)
                                                (Return docs))) ;;
          match updated_coupon with
          | Some c => Value c
          | None => Raised AttributeError
          end),
       update_one (id_filter id) (apply_update u) (Return docs))
      = (Ok (apply_update u existing),
         Return (pre ++ apply_update u existing :: post)%list)).
    { unfold update_one, find_one. cbn [bind]. rewrite Hback, Hupd. reflexivity. }
    assert (Hstart : find_one (id_filter id) (Return docs) = Return (Some existing)).
    { unfold find_one. cbn [bind]. rewrite Hfind. reflexivity. }
    destruct (upd_code u) as [code | ] eqn:Hcode.
    + destruct (truthy_str code) eqn:Htruthy.
      * destruct (String.eqb code (coupon_code existing)) eqn:Hsame.
        -- right. exists pre, existing, post.
           split; [exact Hdocs | split; [reflexivity | split]].
           ++ unfold update_coupon. rewrite Hstart, Hcode, Htruthy, Hsame.
              exact Hwrite.
           ++ right. left. apply String.eqb_eq. exact Hsame.
        -- destruct (List.find (code_filter code) docs) as [other | ] eqn:Hother.
           ++ left. exists 400, (Text "Coupon code already exists").
              unfold update_coupon. rewrite Hstart, Hcode, Htruthy, Hsame.
              cbn [andb negb]. unfold find_one. cbn [bind]. rewrite Hother.
              reflexivity.
           ++ right. exists pre, existing, post.
              split; [exact Hdocs | split; [reflexivity | split]].
              ** unfold update_coupon. rewrite Hstart, Hcode, Htruthy, Hsame.
                 cbn [andb negb]. unfold find_one at 1. cbn [bind]. rewrite Hother.
                 exact Hwrite.
              ** right. right. apply find_code_none. exact Hother.
      * right. exists pre, existing, post.
        split; [exact Hdocs | split; [reflexivity | split]].
        -- unfold update_coupon. rewrite Hstart, Hcode, Htruthy. exact Hwrite.
        -- left. reflexivity.
    + right. exists pre, existing, post.
      split; [exact Hdocs | split; [reflexivity | split; [ | exact I]]].
      unfold update_coupon. rewrite Hstart, Hcode. exact Hwrite.
  - left. exists 404, (Text "Coupon not found").
    unfold update_coupon, find_one. cbn [bind]. rewrite Hfind. reflexivity.
Qed.

(** X22.  An update keeps coupon codes pairwise distinct unless it sets
    the empty code (which skips the conflict check); it never touches
    [used_count], and a limit, bound or date that is set stays set: a field
    can be replaced but not cleared. *)
Theorem update_coupon_keeps_codes_distinct (docs : list Coupon) (id : string)
    (u : CouponUpdate) :
  NoDup (map coupon_code docs) ->
  upd_code u <> Some EmptyString ->
  (forall docs', snd (update_coupon (Return docs) id u) = Return docs' ->
                 NoDup (map coupon_code docs'))
  /\ (forall existing updated,
        List.find (id_filter id) docs = Some existing ->
        fst (update_coupon (Return docs) id u) = Ok updated ->
        used_count updated = used_count existing
        /\ (max_discount existing <> None -> max_discount updated <> None)
        /\ (min_order_amount existing <> None -> min_order_amount updated <> None)
        /\ (usage_limit existing <> None -> usage_limit updated <> None)
        /\ (usage_per_user existing <> None -> usage_per_user updated <> None)
        /\ (starts_at existing <> None -> starts_at updated <> None)
        /\ (expires_at existing <> None -> expires_at updated <> None)).
Proof.
  intros Hnodup Hcode.
  destruct (update_coupon_cases docs id u)
    as [(status_code & d & Hrefused)
       | (pre & existing & post & Hdocs & Hfind & Hdone & Hnew)].
  - rewrite Hrefused. cbn [fst snd]. split.
    + intros docs' H. injection H as <-. exact Hnodup.
    + intros existing updated _ Hok. discriminate Hok.
  - rewrite Hdone. cbn [fst snd]. split.
    + intros docs' H. injection H as <-.
      rewrite Hdocs, map_app in Hnodup. cbn [map] in Hnodup.
      rewrite map_app. cbn [map].
      unfold apply_update at 1. cbn [coupon_code].
      destruct (upd_code u) as [code | ]; cbn [or_old]; [ | exact Hnodup].
      destruct Hnew as [Hempty | [-> | Hfresh]].
      * destruct code; [contradiction Hcode; reflexivity | discriminate].
      * exact Hnodup.
      * apply NoDup_remove in Hnodup. destruct Hnodup as [Hrest _].
        apply (NoDup_Add (Add_app code (map coupon_code pre) (map coupon_code post))).
        split; [exact Hrest | ].
        intros Hin. apply Hfresh. rewrite Hdocs, map_app. cbn [map].
        apply in_app_or in Hin. apply in_or_app.
        destruct Hin as [H | H]; [left; exact H | right; right; exact H].
    + intros existing' updated Hfind' Hok.
      rewrite Hfind in Hfind'. injection Hfind' as <-.
      injection Hok as <-.
      unfold apply_update. cbn.
      split; [reflexivity | ].
      repeat split; intros Hset;
        match goal with
        | |- or_kept ?new ?old <> None => destruct new; [discriminate | exact Hset]
        end.
Qed.

(** SAVE10 may be renamed to a free code. *)
Lemma update_coupon_keeps_codes_distinct_witness :
  NoDup (map coupon_code
           [ ShopRoutes.apply_update (CouponExamples.rename "SAVE15") Examples.SAVE10;
             Examples.FLAT30 ]).
Proof.
  destruct (update_coupon_keeps_codes_distinct [Examples.SAVE10; Examples.FLAT30]
              "c-save10" (CouponExamples.rename "SAVE15")) as [Hcodes _].
  - repeat constructor; cbn; intuition discriminate.
  - discriminate.
  - apply Hcodes. reflexivity.
Defined.

(** The empty code escapes the conflict check: FLAT30 can be renamed to the
    code another coupon carries, and two coupons then share a code. *)
Example empty_code_is_not_checked :
  NoDup (map coupon_code [CouponExamples.NAMELESS; Examples.FLAT30])
  /\ update_coupon (Return [CouponExamples.NAMELESS; Examples.FLAT30]) "c-flat30"
                   (CouponExamples.rename EmptyString)
     = (Ok (apply_update (CouponExamples.rename EmptyString) Examples.FLAT30),
        Return [ CouponExamples.NAMELESS;
                 apply_update (CouponExamples.rename EmptyString) Examples.FLAT30 ])
  /\ coupon_code (apply_update (CouponExamples.rename EmptyString) Examples.FLAT30)
     = coupon_code CouponExamples.NAMELESS.
Proof.
  split; [repeat constructor; cbn; intuition discriminate | ].
  split; reflexivity.
Qed.

End UpdateFacts.
